(** * Transcript analyzer and summary generator

    A shallow embedding of [hooks/utils/transcript_analyzer.py] and
    [hooks/utils/summary_generator.py], and the properties of the
    analysis pipeline proved over it.

    Conventions of the embedding.
    - A Python [str] is a Rocq [string], one [ascii] per code point; the
      model covers text whose code points are below 256.
    - A value decoded by [json.loads] is a [pyval]; a [dict] keeps its items
      in insertion order (keys distinct) and is looked up by key. Values
      are as [json.loads] builds them: every container is a fresh object,
      and every [NaN] literal decodes to the one float object
      [json.decoder.NaN].
    - A Python [float] is a binary64 number of [SpecFloat]; every
      operation rounds to nearest, ties to even.
    - Code that can raise returns [result A = exn + A]; [try/except
      Exception] is a match on the sum, [except json.JSONDecodeError] a
      match on that one class.
    - [str()], [json.loads] and [datetime.fromisoformat] belong to the
      Python library, not to this repository: they are section variables.
      [json.loads] returns a value or raises: [JSONDecodeError] on text
      that is not JSON, and other exceptions on text that is
      ([RecursionError] on deep nesting, [ValueError] on an integer
      literal beyond the digit limit).
    - The library is that of Python 3.11, the version the scripts ask
      for. *)

From Stdlib Require Import ZArith List String Ascii Bool Lia DecimalString.
From Corelib Require Import SpecFloat.
Import ListNotations.
Local Open Scope string_scope.

(** ** Python built-ins on [str] *)

Module Py.

Definition ord (c : ascii) : N := N_of_ascii c.

(** [str.isspace] on one character (code points below 256). *)
Definition isspace (c : ascii) : bool :=
  let n := ord c in
  (((9 <=? n) && (n <=? 13)) || ((28 <=? n) && (n <=? 32))
   || (n =? 133) || (n =? 160))%N.

Fixpoint lstrip (s : string) : string :=
  match s with
  | String c r => if isspace c then lstrip r else s
  | EmptyString => EmptyString
  end.

Fixpoint rstrip (s : string) : string :=
  match s with
  | EmptyString => EmptyString
  | String c r =>
      match rstrip r with
      | EmptyString => if isspace c then EmptyString else String c EmptyString
      | r' => String c r'
      end
  end.

Definition strip (s : string) : string := rstrip (lstrip s).

(** [str.lower] on one character: A-Z, and the upper-case letters of the
    Latin-1 block (0xC0-0xDE without the multiplication sign). *)
Definition lower_char (c : ascii) : ascii :=
  let n := ord c in
  if (((65 <=? n) && (n <=? 90))
      || ((192 <=? n) && (n <=? 222) && negb (n =? 215)))%N
  then ascii_of_N (n + 32) else c.

Fixpoint lower (s : string) : string :=
  match s with
  | EmptyString => EmptyString
  | String c r => String (lower_char c) (lower r)
  end.

(** [s[:n]] *)
Fixpoint take (n : nat) (s : string) : string :=
  match n, s with
  | S n', String c r => String c (take n' r)
  | _, _ => EmptyString
  end.

(** [s.startswith(p)] *)
Fixpoint startswith (s p : string) : bool :=
  match p, s with
  | EmptyString, _ => true
  | String a p', String b s' => Ascii.eqb a b && startswith s' p'
  | String _ _, EmptyString => false
  end.

(** [p in s] for two strings *)
Fixpoint str_in (p s : string) : bool :=
  startswith s p ||
  match s with
  | EmptyString => false
  | String _ s' => str_in p s'
  end.

(** [s.rfind(c)] for a one-character needle: the highest index holding
    [c], or -1. *)
Fixpoint rfind_from (c : ascii) (s : string) (i acc : Z) : Z :=
  match s with
  | EmptyString => acc
  | String a r => rfind_from c r (i + 1) (if Ascii.eqb a c then i else acc)
  end.

Definition rfind (s : string) (c : ascii) : Z := rfind_from c s 0 (-1).

(** [sep.join(l)] *)
Definition join (sep : string) (l : list string) : string :=
  String.concat sep l.

(** [str(n)] for a non-negative [int], as f-strings render a [len()] *)
Definition str_of_nat (n : nat) : string :=
  NilZero.string_of_uint (Nat.to_uint n).

(** [s.split(c)] for a one-character separator *)
Fixpoint split (s : string) (c : ascii) : list string :=
  match s with
  | EmptyString => [EmptyString]
  | String a r =>
      if Ascii.eqb a c then EmptyString :: split r c
      else match split r c with
           | h :: t => String a h :: t
           | [] => [String a EmptyString]
           end
  end.

(** [s.replace(c, t)] for a one-character [c]: every occurrence *)
Fixpoint replace (s : string) (c : ascii) (t : string) : string :=
  match s with
  | EmptyString => EmptyString
  | String a r =>
      if Ascii.eqb a c then t ++ replace r c t else String a (replace r c t)
  end.

Definition nonempty (s : string) : bool := negb (String.eqb s "").

Definition space : ascii := " "%char.

(** [s[-1]] when there is one *)
Definition last_char (s : string) : option ascii :=
  String.get (String.length s - 1) s.

Definition dquote : string := String (ascii_of_nat 34) EmptyString.

(** [any(k in s for k in keywords)] *)
Definition any_in (keywords : list string) (s : string) : bool :=
  existsb (fun k => str_in k s) keywords.

(** [l[-n:]] for a list *)
Definition last_n {A} (n : nat) (l : list A) : list A :=
  skipn (List.length l - n) l.

End Py.

(** ** binary64 arithmetic *)

Module F64.

Definition prec : Z := 53.
Definition emax : Z := 1024.

Definition float := spec_float.

Definition zero : float := S754_zero false.

(** [float(z)] for an [int], correctly rounded *)
Definition of_int (z : Z) : float := binary_normalize prec emax z 0 false.

Definition mul : float -> float -> float := SFmul prec emax.
Definition div : float -> float -> float := SFdiv prec emax.

(** [a / b] for two [int]s with [b > 0]: one correctly rounded division *)
Definition int_truediv (a : Z) (b : positive) : float :=
  match a with
  | Z0 => zero
  | Zpos m => div (S754_finite false m 0) (S754_finite false b 0)
  | Zneg m => div (S754_finite true m 0) (S754_finite false b 0)
  end.

(** [z > f] for an [int] and a [float]; Python compares the exact values *)
Definition int_gt (z : Z) (f : float) : bool :=
  match f with
  | S754_zero _ => (0 <? z)%Z
  | S754_infinity s => s
  | S754_nan => false
  | S754_finite s m e =>
      let v := if s then Zneg m else Zpos m in
      if (0 <=? e)%Z then (v * 2 ^ e <? z)%Z else (v <? z * 2 ^ (- e))%Z
  end.

(** [f == z] for a [float] and an [int], on the exact values *)
Definition eq_int (f : float) (z : Z) : bool :=
  match f with
  | S754_zero _ => (z =? 0)%Z
  | S754_finite s m e =>
      let v := if s then Zneg m else Zpos m in
      if (0 <=? e)%Z then (v * 2 ^ e =? z)%Z else (v =? z * 2 ^ (- e))%Z
  | _ => false
  end.

(** The float 5.5, that is 11 * 2^-1 with a 53-bit mantissa *)
Definition lit_5_5 : float := S754_finite false 6192449487634432 (-50).

(** The literal [0.7]: the float nearest to 7/10 *)
Definition lit_0_7 : float := S754_finite false 6305039478318694 (-53).

Definition eqb (f g : float) : bool := SFeqb f g.

(** The same float, bit for bit *)
Definition same (f g : float) : bool :=
  match f, g with
  | S754_zero a, S754_zero b => Bool.eqb a b
  | S754_infinity a, S754_infinity b => Bool.eqb a b
  | S754_nan, S754_nan => true
  | S754_finite a m e, S754_finite b n k =>
      Bool.eqb a b && Pos.eqb m n && Z.eqb e k
  | _, _ => false
  end.

Definition truthy (f : float) : bool :=
  match f with
  | S754_zero _ => false
  | _ => true
  end.

(** The integer nearest to [n / d], ties to even ([d > 0], [n >= 0]) *)
Definition div_half_even (n d : Z) : Z :=
  let q := (n / d)%Z in
  let r := (n mod d)%Z in
  match (2 * r ?= d)%Z with
  | Lt => q
  | Gt => (q + 1)%Z
  | Eq => if Z.even q then q else (q + 1)%Z
  end.

(** The number of tenths nearest to the exact value of [m * 2^e] *)
Definition tenths (m : positive) (e : Z) : Z :=
  if (0 <=? e)%Z then (10 * Zpos m * 2 ^ e)%Z
  else div_half_even (10 * Zpos m) (2 ^ (- e)).

(** [round(x, 1)]: the exact value of [x] is rounded to one decimal,
    ties to even, and the decimal converted back to the nearest float. *)
Definition round1 (x : float) : float :=
  match x with
  | S754_finite s m e =>
      match tenths m e with
      | Zpos n => div (S754_finite s n 0) (S754_finite false 10 0)
      | _ => S754_zero s
      end
  | _ => x
  end.

End F64.

(** ** Values decoded from a transcript line *)

#[warnings="-register-all"]
Inductive pyval : Type :=
| PNone
| PBool (b : bool)
| PInt (z : Z)
| PFloat (f : F64.float)
| PStr (s : string)
| PList (l : list pyval)
| PDict (d : list (string * pyval)).

Definition dict := list (string * pyval).

(** [d[k]] when present *)
Fixpoint dict_lookup (k : string) (d : dict) : option pyval :=
  match d with
  | [] => None
  | (k', v) :: r => if String.eqb k k' then Some v else dict_lookup k r
  end.

(** [k in d] *)
Definition dict_has (k : string) (d : dict) : bool :=
  match dict_lookup k d with
  | Some _ => true
  | None => false
  end.

(** [d.get(k, default)] on a value known to be a [dict] *)
Definition dict_get (d : dict) (k : string) (default : pyval) : pyval :=
  match dict_lookup k d with
  | Some v => v
  | None => default
  end.

Definition as_int (v : pyval) : option Z :=
  match v with
  | PBool b => Some (if b then 1 else 0)%Z
  | PInt z => Some z
  | _ => None
  end.

(** [a == b] when neither side is a container *)
Definition scalar_eq (a b : pyval) : bool :=
  match a, b with
  | PNone, PNone => true
  | PStr s, PStr t => String.eqb s t
  | PFloat f, PFloat g => F64.eqb f g
  | PFloat f, _ =>
      match as_int b with
      | Some z => F64.eq_int f z
      | None => false
      end
  | _, PFloat g =>
      match as_int a with
      | Some z => F64.eq_int g z
      | None => false
      end
  | _, _ =>
      match as_int a, as_int b with
      | Some x, Some y => Z.eqb x y
      | _, _ => false
      end
  end.

(** [a is b] for two decoded values that [==] tells apart: both are the
    float [NaN], of which [json.loads] builds one object only. *)
Definition same_nan (a b : pyval) : bool :=
  match a, b with
  | PFloat S754_nan, PFloat S754_nan => true
  | _, _ => false
  end.

(** [a == b]: lists compare element by element, dicts as mappings. A
    container compares two of its elements with [x is y or x == y]; the
    operator [==] itself has no such shortcut, so [NaN == NaN] is false
    and [[NaN] == [NaN]] is true. *)
Fixpoint py_eq (a b : pyval) {struct a} : bool :=
  match a, b with
  | PList l, PList m =>
      (fix all2 (l m : list pyval) {struct l} : bool :=
         match l, m with
         | [], [] => true
         | x :: l', y :: m' => (same_nan x y || py_eq x y) && all2 l' m'
         | _, _ => false
         end) l m
  | PDict d, PDict e =>
      Nat.eqb (List.length d) (List.length e) &&
      (fix every (d : dict) {struct d} : bool :=
         match d with
         | [] => true
         | (k, v) :: d' =>
             match dict_lookup k e with
             | Some w => same_nan v w || py_eq v w
             | None => false
             end && every d'
         end) d
  | _, _ => scalar_eq a b
  end.

(** [bool(v)] *)
Definition truthy (v : pyval) : bool :=
  match v with
  | PNone => false
  | PBool b => b
  | PInt z => negb (z =? 0)%Z
  | PFloat f => F64.truthy f
  | PStr s => negb (String.eqb s "")
  | PList l => negb (Nat.eqb (List.length l) 0)
  | PDict d => negb (Nat.eqb (List.length d) 0)
  end.

(** [type(v).__name__] *)
Definition type_name (v : pyval) : string :=
  match v with
  | PNone => "NoneType"
  | PBool _ => "bool"
  | PInt _ => "int"
  | PFloat _ => "float"
  | PStr _ => "str"
  | PList _ => "list"
  | PDict _ => "dict"
  end.

(** ** Exceptions *)

(** The classes of the exceptions that the code meets. [JSONDecodeError]
    is a subclass of [ValueError]: a handler for [JSONDecodeError] does not
    catch a plain [ValueError]. *)
Inductive exn : Type :=
| AttributeError (msg : string)
| TypeError (msg : string)
| ValueError (msg : string)
| JSONDecodeError (msg : string)
| RecursionError (msg : string)
| OSError (msg : string).

(** [str(e)] *)
Definition str_exn (e : exn) : string :=
  match e with
  | AttributeError m | TypeError m | ValueError m | JSONDecodeError m
  | RecursionError m | OSError m => m
  end.

Definition result (A : Type) : Type := (exn + A)%type.

Definition ret {A} (a : A) : result A := inr a.
Definition raise {A} (e : exn) : result A := inl e.

Definition bind {A B} (m : result A) (k : A -> result B) : result B :=
  match m with
  | inl e => inl e
  | inr a => k a
  end.

Declare Scope py_scope.
Delimit Scope py_scope with py.
Notation "x <- m ;; k" := (bind m (fun x => k))
  (at level 61, m at next level, right associativity) : py_scope.
Local Open Scope py_scope.

(** [[x for x in l if p(x)]] where the test can raise *)
Fixpoint filterM {A} (p : A -> result bool) (l : list A) : result (list A) :=
  match l with
  | [] => ret []
  | x :: r =>
      b <- p x ;;
      r' <- filterM p r ;;
      ret (if b then x :: r' else r')
  end.

(** [[f(x) for x in l]] where [f] can raise *)
Fixpoint mapM {A B} (f : A -> result B) (l : list A) : result (list B) :=
  match l with
  | [] => ret []
  | x :: r =>
      y <- f x ;;
      r' <- mapM f r ;;
      ret (y :: r')
  end.

(** A loop [for x in l: st = body(st, x)] whose body can raise *)
Fixpoint foldM {A S} (body : S -> A -> result S) (l : list A) (st : S)
  : result S :=
  match l with
  | [] => ret st
  | x :: r =>
      st' <- body st x ;;
      foldM body r st'
  end.

Definition no_attribute {A} (v : pyval) (attr : string) : result A :=
  raise (AttributeError
           ("'" ++ type_name v ++ "' object has no attribute '" ++ attr ++ "'")).

(** [v.get(k, default)] on an arbitrary value: only a [dict] has [get] *)
Definition py_get (v : pyval) (k : string) (default : pyval) : result pyval :=
  match v with
  | PDict d => ret (dict_get d k default)
  | _ => no_attribute v "get"
  end.

(** [v.lower()], [v.strip()], [v.startswith(p)]: only a [str] has them *)
Definition py_lower (v : pyval) : result string :=
  match v with
  | PStr s => ret (Py.lower s)
  | _ => no_attribute v "lower"
  end.

Definition py_strip (v : pyval) : result string :=
  match v with
  | PStr s => ret (Py.strip s)
  | _ => no_attribute v "strip"
  end.

Definition py_replace (v : pyval) (c : ascii) (t : string) : result string :=
  match v with
  | PStr s => ret (Py.replace s c t)
  | _ => no_attribute v "replace"
  end.

Definition py_startswith (v : pyval) (p : string) : result bool :=
  match v with
  | PStr s => ret (Py.startswith s p)
  | _ => no_attribute v "startswith"
  end.

(** [len(v)] *)
Definition py_len (v : pyval) : result nat :=
  match v with
  | PStr s => ret (String.length s)
  | PList l => ret (List.length l)
  | PDict d => ret (List.length d)
  | _ => raise (TypeError ("object of type '" ++ type_name v ++ "' has no len()"))
  end.

(** [v in names] for a set of strings: the value is hashed first *)
Definition in_str_set (v : pyval) (names : list string) : result bool :=
  match v with
  | PStr s => ret (existsb (String.eqb s) names)
  | PList _ | PDict _ => raise (TypeError ("unhashable type: '" ++ type_name v ++ "'"))
  | _ => ret false
  end.

(** [Path(p).name] on a POSIX path: the last component that is neither
    empty nor ".", or the empty string *)
Definition path_name (p : string) : string :=
  List.last
    (filter (fun c => negb (String.eqb c "") && negb (String.eqb c "."))
            (Py.split p "/"))
    "".

(** [Path(v).name]: [Path] refuses anything but a [str] *)
Definition py_path_name (v : pyval) : result string :=
  match v with
  | PStr p => ret (path_name p)
  | _ => raise (TypeError ("expected str, bytes or os.PathLike object, not "
                           ++ type_name v))
  end.

(** ** The [datetime] values that [fromisoformat] returns *)

Module Datetime.

Record datetime : Type := mk_datetime {
  year : Z;
  month : Z;
  day : Z;
  hour : Z;
  minute : Z;
  second : Z;
  microsecond : Z;
  (** [None] for a naive value, else the UTC offset in microseconds *)
  utcoffset : option Z
}.

Definition is_leap (y : Z) : bool :=
  ((y mod 4 =? 0) && (negb (y mod 100 =? 0) || (y mod 400 =? 0)))%Z.

Definition days_before_year (y : Z) : Z :=
  let p := (y - 1)%Z in (p * 365 + p / 4 - p / 100 + p / 400)%Z.

Definition days_before_month (y m : Z) : Z :=
  (nth (Z.to_nat m) [0; 0; 31; 59; 90; 120; 151; 181; 212; 243; 273; 304; 334] 0
   + (if (2 <? m) && is_leap y then 1 else 0))%Z.

Definition ymd2ord (y m d : Z) : Z :=
  (days_before_year y + days_before_month y m + d)%Z.

(** Microseconds of the wall-clock reading since the ordinal origin *)
Definition wall_microseconds (t : datetime) : Z :=
  (((ymd2ord (year t) (month t) (day t) * 86400
     + hour t * 3600 + minute t * 60 + second t) * 1000000)
   + microsecond t)%Z.

(** [a - b] as a [timedelta], kept as its number of microseconds *)
Definition sub (a b : datetime) : result Z :=
  match utcoffset a, utcoffset b with
  | None, None => ret (wall_microseconds a - wall_microseconds b)%Z
  | Some oa, Some ob =>
      ret ((wall_microseconds a - oa) - (wall_microseconds b - ob))%Z
  | _, _ =>
      raise (TypeError "can't subtract offset-naive and offset-aware datetimes")
  end.

(** [timedelta.total_seconds()] *)
Definition total_seconds (microseconds : Z) : F64.float :=
  F64.int_truediv microseconds 1000000.

End Datetime.

(** ** The dataclasses of [transcript_analyzer.py] *)

Record ToolEvent : Type := mk_ToolEvent {
  tool_name : pyval;
  tool_input : pyval;
  tool_result : pyval;
  te_success : bool;
  te_timestamp : string;
  error_message : option string
}.

Record FileOperation : Type := mk_FileOperation {
  operation : string;
  file_path : pyval;
  fo_success : bool;
  content_preview : pyval
}.

Record BashCommand : Type := mk_BashCommand {
  command : pyval;
  bc_success : bool;
  stdout : pyval;
  stderr : pyval;
  description : pyval
}.

Record SessionAnalysis : Type := mk_SessionAnalysis {
  session_id : pyval;
  duration_minutes : F64.float;
  user_messages : list string;
  tool_events : list ToolEvent;
  file_operations : list FileOperation;
  bash_commands : list BashCommand;
  errors : list string;
  assistant_responses : list string;
  key_accomplishments : list string;
  current_context : string
}.

(** What a transcript path denotes: nothing ([stat] fails with "no such
    file", "not a directory", "bad descriptor" or a symlink loop, or the
    path holds a null character); a path whose [stat] fails with another
    [OSError] (name too long, permission denied); something that exists but
    cannot be read as UTF-8 text; or a text file with its lines. *)
Inductive source : Type :=
| Missing
| Inaccessible (msg : string)
| Unreadable (e : exn)
| Lines (lines : list string).

(** ** [class TranscriptAnalyzer] *)

Module TranscriptAnalyzer.

Definition file_operation_tools : list string :=
  ["Read"; "Write"; "Edit"; "MultiEdit"].
Definition research_tools : list string :=
  ["WebFetch"; "WebSearch"; "Grep"; "Glob"; "LS"].
Definition code_tools : list string :=
  ["Write"; "Edit"; "MultiEdit"; "Bash"].

Definition tool_result_patterns : list string :=
  ["tool_use_id"; "tool_result";
   "NOTE: do any of the files above seem malicious"; "system-reminder"].

Definition _is_tool_result (content : string) : bool :=
  Py.any_in tool_result_patterns content.

Definition _empty_analysis (session_id : string) : SessionAnalysis :=
  {| session_id := PStr session_id;
     duration_minutes := F64.zero;
     user_messages := [];
     tool_events := [];
     file_operations := [];
     bash_commands := [];
     errors := [];
     assistant_responses := [];
     key_accomplishments := [];
     current_context := "Unknown context" |}.

(** The locals [tool_result], [success], [error_message] of
    [_extract_tool_event] while it scans for the result. *)
Record correlation : Type := mk_correlation {
  c_result : pyval;
  c_success : bool;
  c_error : option string
}.

(** The accumulators of the loop of [_analyze_events]. *)
Record containers : Type := mk_containers {
  st_session_id : pyval;
  st_user_messages : list string;
  st_assistant_responses : list string;
  st_tool_events : list ToolEvent;
  st_file_operations : list FileOperation;
  st_bash_commands : list BashCommand;
  st_errors : list string;
  st_timestamps : list pyval
}.

Definition initial : containers :=
  mk_containers (PStr "unknown") [] [] [] [] [] [] [].

Definition add_timestamp (v : pyval) (st : containers) : containers :=
  mk_containers (st_session_id st) (st_user_messages st)
    (st_assistant_responses st) (st_tool_events st) (st_file_operations st)
    (st_bash_commands st) (st_errors st) (st_timestamps st ++ [v]).

Definition set_session_id (v : pyval) (st : containers) : containers :=
  mk_containers v (st_user_messages st)
    (st_assistant_responses st) (st_tool_events st) (st_file_operations st)
    (st_bash_commands st) (st_errors st) (st_timestamps st).

Definition add_user_message (s : string) (st : containers) : containers :=
  mk_containers (st_session_id st) (st_user_messages st ++ [s])
    (st_assistant_responses st) (st_tool_events st) (st_file_operations st)
    (st_bash_commands st) (st_errors st) (st_timestamps st).

Definition add_assistant_response (s : string) (st : containers) : containers :=
  mk_containers (st_session_id st) (st_user_messages st)
    (st_assistant_responses st ++ [s]) (st_tool_events st)
    (st_file_operations st) (st_bash_commands st) (st_errors st)
    (st_timestamps st).

Definition add_tool_event (e : ToolEvent) (st : containers) : containers :=
  mk_containers (st_session_id st) (st_user_messages st)
    (st_assistant_responses st) (st_tool_events st ++ [e])
    (st_file_operations st) (st_bash_commands st) (st_errors st)
    (st_timestamps st).

Definition add_file_operation (f : FileOperation) (st : containers)
  : containers :=
  mk_containers (st_session_id st) (st_user_messages st)
    (st_assistant_responses st) (st_tool_events st)
    (st_file_operations st ++ [f]) (st_bash_commands st) (st_errors st)
    (st_timestamps st).

Definition add_bash_command (b : BashCommand) (st : containers) : containers :=
  mk_containers (st_session_id st) (st_user_messages st)
    (st_assistant_responses st) (st_tool_events st) (st_file_operations st)
    (st_bash_commands st ++ [b]) (st_errors st) (st_timestamps st).

Definition add_error (s : string) (st : containers) : containers :=
  mk_containers (st_session_id st) (st_user_messages st)
    (st_assistant_responses st) (st_tool_events st) (st_file_operations st)
    (st_bash_commands st) (st_errors st ++ [s]) (st_timestamps st).

(** [operation_map.get(tool_name, 'unknown')] *)
Definition operation_of (name : pyval) : string :=
  match name with
  | PStr s =>
      if String.eqb s "Read" then "read"
      else if String.eqb s "Write" then "write"
      else if String.eqb s "Edit" then "edit"
      else if String.eqb s "MultiEdit" then "edit"
      else "unknown"
  | _ => "unknown"
  end.

(** [c[:100] + '...' if len(c) > 100 else c] *)
Definition preview (c : pyval) : result pyval :=
  n <- py_len c ;;
  if (100 <? n)%nat then
    match c with
    | PStr s => ret (PStr (Py.take 100 s ++ "..."))
    | PList _ =>
        raise (TypeError ("can only concatenate list (not " ++ Py.dquote
                          ++ "str" ++ Py.dquote ++ ") to list"))
    | _ => raise (TypeError "unhashable type: 'slice'")
    end
  else ret c.

Definition _extract_file_operation (tool_event : ToolEvent)
  : result (option FileOperation) :=
  known <- in_str_set (tool_name tool_event) file_operation_tools ;;
  if negb known then ret None
  else
    let operation := operation_of (tool_name tool_event) in
    file_path <- py_get (tool_input tool_event) "file_path" (PStr "") ;;
    content_preview <-
      (if String.eqb operation "write" then
         content <- py_get (tool_input tool_event) "content" (PStr "") ;;
         preview content
       else if String.eqb operation "edit" then
         new_string <- py_get (tool_input tool_event) "new_string" (PStr "") ;;
         preview new_string
       else ret PNone) ;;
    ret (Some (mk_FileOperation operation file_path (te_success tool_event)
                 content_preview)).

Definition _extract_bash_command (tool_event : ToolEvent)
  : result (option BashCommand) :=
  if negb (py_eq (tool_name tool_event) (PStr "Bash")) then ret None
  else
    command <- py_get (tool_input tool_event) "command" (PStr "") ;;
    description <- py_get (tool_input tool_event) "description" (PStr "") ;;
    let '(stdout, stderr) :=
      match tool_result tool_event with
      | PDict r => (dict_get r "stdout" (PStr ""), dict_get r "stderr" (PStr ""))
      | PStr s => (PStr s, PStr "")
      | _ => (PStr "", PStr "")
      end in
    ret (Some (mk_BashCommand command (te_success tool_event) stdout stderr
                 description)).

Definition created_ops (file_ops : list FileOperation) : list FileOperation :=
  filter (fun op => String.eqb (operation op) "write" && fo_success op) file_ops.

Definition modified_ops (file_ops : list FileOperation) : list FileOperation :=
  filter (fun op => String.eqb (operation op) "edit" && fo_success op) file_ops.

Definition is_nil {A} (l : list A) : bool :=
  match l with
  | [] => true
  | _ => false
  end.

Definition _identify_accomplishments (file_ops : list FileOperation)
  (bash_cmds : list BashCommand) (tool_events : list ToolEvent)
  : result (list string) :=
  let files_created := created_ops file_ops in
  let files_modified := modified_ops file_ops in
  let acc1 :=
    if is_nil files_created then []
    else ["Created " ++ Py.str_of_nat (List.length files_created) ++ " file(s)"] in
  let acc2 :=
    if is_nil files_modified then acc1
    else List.app acc1 ["Modified " ++ Py.str_of_nat (List.length files_modified)
                        ++ " file(s)"] in
  let successful_commands := filter bc_success bash_cmds in
  acc3 <-
    (if is_nil successful_commands then ret acc2
     else
       test_commands <-
         filterM (fun cmd => l <- py_lower (command cmd) ;;
                             ret (Py.str_in "test" l)) successful_commands ;;
       build_commands <-
         filterM (fun cmd => l <- py_lower (command cmd) ;;
                             ret (Py.any_in ["build"; "compile"; "npm"; "yarn"] l))
                 successful_commands ;;
       let a := if is_nil test_commands then acc2 else List.app acc2 ["Ran tests"] in
       ret (if is_nil build_commands then a
            else List.app a ["Executed build commands"])) ;;
  research_tools_used <-
    filterM (fun event => in_str_set (tool_name event) research_tools)
            tool_events ;;
  ret (if is_nil research_tools_used then acc3
       else List.app acc3 ["Conducted code research"]).

(** [m[:50] + "..." if len(m) > 50 else m] *)
Definition shorten (m : string) : string :=
  if (50 <? String.length m)%nat then Py.take 50 m ++ "..." else m.

Definition _generate_current_context (user_messages : list string)
  (file_ops : list FileOperation) (bash_cmds : list BashCommand)
  : result string :=
  if is_nil user_messages then ret "Working on current task"
  else
    let last_message := List.last user_messages "" in
    recent_files <-
      (if is_nil file_ops then ret []
       else mapM (fun op => py_path_name (file_path op)) (Py.last_n 3 file_ops)) ;;
    let parts1 :=
      if Py.nonempty last_message then [shorten last_message] else [] in
    let context_parts :=
      if is_nil recent_files then parts1
      else List.app parts1 ["working on " ++ Py.join ", " recent_files] in
    ret (if is_nil context_parts then "Working on current task"
         else Py.join " - " context_parts).

Section Library.

(** [str(v)] of the Python library *)
Variable py_str : pyval -> string.
(** [json.loads] *)
Variable json_loads : string -> result pyval.
(** [datetime.fromisoformat] *)
Variable fromisoformat : string -> result Datetime.datetime.

(** The inner loop of [_extract_tool_event] over the entries of one
    event's content; it stops at the first entry that matches. *)
Fixpoint match_items (tool_id : pyval) (items : list pyval) (st : correlation)
  : correlation :=
  match items with
  | [] => st
  | PDict d :: rest =>
      if py_eq (dict_get d "tool_use_id" PNone) tool_id then
        let tool_result := dict_get d "content" (PStr "") in
        match tool_result with
        | PDict r =>
            if truthy (dict_get r "is_error" (PBool false))
            then mk_correlation tool_result false (Some (py_str tool_result))
            else mk_correlation tool_result (c_success st) (c_error st)
        | _ => mk_correlation tool_result (c_success st) (c_error st)
        end
      else match_items tool_id rest st
  | _ :: rest => match_items tool_id rest st
  end.

(** The body of the outer loop of [_extract_tool_event] for one event. *)
Definition match_event (tool_id : pyval) (st : correlation) (event : pyval)
  : result correlation :=
  match event with
  | PDict d =>
      if py_eq (dict_get d "type" PNone) (PStr "user") && dict_has "message" d
      then
        match dict_get d "message" PNone with
        | PDict message =>
            match dict_get message "content" PNone with
            | PList content => ret (match_items tool_id content st)
            | _ => ret st
            end
        | _ => ret st
        end
      else ret st
  | _ => no_attribute event "get"
  end.

Definition _extract_tool_event (tool_item : dict) (all_events : list pyval)
  : result ToolEvent :=
  let tool_name := dict_get tool_item "name" (PStr "") in
  let tool_input := dict_get tool_item "input" (PDict []) in
  let tool_id := dict_get tool_item "id" (PStr "") in
  st <- foldM (match_event tool_id) all_events
          (mk_correlation PNone true None) ;;
  ret (mk_ToolEvent tool_name tool_input (c_result st) (c_success st) ""
         (c_error st)).

Definition _calculate_duration (timestamps : list pyval) : F64.float :=
  if (List.length timestamps <? 2)%nat then F64.zero
  else
    match
      (s0 <- py_replace (List.hd PNone timestamps) "Z" "+00:00" ;;
       start_time <- fromisoformat s0 ;;
       s1 <- py_replace (List.last timestamps PNone) "Z" "+00:00" ;;
       end_time <- fromisoformat s1 ;;
       delta <- Datetime.sub end_time start_time ;;
       let duration := F64.div (Datetime.total_seconds delta) (F64.of_int 60) in
       ret (F64.round1 duration))
    with
    | inr d => d
    | inl _ => F64.zero
    end.

(** One entry of an assistant message's content. *)
Definition process_item (all_events : list pyval) (st : containers)
  (item : pyval) : result containers :=
  match item with
  | PDict d =>
      if py_eq (dict_get d "type" PNone) (PStr "tool_use") then
        tool_event <- _extract_tool_event d all_events ;;
        let st := add_tool_event tool_event st in
        is_file <- in_str_set (tool_name tool_event) file_operation_tools ;;
        if is_file then
          file_op <- _extract_file_operation tool_event ;;
          match file_op with
          | Some f => ret (add_file_operation f st)
          | None => ret st
          end
        else if py_eq (tool_name tool_event) (PStr "Bash") then
          bash_cmd <- _extract_bash_command tool_event ;;
          match bash_cmd with
          | Some b => ret (add_bash_command b st)
          | None => ret st
          end
        else ret st
      else if py_eq (dict_get d "type" PNone) (PStr "text") then
        text <- py_strip (dict_get d "text" (PStr "")) ;;
        ret (if Py.nonempty text then add_assistant_response text st else st)
      else ret st
  | _ => ret st
  end.

(** The body of the loop of [_analyze_events] for one event. *)
Definition process_event (all_events : list pyval) (st : containers)
  (event : pyval) : result containers :=
  match event with
  | PDict d =>
      let event_type := dict_get d "type" (PStr "") in
      let timestamp := dict_get d "timestamp" (PStr "") in
      let st := if truthy timestamp then add_timestamp timestamp st else st in
      let st :=
        if dict_has "sessionId" d
        then set_session_id (dict_get d "sessionId" PNone) st else st in
      if py_eq event_type (PStr "user") && dict_has "message" d then
        match dict_get d "message" PNone with
        | PDict message =>
            if py_eq (dict_get message "role" PNone) (PStr "user") then
              match dict_get message "content" (PStr "") with
              | PStr content =>
                  if Py.nonempty (Py.strip content)
                     && negb (_is_tool_result content)
                  then ret (add_user_message (Py.strip content) st)
                  else ret st
              | _ => ret st
              end
            else ret st
        | _ => ret st
        end
      else if py_eq event_type (PStr "assistant") && dict_has "message" d then
        match dict_get d "message" PNone with
        | PDict message =>
            match dict_get message "content" (PList []) with
            | PList content => foldM (process_item all_events) content st
            | _ => ret st
            end
        | _ => ret st
        end
      else if py_eq event_type (PStr "system") then
        let content := dict_get d "content" (PStr "") in
        l <- py_lower content ;;
        match content with
        | PStr c =>
            ret (if Py.str_in "error" l || Py.str_in "failed" l
                 then add_error c st else st)
        | _ => ret st
        end
      else ret st
  | _ => no_attribute event "get"
  end.

Definition _analyze_events (events : list pyval) : result SessionAnalysis :=
  st <- foldM (process_event events) events initial ;;
  let duration_minutes := _calculate_duration (st_timestamps st) in
  key_accomplishments <-
    _identify_accomplishments (st_file_operations st) (st_bash_commands st)
      (st_tool_events st) ;;
  current_context <-
    _generate_current_context (st_user_messages st) (st_file_operations st)
      (st_bash_commands st) ;;
  ret {| session_id := st_session_id st;
         duration_minutes := duration_minutes;
         user_messages := st_user_messages st;
         tool_events := st_tool_events st;
         file_operations := st_file_operations st;
         bash_commands := st_bash_commands st;
         errors := st_errors st;
         assistant_responses := st_assistant_responses st;
         key_accomplishments := key_accomplishments;
         current_context := current_context |}.

(** The body of the loop of [_parse_transcript_file] for one line: the
    line is stripped and skipped when empty; [json.loads] appends an event,
    a [JSONDecodeError] is caught and the line skipped, any other exception
    leaves the loop. *)
Definition parse_line (events : list pyval) (line : string)
  : result (list pyval) :=
  let line := Py.strip line in
  if Py.nonempty line then
    match json_loads line with
    | inr event => ret (events ++ [event])%list
    | inl (JSONDecodeError _) => ret events
    | inl e => raise e
    end
  else ret events.

Definition _parse_transcript_file (src : source) : result (list pyval) :=
  match src with
  | Missing => raise (OSError "No such file or directory")
  | Inaccessible msg => raise (OSError msg)
  | Unreadable e => raise e
  | Lines lines => foldM parse_line lines []
  end.

(** [Path(transcript_path).exists()] stands before the [try]: the
    [OSError] of an inaccessible path is not caught. *)
Definition analyze_transcript (src : source) : result SessionAnalysis :=
  match src with
  | Missing => ret (_empty_analysis "transcript_not_found")
  | Inaccessible msg => raise (OSError msg)
  | _ =>
      match (events <- _parse_transcript_file src ;; _analyze_events events) with
      | inr analysis => ret analysis
      | inl e => ret (_empty_analysis ("analysis_error: " ++ str_exn e))
      end
  end.

End Library.

End TranscriptAnalyzer.

(** ** [class SummaryGenerator] *)

Module SummaryGenerator.

Import TranscriptAnalyzer.

(** The two environment variables the generator reads. *)
Record environ : Type := mk_environ {
  CLAUDE_HOOKS_SUMMARY_ENABLED : option string;
  ENGINEER_NAME : option string
}.

(** The draws of the [random] module during one call: the index that
    [random.choice] picks and whether [random.random() < 0.3]. *)
Record draws : Type := mk_draws {
  choice_index : nat;
  below_0_3 : bool
}.

Definition getenv (v : option string) (default : string) : string :=
  match v with
  | Some s => s
  | None => default
  end.

Definition choice (r : draws) (pool : list string) : string :=
  nth (choice_index r mod List.length pool) pool "".

Definition max_tts_length : nat := 80.

Definition fallback_stop_messages : list string :=
  ["Work complete!"; "All done!"; "Task finished!"; "Job complete!";
   "Ready for next task!"].

Definition fallback_notification_messages : list string :=
  ["Your agent needs your input"; "Waiting for your response";
   "Input required to continue"].

Definition fallback_subagent_messages : list string :=
  ["Subagent Complete"; "Subagent task finished"; "Background work done"].

Definition _is_summary_enabled (env : environ) : bool :=
  String.eqb (Py.lower (getenv (CLAUDE_HOOKS_SUMMARY_ENABLED env) "true")) "true".

Definition _truncate_for_tts (text : string) : string :=
  if (String.length text <=? max_tts_length)%nat then text
  else
    let truncated := Py.take max_tts_length text in
    let last_space := Py.rfind truncated " " in
    if F64.int_gt last_space
         (F64.mul (F64.of_int (Z.of_nat max_tts_length)) F64.lit_0_7)
    then Py.take (Z.to_nat last_space) truncated
    else Py.rstrip truncated ++ "...".

Definition _summarize_file_operations (file_operations : list FileOperation)
  : result string :=
  if is_nil file_operations then ret ""
  else
    let created := created_ops file_operations in
    let modified := modified_ops file_operations in
    parts1 <-
      match created with
      | [] => ret []
      | [op] =>
          filename <- py_path_name (file_path op) ;;
          ret ["created " ++ filename]
      | _ => ret ["created " ++ Py.str_of_nat (List.length created) ++ " files"]
      end ;;
    parts2 <-
      match modified with
      | [] => ret parts1
      | [op] =>
          if is_nil created then
            filename <- py_path_name (file_path op) ;;
            ret (List.app parts1 ["modified " ++ filename])
          else
            ret (List.app parts1
                   ["modified " ++ Py.str_of_nat (List.length modified) ++ " files"])
      | _ =>
          ret (List.app parts1
                 ["modified " ++ Py.str_of_nat (List.length modified) ++ " files"])
      end ;;
    ret (Py.join ", " parts2).

Definition _summarize_bash_commands (bash_commands : list BashCommand)
  : result string :=
  if is_nil bash_commands then ret ""
  else
    let successful := filter bc_success bash_commands in
    if is_nil successful then ret ""
    else
      test_commands <-
        filterM (fun cmd => l <- py_lower (command cmd) ;;
                            ret (Py.str_in "test" l)) successful ;;
      build_commands <-
        filterM (fun cmd =>
                   l <- py_lower (command cmd) ;;
                   ret (Py.any_in ["build"; "compile"; "npm run"; "yarn"; "make"] l))
                successful ;;
      git_commands <-
        filterM (fun cmd => py_startswith (command cmd) "git") successful ;;
      let p1 := if is_nil test_commands then [] else ["ran tests"] in
      let p2 := if is_nil build_commands then p1 else List.app p1 ["built project"] in
      let p3 := if is_nil git_commands then p2 else List.app p2 ["updated git"] in
      let parts :=
        if is_nil p3 && (0 <? List.length successful)%nat
        then ["executed " ++ Py.str_of_nat (List.length successful) ++ " commands"]
        else p3 in
      ret (Py.join ", " parts).

Definition _summarize_errors (errors : list string) : string :=
  if is_nil errors then ""
  else
    let error_count := List.length errors in
    if (error_count =? 1)%nat then "resolved 1 error"
    else if (1 <? error_count)%nat
         then "resolved " ++ Py.str_of_nat error_count ++ " errors"
         else "".

Definition _generate_notification_context (analysis : SessionAnalysis)
  : result string :=
  match Py.last_n 2 (file_operations analysis) with
  | [op] =>
      filename <- py_path_name (file_path op) ;;
      ret ("Working on " ++ filename)
  | _ :: _ :: _ => ret "Working on multiple files"
  | [] =>
      if is_nil (user_messages analysis) then ret ""
      else
        let last_message := Py.lower (List.last (user_messages analysis) "") in
        if Py.any_in ["database"; "db"] last_message
        then ret "Setting up database"
        else if Py.any_in ["test"; "testing"] last_message
        then ret "Working on tests"
        else if Py.any_in ["auth"; "authentication"] last_message
        then ret "Implementing authentication"
        else if Py.any_in ["api"; "endpoint"] last_message
        then ret "Building API"
        else ret ""
  end.

Definition research_events (analysis : SessionAnalysis)
  : result (list ToolEvent) :=
  filterM (fun event => in_str_set (tool_name event) research_tools)
          (tool_events analysis).

Definition _summarize_research_activity (analysis : SessionAnalysis)
  : result string :=
  events <- research_events analysis ;;
  if is_nil events then ret ""
  else if (List.length events =? 1)%nat then ret "conducted code analysis"
  else ret ("analyzed " ++ Py.str_of_nat (List.length events)
            ++ " code components").

Definition read_count (file_operations : list FileOperation) : nat :=
  List.length (filter (fun op => String.eqb (operation op) "read") file_operations).

Section Calls.

Variable env : environ.
Variable rnd : draws.

Definition generate_stop_summary (analysis : SessionAnalysis) : string :=
  if negb (_is_summary_enabled env) then choice rnd fallback_stop_messages
  else
    match
      (if is_nil (key_accomplishments analysis)
          && is_nil (file_operations analysis)
          && is_nil (bash_commands analysis)
       then ret (choice rnd fallback_stop_messages)
       else
         file_summary <- _summarize_file_operations (file_operations analysis) ;;
         command_summary <- _summarize_bash_commands (bash_commands analysis) ;;
         let error_summary := _summarize_errors (errors analysis) in
         let summary_parts :=
           filter Py.nonempty [file_summary; command_summary; error_summary] in
         if is_nil summary_parts then
           if is_nil (key_accomplishments analysis)
           then ret (choice rnd fallback_stop_messages)
           else
             ret (_truncate_for_tts
                    ("Completed: "
                     ++ Py.join ", " (firstn 2 (key_accomplishments analysis))))
         else
           ret (_truncate_for_tts ("Completed: " ++ Py.join ", " summary_parts)))
    with
    | inr summary => summary
    | inl _ => choice rnd fallback_stop_messages
    end.

Definition name_prefix : string :=
  let engineer_name := Py.strip (getenv (ENGINEER_NAME env) "") in
  if Py.nonempty engineer_name && below_0_3 rnd
  then engineer_name ++ ", " else "".

Definition generate_notification_summary (analysis : SessionAnalysis)
  : string :=
  if negb (_is_summary_enabled env)
  then choice rnd fallback_notification_messages
  else
    if Py.nonempty (current_context analysis)
       && negb (String.eqb (current_context analysis) "Unknown context")
    then
      _truncate_for_tts
        (name_prefix ++ "Working on: " ++ current_context analysis
         ++ ", needs your input")
    else
      match _generate_notification_context analysis with
      | inr recent_context =>
          if Py.nonempty recent_context
          then _truncate_for_tts
                 (name_prefix ++ recent_context ++ ", needs your input")
          else name_prefix ++ choice rnd fallback_notification_messages
      | inl _ => choice rnd fallback_notification_messages
      end.

Definition generate_subagent_summary (analysis : SessionAnalysis) : string :=
  if negb (_is_summary_enabled env) then choice rnd fallback_subagent_messages
  else
    match _summarize_research_activity analysis with
    | inl _ => choice rnd fallback_subagent_messages
    | inr research_summary =>
        if Py.nonempty research_summary
        then _truncate_for_tts ("Subagent completed: " ++ research_summary)
        else
          let file_count := read_count (file_operations analysis) in
          if negb (is_nil (file_operations analysis)) && (0 <? file_count)%nat
          then _truncate_for_tts
                 ("Subagent analyzed " ++ Py.str_of_nat file_count ++ " files")
          else
            match key_accomplishments analysis with
            | accomplishment :: _ =>
                _truncate_for_tts ("Subagent completed: " ++ accomplishment)
            | [] => choice rnd fallback_subagent_messages
            end
    end.

End Calls.

End SummaryGenerator.

(** ** The hook scripts [subagent_stop.py] and [notification.py] *)

Module Hooks.

Import TranscriptAnalyzer SummaryGenerator.

Section World.

Variable py_str : pyval -> string.
Variable json_loads : string -> result pyval.
Variable fromisoformat : string -> result Datetime.datetime.
(** What each path of the file system denotes *)
Variable fs : string -> source.
(** Whether a file descriptor is open *)
Variable fd_open : Z -> bool.
(** Whether [transcript_analyzer] and [summary_generator] can be imported
    from the user's hooks directory *)
Variable utils_importable : bool.
(** What [find_current_transcript] returns: the most recently modified
    transcript of the projects directory, if there is one *)
Variable find_current_transcript : option string.
Variable env : environ.
Variable rnd : draws.

(** [os.path.exists(v)]: a string is a path, an integer a file
    descriptor, anything else a [TypeError]. Every [OSError] of [stat]
    counts as absence. *)
Definition os_path_exists (v : pyval) : result bool :=
  match v with
  | PStr p =>
      ret (match fs p with
           | Missing | Inaccessible _ => false
           | _ => true
           end)
  | PInt z => ret (fd_open z)
  | PBool b => ret (fd_open (if b then 1 else 0))
  | _ =>
      raise (TypeError
               ("stat: path should be string, bytes, os.PathLike or integer, not "
                ++ type_name v))
  end.

(** The two [from ... import ...] lines. The hooks catch every exception
    without looking at it, so the class of the import error is not
    modelled. *)
Definition import_utils : result unit :=
  if utils_importable then ret tt
  else raise (OSError "No module named 'transcript_analyzer'").

(** [analyzer.analyze_transcript(v)]: [Path(v)] refuses anything but a
    string, and it is built outside the analyzer's own [try]. *)
Definition analyze_path (v : pyval) : result SessionAnalysis :=
  match v with
  | PStr p => analyze_transcript py_str json_loads fromisoformat (fs p)
  | _ => raise (TypeError ("expected str, bytes or os.PathLike object, not "
                           ++ type_name v))
  end.

(** [subagent_stop.get_intelligent_subagent_message] *)
Definition get_intelligent_subagent_message (input_data : pyval) : string :=
  match
    (transcript_path <- py_get input_data "transcript_path" PNone ;;
     if truthy transcript_path then
       present <- os_path_exists transcript_path ;;
       if present then
         _ <- import_utils ;;
         analysis <- analyze_path transcript_path ;;
         ret (Some (generate_subagent_summary env rnd analysis))
       else ret None
     else ret None)
  with
  | inr (Some summary) => summary
  | _ => "Subagent Complete"
  end.

(** [notification.get_generic_notification_message] *)
Definition get_generic_notification_message : string :=
  let engineer_name := Py.strip (getenv (ENGINEER_NAME env) "") in
  if Py.nonempty engineer_name && below_0_3 rnd
  then engineer_name ++ ", your agent needs your input"
  else "Your agent needs your input".

(** [notification.get_intelligent_notification_message]; its argument is
    not used. *)
Definition get_intelligent_notification_message (input_data : pyval) : string :=
  match
    (match find_current_transcript with
     | Some transcript_path =>
         if Py.nonempty transcript_path then
           present <- os_path_exists (PStr transcript_path) ;;
           if present then
             _ <- import_utils ;;
             analysis <- analyze_path (PStr transcript_path) ;;
             ret (Some (generate_notification_summary env rnd analysis))
           else ret None
         else ret None
     | None => ret None
     end)
  with
  | inr (Some notification) => notification
  | _ => get_generic_notification_message
  end.

End World.

End Hooks.

(** ** Vocabulary of the statements *)

(** A value that can be looked up in a [set]: anything but a list or a
    dict. *)
Definition hashable (v : pyval) : bool :=
  match v with
  | PList _ | PDict _ => false
  | _ => true
  end.

(** The tool event names one of the research tools. *)
Definition is_research (e : ToolEvent) : bool :=
  match tool_name e with
  | PStr s => existsb (String.eqb s) TranscriptAnalyzer.research_tools
  | _ => false
  end.

Definition is_str (v : pyval) : bool :=
  match v with
  | PStr _ => true
  | _ => false
  end.




(** [event.get('timestamp', '')] *)
Definition timestamp_of (event : pyval) : pyval :=
  match event with
  | PDict d => dict_get d "timestamp" (PStr "")
  | _ => PStr ""
  end.

Definition is_dict (v : pyval) : bool :=
  match v with
  | PDict _ => true
  | _ => false
  end.

(** The tool event names one of the file-operation tools. *)
Definition is_file_tool (e : ToolEvent) : bool :=
  match tool_name e with
  | PStr s => existsb (String.eqb s) TranscriptAnalyzer.file_operation_tools
  | _ => false
  end.

(** The tool event names the shell tool. *)
Definition is_bash_tool (e : ToolEvent) : bool :=
  py_eq (tool_name e) (PStr "Bash").

(** The file operation [fo] is the one derived from the tool event [te]:
    its kind is read, write or edit as the tool name says, its path is the
    [file_path] of the input, its success flag the tool event's. *)
Definition derived_file_op (te : ToolEvent) (fo : FileOperation) : Prop :=
  operation fo = TranscriptAnalyzer.operation_of (tool_name te)
  /\ In (operation fo) ["read"; "write"; "edit"]
  /\ fo_success fo = te_success te
  /\ py_get (tool_input te) "file_path" (PStr "") = inr (file_path fo).

(** The shell command [bc] is the one derived from the tool event [te]. *)
Definition derived_bash (te : ToolEvent) (bc : BashCommand) : Prop :=
  bc_success bc = te_success te
  /\ py_get (tool_input te) "command" (PStr "") = inr (command bc)
  /\ py_get (tool_input te) "description" (PStr "") = inr (description bc).

(** What the loop of [_analyze_events] keeps true of its accumulators:
    the file operations and the shell commands collected so far are, in
    order, the ones derived from the file-tool and shell-tool events. *)
Definition derivation_invariant (st : TranscriptAnalyzer.containers) : Prop :=
  Forall2 derived_file_op
    (filter is_file_tool (TranscriptAnalyzer.st_tool_events st))
    (TranscriptAnalyzer.st_file_operations st)
  /\ Forall2 derived_bash
       (filter is_bash_tool (TranscriptAnalyzer.st_tool_events st))
       (TranscriptAnalyzer.st_bash_commands st).

(** A user message worth keeping: not empty, already stripped, and free of
    the markers of a relayed tool result. *)
Definition authored (m : string) : Prop :=
  Py.nonempty m = true /\ Py.strip m = m /\ TranscriptAnalyzer._is_tool_result m = false.

(** An assistant response worth keeping: not empty and already stripped. *)
Definition trimmed (m : string) : Prop :=
  Py.nonempty m = true /\ Py.strip m = m.

(** An error line: it mentions "error" or "failed" in some letter case. *)
Definition alarming (m : string) : Prop :=
  Py.str_in "error" (Py.lower m) || Py.str_in "failed" (Py.lower m) = true.

Definition texts_invariant (st : TranscriptAnalyzer.containers) : Prop :=
  Forall authored (TranscriptAnalyzer.st_user_messages st)
  /\ Forall trimmed (TranscriptAnalyzer.st_assistant_responses st)
  /\ Forall alarming (TranscriptAnalyzer.st_errors st).


(** The base filename of a file operation whose path is a string. *)
Definition base_name (op : FileOperation) : string :=
  match file_path op with
  | PStr p => path_name p
  | _ => ""
  end.

(** The first entry of a content list whose [tool_use_id] equals the
    invocation's identifier. *)
Fixpoint first_match (tool_id : pyval) (items : list pyval) : option dict :=
  match items with
  | [] => None
  | PDict d :: rest =>
      if py_eq (dict_get d "tool_use_id" PNone) tool_id then Some d
      else first_match tool_id rest
  | _ :: rest => first_match tool_id rest
  end.

(** The entry of a user event that answers the invocation, if any. *)
Definition matching_entry (tool_id : pyval) (event : pyval) : option dict :=
  match event with
  | PDict d =>
      if py_eq (dict_get d "type" PNone) (PStr "user") && dict_has "message" d
      then
        match dict_get d "message" PNone with
        | PDict message =>
            match dict_get message "content" PNone with
            | PList content => first_match tool_id content
            | _ => None
            end
        | _ => None
        end
      else None
  | _ => None
  end.

(** [s.replace('Z', '+00:00')] *)
Definition utc_offset (s : string) : string := Py.replace s "Z" "+00:00".

(** The calendar, counted day by day. The days of a month and of a year
    of the proleptic Gregorian calendar: *)
Definition days_in_month (y m : Z) : Z :=
  if (m =? 2)%Z then (if Datetime.is_leap y then 29 else 28)%Z
  else if ((m =? 4) || (m =? 6) || (m =? 9) || (m =? 11))%Z then 30%Z
  else 31%Z.

Definition days_in_year (y : Z) : Z :=
  if Datetime.is_leap y then 366%Z else 365%Z.

(** The days of the years 1 to [n] *)
Fixpoint days_in_years (n : nat) : Z :=
  match n with
  | O => 0%Z
  | S n' => (days_in_years n' + days_in_year (Z.of_nat n))%Z
  end.

(** The days of the months 1 to [n] of the year [y] *)
Fixpoint days_in_months (y : Z) (n : nat) : Z :=
  match n with
  | O => 0%Z
  | S n' => (days_in_months y n' + days_in_month y (Z.of_nat n))%Z
  end.

(** The number of a day, 0001-01-01 being day 1: the days of the years
    and of the months that went by, and the day of the month. *)
Definition day_number (y m d : Z) : Z :=
  (days_in_years (Z.to_nat (y - 1)) + days_in_months y (Z.to_nat (m - 1))
   + d)%Z.

(** The year and the month exist in the calendar. *)
Definition calendar_date (t : Datetime.datetime) : Prop :=
  (1 <= Datetime.year t)%Z /\ (1 <= Datetime.month t <= 12)%Z.

(** The instant that a datetime denotes, in microseconds since the
    beginning of day 0 in UTC; a naive datetime is read as it stands. *)
Definition instant (t : Datetime.datetime) : Z :=
  (((((day_number (Datetime.year t) (Datetime.month t) (Datetime.day t) * 24
       + Datetime.hour t) * 60 + Datetime.minute t) * 60
     + Datetime.second t) * 1000000 + Datetime.microsecond t)
   - match Datetime.utcoffset t with
     | Some offset => offset
     | None => 0
     end)%Z.

(** Both datetimes are naive, or both carry an offset. *)
Definition same_kind (a b : Datetime.datetime) : Prop :=
  Datetime.utcoffset a = None <-> Datetime.utcoffset b = None.

(** [k] tenths are as near to the magnitude [m * 2^e] as tenths can be:
    the two differ by half a tenth at most. *)
Definition nearest_tenths (m : positive) (e : Z) (k : Z) : Prop :=
  (0 <= k)%Z
  /\ (2 * Z.abs (10 * Zpos m * 2 ^ Z.max e 0 - k * 2 ^ Z.max (- e) 0)
      <= 2 ^ Z.max (- e) 0)%Z.

(** The float nearest to [k / 10], with the given sign: what the decimal
    written with one digit after the point denotes. *)
Definition tenths_float (negative : bool) (k : Z) : F64.float :=
  match k with
  | Zpos n => F64.div (S754_finite negative n 0) (S754_finite false 10 0)
  | _ => S754_zero negative
  end.

(** [r] is [x] rounded to one decimal: a finite [x] goes to the float of
    a nearest number of tenths, with the sign of [x]; a zero, an infinity
    and NaN are kept. *)
Definition rounded_to_one_decimal (x r : F64.float) : Prop :=
  match x with
  | S754_finite s m e => exists k : Z, nearest_tenths m e k /\ r = tenths_float s k
  | _ => r = x
  end.

(** [r] is the float of [k] tenths of a minute for a [k] within three
    seconds of [n] seconds: the tenths below [n] seconds, or the next. *)
Definition minutes_to_one_decimal (n : Z) (r : F64.float) : bool :=
  let k := (n / 6)%Z in
  (F64.same r (tenths_float false k) && (n - 6 * k <=? 3)%Z)
  || (F64.same r (tenths_float false (k + 1)) && (6 * (k + 1) - n <=? 3)%Z).

(** The duration that [n] whole seconds give: seconds as a float, divided
    by 60, rounded. *)
Definition duration_of_seconds (n : nat) : F64.float :=
  F64.round1
    (F64.div (Datetime.total_seconds (Z.of_nat n * 1000000)) (F64.of_int 60)).

(** The event is a mapping that carries a [sessionId] key. *)
Definition carries_session_id (event : pyval) : bool :=
  match event with
  | PDict d => dict_has "sessionId" d
  | _ => false
  end.





(** ** Library instances used to run the model on examples *)

Module Examples.

Import TranscriptAnalyzer SummaryGenerator.

Definition str_of_Z (z : Z) : string := NilZero.string_of_int (Z.to_int z).

(** [str()] on values built from [None], booleans, integers and strings
    that need no escaping; a float is shown by its class only. *)
Fixpoint show (v : pyval) : string :=
  match v with
  | PNone => "None"
  | PBool true => "True"
  | PBool false => "False"
  | PInt z => str_of_Z z
  | PFloat _ => "float"
  | PStr s => "'" ++ s ++ "'"
  | PList l =>
      "[" ++ Py.join ", " (List.map show l) ++ "]"
  | PDict d =>
      "{" ++ Py.join ", "
               (List.map (fun kv => "'" ++ fst kv ++ "': " ++ show (snd kv)) d)
          ++ "}"
  end.

(** The JSON text of such a value, as one transcript line. *)
Fixpoint dumps (v : pyval) : string :=
  match v with
  | PNone => "null"
  | PBool true => "true"
  | PBool false => "false"
  | PInt z => str_of_Z z
  | PFloat _ => "NaN"
  | PStr s => Py.dquote ++ s ++ Py.dquote
  | PList l =>
      "[" ++ Py.join ", " (List.map dumps l) ++ "]"
  | PDict d =>
      "{" ++ Py.join ", "
               (List.map (fun kv => Py.dquote ++ fst kv ++ Py.dquote ++ ": "
                                    ++ dumps (snd kv)) d)
          ++ "}"
  end.

(** [c * n] *)
Fixpoint rep (n : nat) (c : ascii) : string :=
  match n with
  | O => EmptyString
  | S n' => String c (rep n' c)
  end.

(** A line of 3000 opening brackets: JSON nested deeper than the decoder
    recurses. *)
Definition deep_line : string := rep 3000 "[".

Definition too_deep : exn :=
  RecursionError
    "maximum recursion depth exceeded while decoding a JSON array from a unicode string".

(** [json.loads] on a file whose lines are known: each value of [known] is
    decoded from its own JSON text, [deep_line] exhausts the recursion limit,
    and any other text is rejected as not being JSON. *)
Fixpoint loads (known : list pyval) (line : string) : result pyval :=
  match known with
  | [] =>
      if String.eqb line deep_line then raise too_deep
      else raise (JSONDecodeError "Expecting value: line 1 column 1 (char 0)")
  | v :: r => if String.eqb line (dumps v) then ret v else loads r line
  end.

(** One decimal digit; then [n] digits at the head of a string *)
Definition digit (c : ascii) : option Z :=
  let n := Py.ord c in
  if ((48 <=? n) && (n <=? 57))%N then Some (Z.of_N n - 48)%Z else None.

Fixpoint digits (n : nat) (s : string) (acc : Z) : option (Z * string) :=
  match n, s with
  | O, _ => Some (acc, s)
  | S n', String c r =>
      match digit c with
      | Some d => digits n' r (acc * 10 + d)%Z
      | None => None
      end
  | S _, EmptyString => None
  end.

Definition expect (c : ascii) (s : string) : option string :=
  match s with
  | String a r => if Ascii.eqb a c then Some r else None
  | EmptyString => None
  end.

Definition invalid (s : string) : result Datetime.datetime :=
  raise (ValueError ("Invalid isoformat string: '" ++ s ++ "'")).

(** [datetime.fromisoformat] on the extended format
    [YYYY-MM-DDTHH:MM:SS] with an optional [+HH:MM] or [-HH:MM] offset;
    anything else is reported as invalid. *)
Definition fromisoformat (s : string) : result Datetime.datetime :=
  match digits 4 s 0 with
  | None => invalid s
  | Some (y, s1) =>
  match expect "-" s1 with None => invalid s | Some s2 =>
  match digits 2 s2 0 with None => invalid s | Some (mo, s3) =>
  match expect "-" s3 with None => invalid s | Some s4 =>
  match digits 2 s4 0 with None => invalid s | Some (d, s5) =>
  match expect "T" s5 with None => invalid s | Some s6 =>
  match digits 2 s6 0 with None => invalid s | Some (h, s7) =>
  match expect ":" s7 with None => invalid s | Some s8 =>
  match digits 2 s8 0 with None => invalid s | Some (mi, s9) =>
  match expect ":" s9 with None => invalid s | Some s10 =>
  match digits 2 s10 0 with None => invalid s | Some (sec, s11) =>
  match s11 with
  | EmptyString => ret (Datetime.mk_datetime y mo d h mi sec 0 None)
  | String sign s12 =>
      match digits 2 s12 0 with None => invalid s | Some (oh, s13) =>
      match expect ":" s13 with None => invalid s | Some s14 =>
      match digits 2 s14 0 with None => invalid s | Some (om, s15) =>
      let off := ((oh * 3600 + om * 60) * 1000000)%Z in
      if negb (String.eqb s15 "") then invalid s
      else if Ascii.eqb sign "+" then
        ret (Datetime.mk_datetime y mo d h mi sec 0 (Some off))
      else if Ascii.eqb sign "-" then
        ret (Datetime.mk_datetime y mo d h mi sec 0 (Some (- off)%Z))
      else invalid s
      end end end
  end end end end end end end end end end end
  end.

Definition analyze (known : list pyval) (src : source)
  : result SessionAnalysis :=
  analyze_transcript show (loads known) fromisoformat src.

Definition analyze_events (events : list pyval) : result SessionAnalysis :=
  _analyze_events show fromisoformat events.

Definition user_event (text : string) : pyval :=
  PDict [("type", PStr "user");
         ("message", PDict [("role", PStr "user"); ("content", PStr text)])].

Definition tool_use (id name : string) (input : dict) : pyval :=
  PDict [("type", PStr "tool_use"); ("id", PStr id); ("name", PStr name);
         ("input", PDict input)].

Definition assistant_event (content : list pyval) : pyval :=
  PDict [("type", PStr "assistant");
         ("message", PDict [("role", PStr "assistant");
                            ("content", PList content)])].

Definition tool_result_event (id : string) (content : pyval) : pyval :=
  PDict [("type", PStr "user");
         ("message",
          PDict [("role", PStr "user");
                 ("content",
                  PList [PDict [("tool_use_id", PStr id);
                                ("type", PStr "tool_result");
                                ("content", content)]])])].

(** 95 characters whose only space is at index 56 *)
Definition space_at_56 : string := rep 56 "a" ++ " " ++ rep 38 "b".

(** 95 characters with a space at index 60 and none after it *)
Definition space_at_60 : string := rep 60 "a" ++ " " ++ rep 34 "b".

(** 95 characters without a space, with a tab at index 79 *)
Definition tab_at_79 : string :=
  rep 79 "a" ++ String (ascii_of_nat 9) (rep 15 "b").

(** 95 characters without any space *)
Definition no_space_95 : string := rep 95 "a".

(** The analysis of a list of events, when the analyzer returns one. *)
Definition analysis_of (events : list pyval) : SessionAnalysis :=
  match analyze_events events with
  | inr a => a
  | inl e => _empty_analysis ("analysis_error: " ++ str_exn e)
  end.

Definition error_result : pyval :=
  PDict [("is_error", PBool true); ("content", PStr "not found")].

(** A session that writes one file and edits another, both successfully. *)
Definition write_then_edit : list pyval :=
  [assistant_event
     [tool_use "t1" "Write" [("file_path", PStr "/src/a.py");
                             ("content", PStr "x = 1")];
      tool_use "t2" "Edit" [("file_path", PStr "/src/b.py");
                            ("new_string", PStr "y = 2")]];
   tool_result_event "t1" (PStr "written");
   tool_result_event "t2" (PStr "edited")].

(** A subagent session that calls two research tools. *)
Definition two_searches : list pyval :=
  [assistant_event
     [tool_use "t1" "Grep" [("pattern", PStr "TODO")];
      tool_use "t2" "Glob" [("pattern", PStr "*.py")]]].

(** A subagent session that calls one research tool. *)
Definition one_search : list pyval :=
  [assistant_event [tool_use "t1" "Grep" [("pattern", PStr "TODO")]]].

(** A subagent session with two reads, the second of which failed. *)
Definition read_ok_read_failed : list pyval :=
  [assistant_event
     [tool_use "t1" "Read" [("file_path", PStr "/src/a.py")];
      tool_use "t2" "Read" [("file_path", PStr "/src/missing.py")]];
   tool_result_event "t1" (PStr "x = 1");
   tool_result_event "t2" error_result].

(** Three events, two of which carry a session identifier. *)
Definition two_sessions : list pyval :=
  [PDict [("type", PStr "system"); ("sessionId", PStr "s-1");
          ("content", PStr "session started")];
   PDict [("type", PStr "user"); ("sessionId", PStr "s-2");
          ("message", PDict [("role", PStr "user");
                             ("content", PStr "Please fix the bug")])];
   PDict [("type", PStr "system"); ("content", PStr "idle")]].

(** A request followed by four file operations. *)
Definition request_and_four_files : list pyval :=
  [user_event
     "Please refactor the parser and the printer so that they share one token type";
   assistant_event
     [tool_use "t1" "Read" [("file_path", PStr "/src/lexer.py")];
      tool_use "t2" "Read" [("file_path", PStr "/src/parser.py")];
      tool_use "t3" "Edit" [("file_path", PStr "/src/printer.py");
                            ("new_string", PStr "Token")];
      tool_use "t4" "Write" [("file_path", PStr "/src/token.py");
                             ("content", PStr "class Token: pass")]]].

(** A session whose only user message reads "Unknown context". *)
Definition unknown_context_message : list pyval :=
  [user_event "Unknown context"].

(** The transcript file that holds the given events, one per line. *)
Definition file_of (events : list pyval) : source :=
  Lines (List.map dumps events).

(** A file none of whose lines is JSON. *)
Definition corrupt_file : source :=
  Lines ["this is not json"; "{broken"; "   "; "]]"].



(** A shell command whose identifier is answered twice: first by an
    error, then by plain text. *)
Definition list_files : dict :=
  [("type", PStr "tool_use"); ("id", PStr "t1"); ("name", PStr "Bash");
   ("input", PDict [("command", PStr "ls")])].

Definition answered_twice : list pyval :=
  [assistant_event [PDict list_files];
   tool_result_event "t1" error_result;
   tool_result_event "t1" (PStr "a.py b.py")].

(** The two timestamps of the duration example *)
Definition T0 : string := "2024-01-01T00:00:00Z".

(** A session over the turn of the year and the leap day of 2024:
    60 days and 100 seconds, that is 86401.666... minutes *)
Definition T2 : string := "2023-12-31T23:59:00Z".
Definition T3 : string := "2024-03-01T00:00:40+00:00".

(** The float written [86401.7] *)
Definition lit_86401_7 : F64.float := F64.int_truediv 864017 10.

(** An assistant remark followed by a failing build report. *)
Definition remark_and_failure : list pyval :=
  [assistant_event [PDict [("type", PStr "text"); ("text", PStr "  Done. ")]];
   PDict [("type", PStr "system"); ("content", PStr "Build FAILED")]].


(** A transcript whose second line is a JSON number. *)
Definition number_line : list pyval := [user_event "Please fix the bug"; PInt 42].

(** A file system with one file. *)
Definition one_file (path : string) (content : source) (p : string) : source :=
  if String.eqb p path then content else Missing.

(** Only the standard streams are open. *)
Definition std_streams (fd : Z) : bool := ((0 <=? fd) && (fd <=? 2))%Z.

(** The input of the subagent-stop hook for a transcript path *)
Definition hook_input (path : string) : pyval :=
  PDict [("session_id", PStr "s-1"); ("transcript_path", PStr path)].

Definition default_env : environ := mk_environ None None.
Definition first_draw : draws := mk_draws 0 false.

End Examples.

(** * Properties *)

Import TranscriptAnalyzer SummaryGenerator.

(** ** Strings *)

Section StringFacts.

Lemma get_take (n : nat) : forall (s : string) (k : nat),
  String.get k (Py.take n s) = if (k <? n)%nat then String.get k s else None.
Proof.
  induction n as [|n IH]; intros s k.
  - destruct s; reflexivity.
  - destruct s as [|c r]; simpl.
    + destruct (k <? S n)%nat; reflexivity.
    + destruct k as [|k]; [reflexivity|].
      rewrite IH. reflexivity.
Qed.

Lemma take_take (j : nat) : forall (n : nat) (s : string),
  (j <= n)%nat -> Py.take j (Py.take n s) = Py.take j s.
Proof.
  induction j as [|j IH]; intros n s Hle.
  - destruct (Py.take n s), s; reflexivity.
  - destruct n as [|n]; [lia|].
    destruct s as [|c r]; simpl; [reflexivity|].
    rewrite IH by lia. reflexivity.
Qed.



Lemma get_lt_some : forall (s : string) (k : nat),
  (k < String.length s)%nat -> exists c, String.get k s = Some c.
Proof.
  induction s as [|a r IH]; intros k H; simpl in *; [lia|].
  destruct k as [|k]; [eauto|].
  apply IH. lia.
Qed.

(** [rfind] returns -1 when the character does not occur, and otherwise
    the index of its last occurrence. *)
Lemma rfind_from_cases (c : ascii) : forall (s : string) (i acc : Z),
  (Py.rfind_from c s i acc = acc /\ forall k, String.get k s <> Some c)
  \/ (exists k : nat,
        Py.rfind_from c s i acc = (i + Z.of_nat k)%Z
        /\ String.get k s = Some c
        /\ forall k', (k < k')%nat -> String.get k' s <> Some c).
Proof.
  induction s as [|a r IH]; intros i acc; simpl.
  - left. split; [reflexivity|]. intros k. destruct k; discriminate.
  - destruct (IH (i + 1)%Z (if Ascii.eqb a c then i else acc))
      as [[Hr Hno] | [k [Hr [Hk Hlater]]]].
    + destruct (Ascii.eqb_spec a c) as [->|Hne].
      * right. exists 0%nat. rewrite Hr.
        split; [lia|]. split; [reflexivity|].
        intros [|k'] Hlt; [lia|]. apply Hno.
      * left. split; [exact Hr|].
        intros [|k]; [congruence|]. apply Hno.
    + right. exists (S k). rewrite Hr.
      split; [lia|]. split; [exact Hk|].
      intros [|k'] Hlt; [lia|]. apply Hlater. lia.
Qed.

Lemma rfind_cases (s : string) (c : ascii) :
  (Py.rfind s c = (-1)%Z /\ forall k, String.get k s <> Some c)
  \/ (exists k : nat,
        Py.rfind s c = Z.of_nat k
        /\ String.get k s = Some c
        /\ forall k', (k < k')%nat -> String.get k' s <> Some c).
Proof.
  unfold Py.rfind.
  destruct (rfind_from_cases c s 0 (-1)) as [H | [k [Hr H]]].
  - left. exact H.
  - right. exists k. rewrite Hr. split; [lia | exact H].
Qed.

Lemma rstrip_keeps : forall (s : string) (c : ascii),
  Py.last_char s = Some c -> Py.isspace c = false -> Py.rstrip s = s.
Proof.
  unfold Py.last_char.
  induction s as [|a r IH]; intros c Hlast Hsp; [discriminate|].
  destruct r as [|b r'].
  - simpl in Hlast. injection Hlast as ->. simpl. rewrite Hsp. reflexivity.
  - assert (Hr : Py.rstrip (String b r') = String b r').
    { apply (IH c); [|exact Hsp].
      simpl in Hlast |- *. rewrite Nat.sub_0_r in *. exact Hlast. }
    change (Py.rstrip (String a (String b r')))
      with (match Py.rstrip (String b r') with
            | EmptyString =>
                if Py.isspace a then EmptyString else String a EmptyString
            | r0 => String a r0
            end).
    rewrite Hr. reflexivity.
Qed.

Lemma length_take (n : nat) : forall s : string,
  String.length (Py.take n s) = Nat.min n (String.length s).
Proof.
  induction n as [|n IH]; intros [|c r]; simpl; try reflexivity.
  rewrite IH. reflexivity.
Qed.

Lemma length_append : forall s t : string,
  String.length (s ++ t) = (String.length s + String.length t)%nat.
Proof.
  induction s as [|c r IH]; intros t; simpl; [reflexivity|].
  rewrite IH. reflexivity.
Qed.

End StringFacts.

(** ** The truncation threshold *)

(** [max_tts_length * 0.7] is the float 56.0: the product 56 - 2^-48 lies
    half-way between two floats and the tie goes to the even one. *)
Lemma threshold_is_56 :
  F64.mul (F64.of_int (Z.of_nat max_tts_length)) F64.lit_0_7 = F64.of_int 56.
Proof. vm_compute. reflexivity. Qed.

Lemma beyond_threshold (z : Z) :
  F64.int_gt z (F64.mul (F64.of_int (Z.of_nat max_tts_length)) F64.lit_0_7)
  = (56 <? z)%Z.
Proof.
  rewrite threshold_is_56.
  change (F64.of_int 56) with (S754_finite false 7881299347898368 (-47)).
  unfold F64.int_gt.
  change (0 <=? -47)%Z with false. cbv iota.
  change (- -47)%Z with 47%Z.
  change (2 ^ 47)%Z with 140737488355328%Z.
  destruct (Z.ltb_spec 56 z); destruct (Z.ltb_spec 7881299347898368 (z * 140737488355328));
    try reflexivity; lia.
Qed.

(** ** Truncation for speech *)

Section Truncation.

Lemma truncate_short (text : string) :
  (String.length text <= 80)%nat -> _truncate_for_tts text = text.
Proof.
  intros H. unfold _truncate_for_tts, max_tts_length.
  destruct (Nat.leb_spec (String.length text) 80); [reflexivity | lia].
Qed.

Lemma truncate_long (text : string) :
  (80 < String.length text)%nat ->
  _truncate_for_tts text =
    let truncated := Py.take 80 text in
    let last_space := Py.rfind truncated Py.space in
    if (56 <? last_space)%Z then Py.take (Z.to_nat last_space) truncated
    else Py.rstrip truncated ++ "...".
Proof.
  intros H. unfold _truncate_for_tts.
  rewrite beyond_threshold. unfold max_tts_length.
  destruct (Nat.leb_spec (String.length text) 80); [lia | reflexivity].
Qed.

(** The last space of the window, when it lies beyond index 56, is where
    the text is cut. *)
Lemma truncate_at_space (text : string) (j : nat) :
  (80 < String.length text)%nat ->
  (56 < j < 80)%nat ->
  String.get j text = Some Py.space ->
  (forall k, (j < k < 80)%nat -> String.get k text <> Some Py.space) ->
  _truncate_for_tts text = Py.take j text.
Proof.
  intros Hlen Hj Hget Hlast.
  rewrite truncate_long by exact Hlen. cbv zeta.
  assert (Hfind : Py.rfind (Py.take 80 text) Py.space = Z.of_nat j).
  { destruct (rfind_cases (Py.take 80 text) Py.space)
      as [[_ Hno] | [k [Hr [Hk Hlater]]]].
    - exfalso. apply (Hno j). rewrite get_take.
      destruct (Nat.ltb_spec j 80); [exact Hget | lia].
    - rewrite Hr. f_equal.
      rewrite get_take in Hk.
      destruct (Nat.ltb_spec k 80) as [Hk80|]; [|discriminate].
      destruct (Nat.lt_trichotomy k j) as [Hlt | [Heq | Hgt]].
      + exfalso. apply (Hlater j Hlt). rewrite get_take.
        destruct (Nat.ltb_spec j 80); [exact Hget | lia].
      + exact Heq.
      + exfalso. apply (Hlast k); [lia | exact Hk]. }
  rewrite Hfind.
  destruct (Z.ltb_spec 56 (Z.of_nat j)); [|lia].
  rewrite Nat2Z.id. apply take_take. lia.
Qed.

(** Without a space beyond index 56 the window is kept, stripped on the
    right, and the ellipsis is appended. *)
Lemma truncate_ellipsis (text : string) :
  (80 < String.length text)%nat ->
  (forall k, (56 < k < 80)%nat -> String.get k text <> Some Py.space) ->
  _truncate_for_tts text = Py.rstrip (Py.take 80 text) ++ "...".
Proof.
  intros Hlen Hno.
  rewrite truncate_long by exact Hlen. cbv zeta.
  destruct (rfind_cases (Py.take 80 text) Py.space)
    as [[Hr _] | [k [Hr [Hk _]]]]; rewrite Hr.
  - reflexivity.
  - rewrite get_take in Hk.
    destruct (Nat.ltb_spec k 80) as [Hk80|]; [|discriminate].
    destruct (Z.ltb_spec 56 (Z.of_nat k)) as [Hgt|]; [|reflexivity].
    exfalso. apply (Hno k); [lia | exact Hk].
Qed.

End Truncation.

(** C4 (as amended). Text of at most 80 characters is returned
    unchanged. Longer text is cut to its first 80 characters; when that
    window holds a space at an index above 56 (57 to 79), the text is cut at
    the last such space and no ellipsis is added; otherwise the window is
    stripped of trailing whitespace and "..." is appended. A 95-character
    text with no whitespace at indices 56 to 79 becomes its first 80
    characters followed by "...". *)
Theorem truncate_for_tts_cases (text : string) :
  ((String.length text <= 80)%nat -> _truncate_for_tts text = text)
  /\ (forall j : nat,
        (80 < String.length text)%nat ->
        (56 < j < 80)%nat ->
        String.get j text = Some Py.space ->
        (forall k, (j < k < 80)%nat -> String.get k text <> Some Py.space) ->
        _truncate_for_tts text = Py.take j text)
  /\ ((80 < String.length text)%nat ->
      (forall k, (56 < k < 80)%nat -> String.get k text <> Some Py.space) ->
      _truncate_for_tts text = Py.rstrip (Py.take 80 text) ++ "...")
  /\ (String.length text = 95%nat ->
      (forall k c, (56 <= k < 80)%nat -> String.get k text = Some c ->
                   Py.isspace c = false) ->
      _truncate_for_tts text = Py.take 80 text ++ "...").
Proof.
  split; [apply truncate_short|].
  split; [intros j; apply truncate_at_space|].
  split; [apply truncate_ellipsis|].
  intros Hlen Hno.
  assert (Hnosp : forall k, (56 < k < 80)%nat -> String.get k text <> Some Py.space).
  { intros k Hk Hget. apply (Hno k Py.space) in Hget; [|lia].
    discriminate Hget. }
  rewrite truncate_ellipsis by (try exact Hnosp; lia).
  destruct (get_lt_some text 79) as [c Hc]; [lia|].
  rewrite (rstrip_keeps (Py.take 80 text) c); [reflexivity| |].
  - unfold Py.last_char. rewrite length_take, Hlen.
    change (Nat.min 80 95 - 1)%nat with 79%nat.
    rewrite get_take. exact Hc.
  - apply (Hno 79%nat c); [lia | exact Hc].
Qed.

Lemma truncate_for_tts_cases_witness :
  _truncate_for_tts Examples.space_at_60 = Py.take 60 Examples.space_at_60
  /\ _truncate_for_tts Examples.no_space_95
     = Py.take 80 Examples.no_space_95 ++ "...".
Proof.
  split.
  - apply (proj1 (proj2 (truncate_for_tts_cases Examples.space_at_60)) 60%nat).
    + vm_compute. lia.
    + lia.
    + reflexivity.
    + intros k Hk Hget.
      assert (Hc : forallb
                     (fun i => match String.get i Examples.space_at_60 with
                               | Some c => negb (Ascii.eqb c Py.space)
                               | None => true
                               end) (seq 61 19) = true)
        by (vm_compute; reflexivity).
      rewrite forallb_forall in Hc.
      specialize (Hc k ltac:(apply in_seq; lia)).
      rewrite Hget in Hc. discriminate Hc.
  - apply (proj2 (proj2 (proj2 (truncate_for_tts_cases Examples.no_space_95)))).
    + reflexivity.
    + intros k c Hk Hget.
      assert (Hc : forallb
                     (fun i => match String.get i Examples.no_space_95 with
                               | Some c => negb (Py.isspace c)
                               | None => true
                               end) (seq 56 24) = true)
        by (vm_compute; reflexivity).
      rewrite forallb_forall in Hc.
      specialize (Hc k ltac:(apply in_seq; lia)).
      rewrite Hget in Hc. apply negb_true_iff. exact Hc.
Defined.

(** The ellipsis branch strips the window first: with a tab at index 79
    and no space, 79 characters are kept before the "...". *)
Lemma truncate_strips_trailing_tab :
  String.length Examples.tab_at_79 = 95%nat
  /\ Py.rfind (Py.take 80 Examples.tab_at_79) Py.space = (-1)%Z
  /\ _truncate_for_tts Examples.tab_at_79
     = Py.take 79 Examples.tab_at_79 ++ "...".
Proof. repeat split; vm_compute; reflexivity. Qed.

(** C4, as claimed: a space AT index 56 is not a cut point. The text has
    its only space at index 56; the claim cuts it there (56 characters, no
    ellipsis), the code keeps the 80-character window and appends "...". *)
Lemma truncate_space_at_56_counterexample :
  (80 < String.length Examples.space_at_56)%nat
  /\ String.get 56 Examples.space_at_56 = Some Py.space
  /\ Py.rfind (Py.take 80 Examples.space_at_56) Py.space = 56%Z
  /\ _truncate_for_tts Examples.space_at_56
     = Py.take 80 Examples.space_at_56 ++ "..."
  /\ _truncate_for_tts Examples.space_at_56 <> Py.take 56 Examples.space_at_56.
Proof.
  split; [vm_compute; lia|].
  split; [reflexivity|].
  split; [reflexivity|].
  split; [vm_compute; reflexivity|].
  vm_compute. discriminate.
Qed.

(** ** The error monad *)

Section Monad.

Context {A B : Type}.


Lemma filterM_pure (p : A -> result bool) (q : A -> bool) (l : list A) :
  Forall (fun x => p x = inr (q x)) l -> filterM p l = inr (filter q l).
Proof.
  induction 1 as [|x l Hx _ IH]; simpl; [reflexivity|].
  rewrite Hx, IH. simpl. destruct (q x); reflexivity.
Qed.



Lemma mapM_inr (f : A -> result B) : forall (l : list A) (l' : list B),
  mapM f l = inr l' -> Forall2 (fun x y => f x = inr y) l l'.
Proof.
  induction l as [|x l IH]; simpl; intros l' H.
  - injection H as <-. constructor.
  - destruct (f x) as [e | y] eqn:Hy; simpl in H; [discriminate|].
    destruct (mapM f l) as [e | r] eqn:Hr; simpl in H; [discriminate|].
    injection H as <-. constructor; [exact Hy | apply IH; reflexivity].
Qed.

End Monad.

Lemma in_str_set_hashable (v : pyval) (names : list string) :
  hashable v = true ->
  in_str_set v names
  = inr (match v with
         | PStr s => existsb (String.eqb s) names
         | _ => false
         end).
Proof. destruct v; simpl; intros H; try reflexivity; discriminate. Qed.

Lemma research_events_hashable (a : SessionAnalysis) :
  Forall (fun e => hashable (tool_name e) = true) (tool_events a) ->
  research_events a = inr (filter is_research (tool_events a)).
Proof.
  intros H. unfold research_events. apply filterM_pure.
  eapply Forall_impl; [|exact H].
  intros e He. simpl in He. rewrite (in_str_set_hashable _ _ He).
  unfold is_research. reflexivity.
Qed.

(** ** The file-operation clause of the stop summary *)

Lemma created_nonempty (ops : list FileOperation) (w : FileOperation) :
  created_ops ops = [w] -> is_nil ops = false.
Proof. destruct ops; [discriminate | reflexivity]. Qed.

(** C3 (as amended). With exactly one successful write and exactly one
    successful edit, the file-operation clause is
    "created <name>, modified 1 files": the created file is named and
    reported first, the edited file is only counted. *)
Theorem file_clause_one_write_one_edit
  (ops : list FileOperation) (w e : FileOperation) (written : string) :
  created_ops ops = [w] ->
  modified_ops ops = [e] ->
  file_path w = PStr written ->
  _summarize_file_operations ops
  = inr ("created " ++ path_name written ++ ", modified 1 files").
Proof.
  intros Hc Hm Hw. unfold _summarize_file_operations.
  rewrite (created_nonempty ops w Hc), Hc, Hm, Hw.
  reflexivity.
Qed.

Lemma file_clause_one_write_one_edit_witness :
  _summarize_file_operations
    (file_operations (Examples.analysis_of Examples.write_then_edit))
  = inr "created a.py, modified 1 files".
Proof.
  apply (file_clause_one_write_one_edit
           (file_operations (Examples.analysis_of Examples.write_then_edit))
           (mk_FileOperation "write" (PStr "/src/a.py") true (PStr "x = 1"))
           (mk_FileOperation "edit" (PStr "/src/b.py") true (PStr "y = 2"))
           "/src/a.py"); reflexivity.
Defined.

(** The edited file is named only when no file was created. *)
Lemma file_clause_one_edit_alone
  (ops : list FileOperation) (e : FileOperation) (edited : string) :
  created_ops ops = [] ->
  modified_ops ops = [e] ->
  file_path e = PStr edited ->
  _summarize_file_operations ops = inr ("modified " ++ path_name edited).
Proof.
  intros Hc Hm He. unfold _summarize_file_operations.
  assert (Hn : is_nil ops = false) by (destruct ops; [discriminate | reflexivity]).
  rewrite Hn, Hc, Hm, He. reflexivity.
Qed.

(** C3, as claimed: the edited file's name does not appear. One
    successful Write of /src/a.py and one successful Edit of /src/b.py give
    the clause "created a.py, modified 1 files", not
    "created a.py, modified b.py". *)
Lemma file_clause_counterexample :
  let ops := file_operations (Examples.analysis_of Examples.write_then_edit) in
  List.length (created_ops ops) = 1%nat
  /\ List.length (modified_ops ops) = 1%nat
  /\ _summarize_file_operations ops = inr "created a.py, modified 1 files"
  /\ _summarize_file_operations ops <> inr "created a.py, modified b.py"
  /\ generate_stop_summary Examples.default_env Examples.first_draw
       (Examples.analysis_of Examples.write_then_edit)
     = "Completed: created a.py, modified 1 files".
Proof.
  cbv zeta.
  split; [reflexivity|].
  split; [reflexivity|].
  split; [reflexivity|].
  split; [vm_compute; discriminate|].
  vm_compute. reflexivity.
Qed.

(** ** The subagent summary *)

Lemma subagent_research (env : environ) (rnd : draws) (a : SessionAnalysis) :
  _is_summary_enabled env = true ->
  Forall (fun e => hashable (tool_name e) = true) (tool_events a) ->
  generate_subagent_summary env rnd a
  = match filter is_research (tool_events a) with
    | [] =>
        let file_count := read_count (file_operations a) in
        if negb (is_nil (file_operations a)) && (0 <? file_count)%nat
        then _truncate_for_tts
               ("Subagent analyzed " ++ Py.str_of_nat file_count ++ " files")
        else
          match key_accomplishments a with
          | accomplishment :: _ =>
              _truncate_for_tts ("Subagent completed: " ++ accomplishment)
          | [] => choice rnd fallback_subagent_messages
          end
    | [_] => "Subagent completed: conducted code analysis"
    | evs =>
        _truncate_for_tts
          ("Subagent completed: analyzed "
           ++ Py.str_of_nat (List.length evs) ++ " code components")
    end.
Proof.
  intros Hen Hh. unfold generate_subagent_summary, _summarize_research_activity.
  rewrite Hen, (research_events_hashable a Hh). simpl.
  destruct (filter is_research (tool_events a)) as [|e1 [|e2 evs]];
    reflexivity.
Qed.

(** C5 (as amended). With summaries enabled, exactly one research-tool
    event gives "Subagent completed: conducted code analysis"; two or more
    give "Subagent completed: analyzed N code components", N being their
    number (truncated for speech, which leaves it whole while N has at
    most 35 digits). *)
Theorem subagent_research_summary
  (env : environ) (rnd : draws) (a : SessionAnalysis) :
  _is_summary_enabled env = true ->
  Forall (fun e => hashable (tool_name e) = true) (tool_events a) ->
  let n := List.length (filter is_research (tool_events a)) in
  (n = 1%nat ->
   generate_subagent_summary env rnd a
   = "Subagent completed: conducted code analysis")
  /\ ((2 <= n)%nat ->
      generate_subagent_summary env rnd a
      = _truncate_for_tts
          ("Subagent completed: analyzed " ++ Py.str_of_nat n
           ++ " code components"))
  /\ ((2 <= n)%nat ->
      (String.length (Py.str_of_nat n) <= 35)%nat ->
      generate_subagent_summary env rnd a
      = "Subagent completed: analyzed " ++ Py.str_of_nat n
        ++ " code components").
Proof.
  intros Hen Hh n. subst n.
  rewrite (subagent_research env rnd a Hen Hh).
  destruct (filter is_research (tool_events a)) as [|e1 [|e2 evs]]; simpl List.length.
  - split; [|split]; intros; lia.
  - split; [|split]; intros; [reflexivity | lia | lia].
  - split; [|split]; intros; [lia | reflexivity |].
    apply truncate_short.
    rewrite length_append, length_append.
    change (String.length "Subagent completed: analyzed ") with 29%nat.
    change (String.length " code components") with 16%nat.
    lia.
Qed.

Lemma subagent_research_summary_witness :
  generate_subagent_summary Examples.default_env Examples.first_draw
    (Examples.analysis_of Examples.one_search)
  = "Subagent completed: conducted code analysis"
  /\ generate_subagent_summary Examples.default_env Examples.first_draw
       (Examples.analysis_of Examples.two_searches)
     = "Subagent completed: analyzed 2 code components".
Proof.
  split.
  - apply (proj1 (subagent_research_summary Examples.default_env
                    Examples.first_draw
                    (Examples.analysis_of Examples.one_search)
                    eq_refl
                    ltac:(repeat constructor)));
      reflexivity.
  - apply (proj2 (proj2 (subagent_research_summary Examples.default_env
                           Examples.first_draw
                           (Examples.analysis_of Examples.two_searches)
                           eq_refl
                           ltac:(repeat constructor))));
      vm_compute; lia.
Defined.

(** C5, as claimed: the wording depends on the count. Two research-tool
    events (Grep, Glob) give "Subagent completed: analyzed 2 code
    components". *)
Lemma subagent_two_research_counterexample :
  _is_summary_enabled Examples.default_env = true
  /\ List.length
       (filter is_research
          (tool_events (Examples.analysis_of Examples.two_searches))) = 2%nat
  /\ generate_subagent_summary Examples.default_env Examples.first_draw
       (Examples.analysis_of Examples.two_searches)
     = "Subagent completed: analyzed 2 code components"
  /\ generate_subagent_summary Examples.default_env Examples.first_draw
       (Examples.analysis_of Examples.two_searches)
     <> "Subagent completed: conducted code analysis".
Proof.
  split; [reflexivity|].
  split; [reflexivity|].
  split; [vm_compute; reflexivity|].
  vm_compute. discriminate.
Qed.

(** C6 (as amended). With summaries enabled and no research-tool event,
    if any read-kind file operation exists the subagent summary is
    "Subagent analyzed N files", N being the number of read-kind file
    operations whatever their success flag (truncated for speech, which
    leaves it whole while N has at most 56 digits). *)
Theorem subagent_read_summary
  (env : environ) (rnd : draws) (a : SessionAnalysis) :
  _is_summary_enabled env = true ->
  Forall (fun e => hashable (tool_name e) = true) (tool_events a) ->
  filter is_research (tool_events a) = [] ->
  let n :=
    List.length
      (filter (fun op => String.eqb (operation op) "read") (file_operations a)) in
  (0 < n)%nat ->
  generate_subagent_summary env rnd a
  = _truncate_for_tts ("Subagent analyzed " ++ Py.str_of_nat n ++ " files")
  /\ ((String.length (Py.str_of_nat n) <= 56)%nat ->
      generate_subagent_summary env rnd a
      = "Subagent analyzed " ++ Py.str_of_nat n ++ " files").
Proof.
  intros Hen Hh Hnone n Hpos.
  rewrite (subagent_research env rnd a Hen Hh), Hnone. cbv zeta.
  fold n. unfold read_count. fold n.
  assert (Hne : is_nil (file_operations a) = false).
  { subst n. destruct (file_operations a); [simpl in Hpos; lia | reflexivity]. }
  rewrite Hne.
  destruct (Nat.ltb_spec 0 n); [|lia]. cbn [negb andb].
  split; [reflexivity|].
  intros Hd. apply truncate_short.
  rewrite length_append, length_append.
  change (String.length "Subagent analyzed ") with 18%nat.
  change (String.length " files") with 6%nat.
  lia.
Qed.

Lemma subagent_read_summary_witness :
  generate_subagent_summary Examples.default_env Examples.first_draw
    (Examples.analysis_of Examples.read_ok_read_failed)
  = "Subagent analyzed 2 files".
Proof.
  apply (proj2 (subagent_read_summary Examples.default_env Examples.first_draw
                  (Examples.analysis_of Examples.read_ok_read_failed)
                  eq_refl
                  ltac:(repeat constructor)
                  eq_refl
                  ltac:(vm_compute; lia))).
  vm_compute. lia.
Defined.

(** C6, as claimed: failed reads are counted too. One successful and one
    failed Read give "Subagent analyzed 2 files", while one read-kind
    operation succeeded. *)
Lemma subagent_failed_read_counterexample :
  let a := Examples.analysis_of Examples.read_ok_read_failed in
  filter is_research (tool_events a) = []
  /\ List.length
       (filter (fun op => String.eqb (operation op) "read" && fo_success op)
          (file_operations a)) = 1%nat
  /\ generate_subagent_summary Examples.default_env Examples.first_draw a
     = "Subagent analyzed 2 files"
  /\ generate_subagent_summary Examples.default_env Examples.first_draw a
     <> "Subagent analyzed 1 files".
Proof.
  cbv zeta.
  split; [reflexivity|].
  split; [reflexivity|].
  split; [vm_compute; reflexivity|].
  vm_compute. discriminate.
Qed.

(** ** The loop of [_analyze_events] *)

Ltac break_result H :=
  repeat (cbn [bind ret raise] in H;
    match type of H with
    | inl _ = inr _ => discriminate H
    | bind ?m _ = inr _ =>
        let E := fresh "E" in
        destruct m eqn:E; cbn [bind] in H; [discriminate H|]
    | (if ?c then _ else _) = inr _ =>
        let E := fresh "E" in destruct c eqn:E
    | match ?x with _ => _ end = inr _ =>
        let E := fresh "E" in destruct x eqn:E
    end).

Section Loop.

Variable py_str : pyval -> string.

Lemma foldM_app {A S : Type} (body : S -> A -> result S) :
  forall (l1 l2 : list A) (st : S),
  foldM body (l1 ++ l2)%list st = bind (foldM body l1 st) (foldM body l2).
Proof.
  induction l1 as [|x l1 IH]; intros l2 st; simpl; [reflexivity|].
  destruct (body st x) as [e | st1]; simpl; [reflexivity | apply IH].
Qed.

(** A property of the accumulators that every iteration keeps holds at
    the end of the loop. *)
Lemma foldM_invariant {A S : Type} (body : S -> A -> result S)
  (P : S -> Prop) (Q : A -> Prop) :
  (forall st x st', Q x -> body st x = inr st' -> P st -> P st') ->
  forall (l : list A) (st st' : S),
  Forall Q l -> foldM body l st = inr st' -> P st -> P st'.
Proof.
  intros Hstep. induction l as [|x l IH]; simpl; intros st st' HQ H HP.
  - injection H as <-. exact HP.
  - inversion HQ as [|? ? Hx Hl]; subst.
    destruct (body st x) as [e | st1] eqn:Hb; simpl in H; [discriminate|].
    apply (IH st1 st' Hl H). exact (Hstep st x st1 Hx Hb HP).
Qed.

(** Processing one content entry of an assistant message leaves the
    session identifier, the user messages and the timestamps alone. *)
Lemma process_item_frame (evs : list pyval) (st st' : containers)
  (item : pyval) :
  process_item py_str evs st item = inr st' ->
  st_session_id st' = st_session_id st
  /\ st_user_messages st' = st_user_messages st
  /\ st_timestamps st' = st_timestamps st.
Proof.
  intros H. unfold process_item in H.
  break_result H; injection H as <-;
    repeat match goal with
           | |- context [if ?c then _ else _] => destruct c
           end;
    repeat split; reflexivity.
Qed.

Lemma process_items_frame (evs : list pyval) (items : list pyval)
  (st st' : containers) :
  foldM (process_item py_str evs) items st = inr st' ->
  st_session_id st' = st_session_id st
  /\ st_user_messages st' = st_user_messages st
  /\ st_timestamps st' = st_timestamps st.
Proof.
  intros H.
  apply (foldM_invariant (process_item py_str evs)
           (fun s => st_session_id s = st_session_id st
                     /\ st_user_messages s = st_user_messages st
                     /\ st_timestamps s = st_timestamps st)
           (fun _ => True)) with (l := items) (st := st).
  - intros s x s' _ Hb [H1 [H2 H3]].
    destruct (process_item_frame evs s s' x Hb) as [F1 [F2 F3]].
    rewrite F1, F2, F3. auto.
  - apply Forall_forall. auto.
  - exact H.
  - auto.
Qed.

(** What one iteration of the loop does to the session identifier, the
    timestamps and the user messages. *)
Lemma process_event_effect (evs : list pyval) (st st' : containers)
  (event : pyval) :
  process_event py_str evs st event = inr st' ->
  exists d : dict,
    event = PDict d
    /\ st_session_id st'
       = (if dict_has "sessionId" d then dict_get d "sessionId" PNone
          else st_session_id st)
    /\ st_timestamps st'
       = (if truthy (dict_get d "timestamp" (PStr ""))
          then (st_timestamps st ++ [dict_get d "timestamp" (PStr "")])%list
          else st_timestamps st)
    /\ (st_user_messages st' = st_user_messages st
        \/ exists m : string,
             Py.nonempty m = true
             /\ st_user_messages st' = (st_user_messages st ++ [m])%list).
Proof.
  intros H. destruct event as [| | | | |l|d]; try discriminate H.
  exists d. split; [reflexivity|].
  unfold process_event in H.
  set (st1 := if truthy (dict_get d "timestamp" (PStr ""))
              then add_timestamp (dict_get d "timestamp" (PStr "")) st
              else st) in H.
  set (st2 := if dict_has "sessionId" d
              then set_session_id (dict_get d "sessionId" PNone) st1
              else st1) in H.
  assert (H2 : st_session_id st2
               = (if dict_has "sessionId" d then dict_get d "sessionId" PNone
                  else st_session_id st)
               /\ st_timestamps st2
                  = (if truthy (dict_get d "timestamp" (PStr ""))
                     then (st_timestamps st
                           ++ [dict_get d "timestamp" (PStr "")])%list
                     else st_timestamps st)
               /\ st_user_messages st2 = st_user_messages st).
  { subst st2 st1.
    destruct (dict_has "sessionId" d),
             (truthy (dict_get d "timestamp" (PStr ""))); simpl; auto. }
  destruct H2 as [Hid [Hts Hum]].
  rewrite <- Hid, <- Hts, <- Hum. clearbody st2. clear st1 Hid Hts Hum.
  break_result H;
    try (injection H as <-;
         repeat match goal with
                | |- context [if ?c then _ else _] => destruct c
                end;
         simpl; auto; fail).
  - injection H as <-. simpl. repeat split; try reflexivity.
    right. exists (Py.strip s). split; [|reflexivity].
    match goal with
    | Hc : Py.nonempty (Py.strip s) && _ = true |- _ =>
        apply andb_prop in Hc; tauto
    end.
  - destruct (process_items_frame evs _ _ _ H) as [F1 [F2 F3]].
    rewrite F1, F2, F3. auto.
Qed.

Lemma loop_keeps_session_id (evs l : list pyval) (st st' : containers) :
  Forall (fun e => carries_session_id e = false) l ->
  foldM (process_event py_str evs) l st = inr st' ->
  st_session_id st' = st_session_id st.
Proof.
  intros Hno H.
  apply (foldM_invariant (process_event py_str evs)
           (fun s => st_session_id s = st_session_id st)
           (fun e => carries_session_id e = false)) with (l := l) (st := st);
    [|exact Hno | exact H | reflexivity].
  intros s x s' Hx Hb HP.
  destruct (process_event_effect evs s s' x Hb) as [d [-> [Hid _]]].
  simpl in Hx. rewrite Hx in Hid. congruence.
Qed.

Lemma loop_user_messages_nonempty (evs l : list pyval) (st st' : containers) :
  foldM (process_event py_str evs) l st = inr st' ->
  Forall (fun m => Py.nonempty m = true) (st_user_messages st) ->
  Forall (fun m => Py.nonempty m = true) (st_user_messages st').
Proof.
  intros H.
  apply (foldM_invariant (process_event py_str evs)
           (fun s => Forall (fun m => Py.nonempty m = true) (st_user_messages s))
           (fun _ => True)) with (l := l); [|apply Forall_forall; auto | exact H].
  intros s x s' _ Hb HP.
  destruct (process_event_effect evs s s' x Hb)
    as [d [_ [_ [_ [Hsame | [m [Hm Hadd]]]]]]].
  - rewrite Hsame. exact HP.
  - rewrite Hadd. apply Forall_app. split; [exact HP|].
    constructor; [exact Hm | constructor].
Qed.

End Loop.

Section Analysis.

Variable py_str : pyval -> string.
Variable fromisoformat : string -> result Datetime.datetime.

(** The analysis that [_analyze_events] returns is assembled from the
    accumulators at the end of the loop. *)
Lemma analyze_events_inr (events : list pyval) (a : SessionAnalysis) :
  _analyze_events py_str fromisoformat events = inr a ->
  exists st : containers,
    foldM (process_event py_str events) events initial = inr st
    /\ session_id a = st_session_id st
    /\ duration_minutes a = _calculate_duration fromisoformat (st_timestamps st)
    /\ user_messages a = st_user_messages st
    /\ tool_events a = st_tool_events st
    /\ file_operations a = st_file_operations st
    /\ bash_commands a = st_bash_commands st
    /\ errors a = st_errors st
    /\ assistant_responses a = st_assistant_responses st
    /\ _identify_accomplishments (file_operations a) (bash_commands a)
         (tool_events a) = inr (key_accomplishments a)
    /\ _generate_current_context (user_messages a) (file_operations a)
         (bash_commands a) = inr (current_context a).
Proof.
  unfold _analyze_events. intros H.
  destruct (foldM (process_event py_str events) events initial)
    as [e | st] eqn:Hloop; cbn [bind] in H; [discriminate|].
  destruct (_identify_accomplishments (st_file_operations st)
              (st_bash_commands st) (st_tool_events st))
    as [e | acc] eqn:Hacc; cbn [bind] in H; [discriminate|].
  destruct (_generate_current_context (st_user_messages st)
              (st_file_operations st) (st_bash_commands st))
    as [e | ctx] eqn:Hctx; cbn [bind] in H; [discriminate|].
  injection H as <-. exists st. cbn.
  repeat split; try reflexivity; assumption.
Qed.

(** C10. The analysis that [_analyze_events] returns carries the
    [sessionId] of the last event that has that key, and "unknown" when no
    event has it. *)
Theorem session_id_is_last_seen (events : list pyval) (a : SessionAnalysis) :
  _analyze_events py_str fromisoformat events = inr a ->
  (Forall (fun e => carries_session_id e = false) events ->
   session_id a = PStr "unknown")
  /\ (forall (earlier later : list pyval) (d : dict) (v : pyval),
        events = (earlier ++ PDict d :: later)%list ->
        dict_lookup "sessionId" d = Some v ->
        Forall (fun e => carries_session_id e = false) later ->
        session_id a = v).
Proof.
  intros H. apply analyze_events_inr in H.
  destruct H as [st [Hloop [Hid _]]]. rewrite Hid. clear Hid. split.
  - intros Hno. apply (loop_keeps_session_id py_str events events initial st Hno Hloop).
  - intros earlier later d v Hev Hv Hno.
    revert Hloop. generalize events at 1. intros evs Hloop.
    rewrite Hev, foldM_app in Hloop.
    destruct (foldM (process_event py_str evs) earlier initial)
      as [e | st1]; cbn [bind foldM] in Hloop; [discriminate|].
    destruct (process_event py_str evs st1 (PDict d))
      as [e | st2] eqn:Hstep; cbn [bind] in Hloop; [discriminate|].
    rewrite (loop_keeps_session_id py_str evs later st2 st Hno Hloop).
    destruct (process_event_effect py_str evs st1 st2 _ Hstep) as [d' [Hd [Hid _]]].
    injection Hd as <-. rewrite Hid.
    unfold dict_has, dict_get. rewrite Hv. reflexivity.
Qed.

End Analysis.

(** ** The current context *)

Lemma last_n_nonempty {A : Type} (n : nat) (l : list A) :
  l <> [] -> Py.last_n (S n) l <> [].
Proof.
  intros Hl Hnil. apply (f_equal (@List.length A)) in Hnil.
  unfold Py.last_n in Hnil. rewrite length_skipn in Hnil.
  destruct l as [|x l]; [congruence|].
  cbn [List.length] in Hnil. lia.
Qed.

Lemma path_names_inr : forall (ops : list FileOperation) (names : list string),
  mapM (fun op => py_path_name (file_path op)) ops = inr names ->
  names = List.map base_name ops
  /\ Forall (fun op => is_str (file_path op) = true) ops.
Proof.
  intros ops names H. apply mapM_inr in H.
  induction H as [|op name ops names Hop _ [IHn IHs]].
  - split; [reflexivity | constructor].
  - assert (Hb : name = base_name op /\ is_str (file_path op) = true).
    { unfold base_name.
      destruct (file_path op); simpl in Hop; try discriminate.
      injection Hop as <-. split; reflexivity. }
    destruct Hb as [-> Hs]. split.
    + cbn [List.map]. f_equal. exact IHn.
    + constructor; [exact Hs | exact IHs].
Qed.

Lemma is_nil_false {A : Type} (l : list A) : l <> [] -> is_nil l = false.
Proof. destruct l; [congruence | reflexivity]. Qed.

(** [_generate_current_context], case by case, for a last message that is
    not empty. *)
Lemma generate_current_context_cases
  (umsgs : list string) (file_ops : list FileOperation)
  (bash_cmds : list BashCommand) (ctx : string) :
  _generate_current_context umsgs file_ops bash_cmds = inr ctx ->
  (umsgs = [] -> ctx = "Working on current task")
  /\ (umsgs <> [] -> Py.nonempty (List.last umsgs "") = true ->
      file_ops = [] -> ctx = shorten (List.last umsgs ""))
  /\ (umsgs <> [] -> Py.nonempty (List.last umsgs "") = true ->
      file_ops <> [] ->
      Forall (fun op => is_str (file_path op) = true) (Py.last_n 3 file_ops)
      /\ ctx = shorten (List.last umsgs "") ++ " - " ++ "working on "
               ++ Py.join ", " (List.map base_name (Py.last_n 3 file_ops))).
Proof.
  intros H. unfold _generate_current_context in H.
  split; [|split].
  - intros ->. simpl in H. injection H as <-. reflexivity.
  - intros Hne Hlast ->.
    rewrite (is_nil_false umsgs Hne), Hlast in H. simpl in H.
    injection H as <-. reflexivity.
  - intros Hne Hlast Hops.
    rewrite (is_nil_false umsgs Hne), (is_nil_false file_ops Hops), Hlast in H.
    destruct (mapM (fun op => py_path_name (file_path op)) (Py.last_n 3 file_ops))
      as [e | names] eqn:Hnames; cbn [bind] in H; [discriminate|].
    destruct (path_names_inr _ _ Hnames) as [-> Hstr].
    split; [exact Hstr|].
    assert (Hnn : is_nil (List.map base_name (Py.last_n 3 file_ops)) = false).
    { apply is_nil_false. intros Hnil.
      apply (last_n_nonempty 2 file_ops Hops).
      destruct (Py.last_n 3 file_ops); [reflexivity | discriminate]. }
    rewrite Hnn in H. cbn [app is_nil ret] in H.
    injection H as <-. reflexivity.
Qed.

Section CurrentContext.

Variable py_str : pyval -> string.
Variable fromisoformat : string -> result Datetime.datetime.

(** The user messages of an analysis are never empty strings. *)
Lemma analysis_user_messages_nonempty (events : list pyval) (a : SessionAnalysis) :
  _analyze_events py_str fromisoformat events = inr a ->
  Forall (fun m => Py.nonempty m = true) (user_messages a).
Proof.
  intros H. apply analyze_events_inr in H.
  destruct H as [st [Hloop [_ [_ [Hum _]]]]]. rewrite Hum.
  apply (loop_user_messages_nonempty py_str events events initial st Hloop).
  constructor.
Qed.

Lemma last_in_forall {A : Type} (P : A -> Prop) (l : list A) (d : A) :
  l <> [] -> Forall P l -> P (List.last l d).
Proof.
  intros Hne HP.
  destruct (exists_last Hne) as [l' [x ->]].
  rewrite last_last. apply Forall_app in HP. destruct HP as [_ HP].
  inversion HP. assumption.
Qed.

(** C7. The current context of an analysis: the sentinel when there is
    no user message; otherwise the most recent user message, cut to 50
    characters plus "..." when longer; and, when there are file
    operations, that message joined by " - " to the clause
    "working on <names>" listing the base filenames of the last up to 3
    file operations. *)
Theorem current_context_of_analysis (events : list pyval) (a : SessionAnalysis) :
  _analyze_events py_str fromisoformat events = inr a ->
  let message := List.last (user_messages a) "" in
  let shown :=
    if (50 <? String.length message)%nat then Py.take 50 message ++ "..."
    else message in
  let recent := Py.last_n 3 (file_operations a) in
  (user_messages a = [] -> current_context a = "Working on current task")
  /\ (user_messages a <> [] -> file_operations a = [] ->
      current_context a = shown)
  /\ (user_messages a <> [] -> file_operations a <> [] ->
      current_context a
      = shown ++ " - " ++ "working on "
        ++ Py.join ", " (List.map base_name recent)
      /\ Forall (fun op => is_str (file_path op) = true) recent
      /\ List.length recent = Nat.min 3 (List.length (file_operations a))
      /\ exists earlier, file_operations a = (earlier ++ recent)%list).
Proof.
  intros H message shown recent.
  pose proof (analysis_user_messages_nonempty events a H) as Hne.
  apply analyze_events_inr in H.
  destruct H as [st [_ H]].
  do 9 (destruct H as [_ H]).
  destruct (generate_current_context_cases _ _ _ _ H) as [C1 [C2 C3]].
  split; [exact C1|]. split.
  - intros Hu Hf. apply C2; [exact Hu | | exact Hf].
    apply (last_in_forall (fun m => Py.nonempty m = true)); assumption.
  - intros Hu Hf.
    destruct C3 as [Hstr Hctx]; [exact Hu | | exact Hf |].
    + apply (last_in_forall (fun m => Py.nonempty m = true)); assumption.
    + split; [exact Hctx|]. split; [exact Hstr|].
      subst recent. unfold Py.last_n. split.
      * rewrite length_skipn. lia.
      * exists (firstn (List.length (file_operations a) - 3)
                       (file_operations a)).
        symmetry. apply firstn_skipn.
Qed.

End CurrentContext.

Lemma current_context_of_analysis_witness :
  current_context (Examples.analysis_of Examples.request_and_four_files)
  = "Please refactor the parser and the printer so that... - working on parser.py, printer.py, token.py".
Proof.
  assert (H : _analyze_events Examples.show Examples.fromisoformat
                Examples.request_and_four_files
              = inr (Examples.analysis_of Examples.request_and_four_files))
    by (vm_compute; reflexivity).
  destruct (current_context_of_analysis _ _ _ _ H) as [_ [_ W]].
  destruct W as [W _];
    [vm_compute; discriminate | vm_compute; discriminate |].
  rewrite W. vm_compute. reflexivity.
Defined.

Lemma session_id_is_last_seen_witness :
  session_id (Examples.analysis_of Examples.two_sessions) = PStr "s-2".
Proof.
  assert (H : _analyze_events Examples.show Examples.fromisoformat
                Examples.two_sessions
              = inr (Examples.analysis_of Examples.two_sessions))
    by (vm_compute; reflexivity).
  apply (proj2 (session_id_is_last_seen _ _ _ _ H)
           [PDict [("type", PStr "system"); ("sessionId", PStr "s-1");
                   ("content", PStr "session started")]]
           [PDict [("type", PStr "system"); ("content", PStr "idle")]]
           [("type", PStr "user"); ("sessionId", PStr "s-2");
            ("message", PDict [("role", PStr "user");
                               ("content", PStr "Please fix the bug")])]
           (PStr "s-2")).
  - reflexivity.
  - reflexivity.
  - repeat constructor.
Defined.

(** ** The analysis of a transcript file *)

Section Analyze.

Variable py_str : pyval -> string.
Variable json_loads : string -> result pyval.
Variable fromisoformat : string -> result Datetime.datetime.





Lemma analyze_lines (lines : list string) :
  analyze_transcript py_str json_loads fromisoformat (Lines lines)
  = inr match (events <- _parse_transcript_file json_loads (Lines lines) ;;
               _analyze_events py_str fromisoformat events)%py with
        | inr analysis => analysis
        | inl e => _empty_analysis ("analysis_error: " ++ str_exn e)
        end.
Proof.
  unfold analyze_transcript.
  destruct (events <- _parse_transcript_file json_loads (Lines lines) ;;
            _analyze_events py_str fromisoformat events)%py; reflexivity.
Qed.

(** [analyze_transcript] raises for an inaccessible path, and for nothing
    else. It returns the empty analysis for a missing file, the empty one
    tagged with the exception when reading, decoding or analysing raises,
    and otherwise what [_analyze_events] returns on the decoded events. *)
Lemma analyze_transcript_cases (src : source) :
  (exists msg : string,
     src = Inaccessible msg
     /\ analyze_transcript py_str json_loads fromisoformat src
        = inl (OSError msg))
  \/ (src = Missing
      /\ analyze_transcript py_str json_loads fromisoformat src
         = inr (_empty_analysis "transcript_not_found"))
  \/ (exists e : exn,
        analyze_transcript py_str json_loads fromisoformat src
        = inr (_empty_analysis ("analysis_error: " ++ str_exn e)))
  \/ (exists (lines : list string) (events : list pyval) (a : SessionAnalysis),
        src = Lines lines
        /\ _parse_transcript_file json_loads src = inr events
        /\ _analyze_events py_str fromisoformat events = inr a
        /\ analyze_transcript py_str json_loads fromisoformat src = inr a).
Proof.
  destruct src as [|msg|e|lines].
  - right. left. split; reflexivity.
  - left. exists msg. split; reflexivity.
  - right. right. left. exists e. reflexivity.
  - rewrite analyze_lines.
    destruct (_parse_transcript_file json_loads (Lines lines))
      as [e | events] eqn:Hp; cbn [bind].
    + right. right. left. exists e. reflexivity.
    + destruct (_analyze_events py_str fromisoformat events) as [e | a] eqn:Ha.
      * right. right. left. exists e. reflexivity.
      * right. right. right. exists lines, events, a. repeat split; assumption.
Qed.


End Analyze.




(** ** The notification summary *)

Lemma shorten_nonempty (m : string) :
  Py.nonempty m = true -> Py.nonempty (shorten m) = true.
Proof.
  unfold shorten. destruct (50 <? String.length m)%nat; [|auto].
  destruct m as [|c r]; [discriminate | reflexivity].
Qed.

Lemma shorten_unknown (m : string) :
  shorten m = "Unknown context" -> m = "Unknown context".
Proof.
  unfold shorten. destruct (Nat.ltb_spec 50 (String.length m)) as [Hlong|];
    [|auto].
  intros H. apply (f_equal String.length) in H.
  rewrite length_append, length_take in H.
  change (String.length "...") with 3%nat in H.
  change (String.length "Unknown context") with 15%nat in H. lia.
Qed.

Lemma append_nonempty (s t : string) :
  Py.nonempty s = true -> Py.nonempty (s ++ t) = true.
Proof. destruct s; [discriminate | reflexivity]. Qed.

(** A context that names files is never the sentinel of the empty
    analysis. *)
Lemma context_with_files_not_unknown (s r : string) :
  Py.nonempty s = true ->
  s ++ " - " ++ "working on " ++ r <> "Unknown context".
Proof.
  intros Hs H. destruct s as [|c1 [|c2 s']]; [discriminate Hs | |].
  - cbn in H. discriminate H.
  - apply (f_equal String.length) in H.
    cbn [append String.length] in H. rewrite length_append in H.
    cbn [append String.length] in H. lia.
Qed.

Section Notification.

Variable py_str : pyval -> string.
Variable json_loads : string -> result pyval.
Variable fromisoformat : string -> result Datetime.datetime.

(** The current context that [_analyze_events] computes is not empty, and
    it equals "Unknown context" only when there is no file operation and
    the last user message is that very text. *)
Lemma analysis_context_facts (events : list pyval) (a : SessionAnalysis) :
  _analyze_events py_str fromisoformat events = inr a ->
  Py.nonempty (current_context a) = true
  /\ (current_context a = "Unknown context" ->
      file_operations a = []
      /\ user_messages a <> []
      /\ List.last (user_messages a) "" = "Unknown context").
Proof.
  intros H.
  pose proof (analysis_user_messages_nonempty py_str fromisoformat events a H)
    as Hne.
  apply analyze_events_inr in H. destruct H as [st [_ H]].
  do 9 (destruct H as [_ H]).
  destruct (generate_current_context_cases _ _ _ _ H) as [C1 [C2 C3]].
  destruct (user_messages a) as [|m0 ms] eqn:Hum.
  - rewrite (C1 eq_refl). split; [reflexivity | discriminate].
  - assert (Hu : m0 :: ms <> []) by discriminate.
    assert (Hl : Py.nonempty (List.last (m0 :: ms) "") = true)
      by (apply (last_in_forall (fun m => Py.nonempty m = true));
          assumption).
    destruct (file_operations a) as [|f0 fs] eqn:Hf.
    + rewrite (C2 Hu Hl eq_refl). split.
      * apply shorten_nonempty. exact Hl.
      * intros Hs. apply shorten_unknown in Hs. auto.
    + destruct (C3 Hu Hl ltac:(discriminate)) as [_ Hctx]. rewrite Hctx.
      split.
      * apply append_nonempty, shorten_nonempty. exact Hl.
      * intros Hs. exfalso.
        apply (context_with_files_not_unknown _ _ (shorten_nonempty _ Hl) Hs).
Qed.

(** C9 (as amended). With summaries enabled, the notification for an
    analysis that [analyze_transcript] returns never uses the secondary
    context. Either the current context differs from "Unknown context" and
    the summary is "Working on: <context>, needs your input" (with the
    name prefix, truncated); or the current context is "Unknown context",
    which happens for the empty analysis and for a session without file
    operations whose last user message is exactly "Unknown context": then
    the secondary derivation returns the empty string and the summary is
    the name prefix followed by a fallback message. *)
Theorem notification_never_secondary
  (src : source) (a : SessionAnalysis) (env : environ) (rnd : draws) :
  _is_summary_enabled env = true ->
  analyze_transcript py_str json_loads fromisoformat src = inr a ->
  (current_context a <> "Unknown context"
   /\ generate_notification_summary env rnd a
      = _truncate_for_tts
          (name_prefix env rnd ++ "Working on: " ++ current_context a
           ++ ", needs your input"))
  \/ (current_context a = "Unknown context"
      /\ file_operations a = []
      /\ (user_messages a = []
          \/ List.last (user_messages a) "" = "Unknown context")
      /\ _generate_notification_context a = inr ""
      /\ generate_notification_summary env rnd a
         = name_prefix env rnd ++ choice rnd fallback_notification_messages).
Proof.
  intros Hen Hsrc.
  assert (Hempty : forall sid,
            a = _empty_analysis sid ->
            current_context a = "Unknown context"
            /\ file_operations a = []
            /\ (user_messages a = []
                \/ List.last (user_messages a) "" = "Unknown context")
            /\ _generate_notification_context a = inr ""
            /\ generate_notification_summary env rnd a
               = name_prefix env rnd
                 ++ choice rnd fallback_notification_messages).
  { intros sid ->. unfold generate_notification_summary. rewrite Hen.
    cbn. auto 6. }
  destruct (analyze_transcript_cases py_str json_loads fromisoformat src)
    as [[msg [_ H]] | [[_ H] | [[e H] | [ls [events [a' [_ [_ [Ha H]]]]]]]]];
    rewrite H in Hsrc; [discriminate Hsrc | | |]; injection Hsrc as Hsrc.
  - right. apply (Hempty _ (eq_sym Hsrc)).
  - right. apply (Hempty _ (eq_sym Hsrc)).
  - subst a'. clear Hempty H.
    rename a into a'.
    destruct (analysis_context_facts _ _ Ha) as [Hne Hunk].
    destruct (String.eqb_spec (current_context a') "Unknown context")
      as [Heq | Hneq].
    + right. destruct (Hunk Heq) as [Hf [Hu Hl]].
      assert (Hnc : _generate_notification_context a' = inr "").
      { unfold _generate_notification_context.
        rewrite Hf, (is_nil_false _ Hu), Hl. reflexivity. }
      repeat split; auto.
      unfold generate_notification_summary.
      rewrite Hen, Hnc, Heq. reflexivity.
    + left. split; [exact Hneq|].
      unfold generate_notification_summary. rewrite Hen, Hne.
      apply String.eqb_neq in Hneq. rewrite Hneq. reflexivity.
Qed.

End Notification.

Lemma notification_never_secondary_witness :
  Examples.analyze Examples.request_and_four_files
    (Examples.file_of Examples.request_and_four_files)
  = inr (Examples.analysis_of Examples.request_and_four_files)
  /\ generate_notification_summary Examples.default_env Examples.first_draw
       (Examples.analysis_of Examples.request_and_four_files)
     = "Working on: Please refactor the parser and the printer so that... - working on".
Proof.
  assert (H : Examples.analyze Examples.request_and_four_files
                (Examples.file_of Examples.request_and_four_files)
              = inr (Examples.analysis_of Examples.request_and_four_files))
    by (vm_compute; reflexivity).
  split; [exact H|].
  destruct (notification_never_secondary Examples.show
              (Examples.loads Examples.request_and_four_files)
              Examples.fromisoformat
              (Examples.file_of Examples.request_and_four_files)
              (Examples.analysis_of Examples.request_and_four_files)
              Examples.default_env Examples.first_draw eq_refl H)
    as [[_ W] | [W _]].
  - rewrite W. vm_compute. reflexivity.
  - exfalso. vm_compute in W. discriminate W.
Defined.

(** C9, as claimed: a non-empty analysis can have the current context
    "Unknown context". The transcript holds one user message whose text
    is "Unknown context": the analysis has that user message, its current
    context is "Unknown context", the primary branch is not taken and the
    notification is a fallback message. *)
Lemma unknown_context_counterexample :
  let a := Examples.analysis_of Examples.unknown_context_message in
  Examples.analyze Examples.unknown_context_message
    (Examples.file_of Examples.unknown_context_message) = inr a
  /\ user_messages a = ["Unknown context"]
  /\ current_context a = "Unknown context"
  /\ generate_notification_summary Examples.default_env Examples.first_draw a
     = "Your agent needs your input"
  /\ generate_notification_summary Examples.default_env Examples.first_draw a
     <> _truncate_for_tts
          ("Working on: " ++ current_context a ++ ", needs your input").
Proof.
  cbv zeta.
  split; [vm_compute; reflexivity|].
  split; [vm_compute; reflexivity|].
  split; [vm_compute; reflexivity|].
  split; [vm_compute; reflexivity|].
  vm_compute. discriminate.
Qed.

(** ** Correlating a tool invocation with its result *)

Section Correlation.

Variable py_str : pyval -> string.

(** The inner loop stops at the first matching entry of the content. *)
Lemma match_items_first (tool_id : pyval) (st : correlation) :
  forall items : list pyval,
  match first_match tool_id items with
  | None => match_items py_str tool_id items st = st
  | Some entry =>
      c_result (match_items py_str tool_id items st)
      = dict_get entry "content" (PStr "")
  end.
Proof.
  induction items as [|item items IH]; [reflexivity|].
  destruct item as [| | | | | l | d]; try exact IH.
  cbn [first_match match_items].
  destruct (py_eq (dict_get d "tool_use_id" PNone) tool_id); [|exact IH].
  destruct (dict_get d "content" (PStr "")) as [| | | | | l | r];
    try reflexivity.
  destruct (truthy (dict_get r "is_error" (PBool false))); reflexivity.
Qed.

(** The outer loop does not stop: an event that holds a matching entry
    overwrites the result found so far. *)
Lemma match_event_effect (tool_id : pyval) (st st' : correlation)
  (event : pyval) :
  match_event py_str tool_id st event = inr st' ->
  match matching_entry tool_id event with
  | None => st' = st
  | Some entry => c_result st' = dict_get entry "content" (PStr "")
  end.
Proof.
  destruct event as [| | | | | l | d]; try discriminate.
  unfold match_event, matching_entry.
  destruct (py_eq (dict_get d "type" PNone) (PStr "user")
            && dict_has "message" d);
    [|intros H; injection H as <-; reflexivity].
  destruct (dict_get d "message" PNone) as [| | | | | l | message];
    try (intros H; injection H as <-; reflexivity).
  destruct (dict_get message "content" PNone) as [| | | | | content | r];
    try (intros H; injection H as <-; reflexivity).
  intros H. injection H as <-.
  apply match_items_first.
Qed.

Lemma match_events_unmatched (tool_id : pyval) (events : list pyval)
  (st st' : correlation) :
  Forall (fun e => matching_entry tool_id e = None) events ->
  foldM (match_event py_str tool_id) events st = inr st' ->
  st' = st.
Proof.
  intros Hno H.
  apply (foldM_invariant (match_event py_str tool_id)
           (fun s => s = st)
           (fun e => matching_entry tool_id e = None))
    with (l := events) (st := st);
    [|exact Hno | exact H | reflexivity].
  intros s x s' Hx Hb ->.
  pose proof (match_event_effect tool_id st s' x Hb) as He.
  rewrite Hx in He. exact He.
Qed.

(** The tool result is the content of the matching entry of the LAST
    event that holds one. *)
Lemma extract_tool_event_last_match
  (tool_item : dict) (events earlier later : list pyval) (event : pyval)
  (entry : dict) (tool_event : ToolEvent) :
  events = (earlier ++ event :: later)%list ->
  matching_entry (dict_get tool_item "id" (PStr "")) event = Some entry ->
  Forall (fun e => matching_entry (dict_get tool_item "id" (PStr "")) e = None)
         later ->
  _extract_tool_event py_str tool_item events = inr tool_event ->
  tool_result tool_event = dict_get entry "content" (PStr "").
Proof.
  intros -> Hentry Hlater H. unfold _extract_tool_event in H.
  rewrite foldM_app in H.
  destruct (foldM (match_event py_str (dict_get tool_item "id" (PStr "")))
              earlier (mk_correlation PNone true None)) as [e | st1];
    cbn [bind foldM] in H; [discriminate|].
  destruct (match_event py_str (dict_get tool_item "id" (PStr "")) st1 event)
    as [e | st2] eqn:Hstep; cbn [bind] in H; [discriminate|].
  destruct (foldM (match_event py_str (dict_get tool_item "id" (PStr "")))
              later st2) as [e | st3] eqn:Hrest;
    cbn [bind ret] in H; [discriminate|].
  injection H as <-. cbn [tool_result].
  rewrite (match_events_unmatched _ later st2 st3 Hlater Hrest).
  pose proof (match_event_effect _ st1 st2 event Hstep) as He.
  rewrite Hentry in He. exact He.
Qed.

(** C2 (the code departs from the claim). The invocation "t1" is answered
    by two events: first by a mapping whose [is_error] flag is true, then
    by the text "a.py b.py". The tool result of the ToolEvent is the
    content of the second answer, not of the first; the success flag and the
    error message still come from the first. *)
Theorem extract_tool_event_takes_last_match :
  matching_entry (PStr "t1") (Examples.tool_result_event "t1" Examples.error_result)
  = Some [("tool_use_id", PStr "t1"); ("type", PStr "tool_result");
          ("content", Examples.error_result)]
  /\ _extract_tool_event py_str Examples.list_files Examples.answered_twice
     = inr (mk_ToolEvent (PStr "Bash") (PDict [("command", PStr "ls")])
              (PStr "a.py b.py") false ""
              (Some (py_str Examples.error_result))).
Proof. split; reflexivity. Qed.

End Correlation.

(** ** Duration *)

(** [div_half_even n d] is an integer nearest to [n / d]. *)
Lemma div_half_even_nearest (n d : Z) :
  (0 < d)%Z ->
  (2 * Z.abs (n - F64.div_half_even n d * d) <= d)%Z.
Proof.
  intros Hd. unfold F64.div_half_even.
  pose proof (Z.div_mod n d ltac:(lia)) as Hdm.
  pose proof (Z.mod_pos_bound n d Hd) as Hr.
  destruct (Z.compare_spec (2 * (n mod d)) d) as [Heq | Hlt | Hgt].
  - destruct (Z.even (n / d)); nia.
  - nia.
  - nia.
Qed.

(** On a value with a fractional part, [round1] picks a nearest number
    of tenths; on an integer value the tenths are exact. *)
Lemma tenths_nearest (m : positive) (e : Z) :
  ((e < 0)%Z ->
   (2 * Z.abs (10 * Zpos m - F64.tenths m e * 2 ^ (- e)) <= 2 ^ (- e))%Z)
  /\ ((0 <= e)%Z -> F64.tenths m e = (10 * Zpos m * 2 ^ e)%Z).
Proof.
  unfold F64.tenths. split; intros He.
  - destruct (Z.leb_spec 0 e); [lia|].
    apply div_half_even_nearest. apply Z.pow_pos_nonneg; lia.
  - destruct (Z.leb_spec 0 e); [reflexivity | lia].
Qed.

(** The float 5.5 is eleven halves, and 330 seconds are 5.5 minutes. *)
Lemma lit_5_5_exact :
  F64.lit_5_5 = F64.div (F64.of_int 11) (F64.of_int 2)
  /\ F64.div (Datetime.total_seconds 330000000) (F64.of_int 60) = F64.lit_5_5
  /\ F64.round1 F64.lit_5_5 = F64.lit_5_5.
Proof. repeat split; vm_compute; reflexivity. Qed.

Section Duration.

Variable fromisoformat : string -> result Datetime.datetime.

Lemma duration_unfold (ts : list pyval) :
  (2 <= List.length ts)%nat ->
  _calculate_duration fromisoformat ts
  = match
      (s0 <- py_replace (List.hd PNone ts) "Z" "+00:00" ;;
       start_time <- fromisoformat s0 ;;
       s1 <- py_replace (List.last ts PNone) "Z" "+00:00" ;;
       end_time <- fromisoformat s1 ;;
       delta <- Datetime.sub end_time start_time ;;
       ret (F64.round1
              (F64.div (Datetime.total_seconds delta) (F64.of_int 60))))%py
    with
    | inr d => d
    | inl _ => F64.zero
    end.
Proof.
  intros H. unfold _calculate_duration.
  destruct (Nat.ltb_spec (List.length ts) 2); [lia | reflexivity].
Qed.


End Duration.


(** ** Well-typed transcripts are analysed without an exception *)

Section Totality.

Variable py_str : pyval -> string.
Variable fromisoformat : string -> result Datetime.datetime.





Lemma Forall_snoc {A : Type} (P : A -> Prop) (l : list A) (x : A) :
  Forall P l -> P x -> Forall P (l ++ [x]).
Proof.
  intros Hl Hx. apply Forall_app. split; [exact Hl | constructor; auto].
Qed.










End Totality.

(** * Further properties of the generator *)

(** ** What truncation can return *)

Lemma get_some_bound : forall (s : string) (k : nat) (c : ascii),
  String.get k s = Some c -> (k < String.length s)%nat.
Proof.
  induction s as [|a r IH]; intros k c H; simpl in *; [discriminate|].
  destruct k as [|k]; [lia|].
  apply IH in H. lia.
Qed.

Lemma take_whole (n : nat) : forall s : string,
  (String.length s <= n)%nat -> Py.take n s = s.
Proof.
  induction n as [|n IH]; intros [|c r] Hlen; simpl in *;
    try reflexivity; try lia.
  rewrite IH by lia. reflexivity.
Qed.

(** [rstrip] keeps a prefix of its argument. *)
Lemma rstrip_prefix : forall s : string,
  exists n : nat, (n <= String.length s)%nat /\ Py.rstrip s = Py.take n s.
Proof.
  induction s as [|c r [n [Hn IH]]].
  - exists 0%nat. split; [lia | reflexivity].
  - cbn [Py.rstrip]. rewrite IH.
    destruct (Py.take n r) as [|b r'] eqn:Ht.
    + destruct (Py.isspace c).
      * exists 0%nat. split; [simpl; lia | reflexivity].
      * exists 1%nat. split; [simpl; lia|]. destruct r; reflexivity.
    + exists (S n). split; [simpl; lia|]. cbn [Py.take]. rewrite Ht.
      reflexivity.
Qed.

Lemma truncate_shape (text : string) :
  exists n : nat,
    (n <= 80)%nat
    /\ (_truncate_for_tts text = Py.take n text
        \/ _truncate_for_tts text = Py.take n text ++ "...")
    /\ (text <> "" -> (80 < String.length text)%nat ->
        _truncate_for_tts text = Py.take n text -> (56 < n)%nat).
Proof.
  destruct (Nat.le_gt_cases (String.length text) 80) as [Hshort | Hlong].
  - exists 80%nat. split; [lia|]. split; [|lia].
    left. rewrite truncate_short by exact Hshort.
    symmetry. apply take_whole. exact Hshort.
  - rewrite truncate_long by exact Hlong. cbv zeta.
    destruct (Z.ltb_spec 56 (Py.rfind (Py.take 80 text) Py.space)) as [Hcut | Hno].
    + destruct (rfind_cases (Py.take 80 text) Py.space)
        as [[Hr _] | [k [Hr [Hk _]]]]; [lia|].
      rewrite Hr in *. rewrite Nat2Z.id.
      apply get_some_bound in Hk. rewrite length_take in Hk.
      exists k. split; [lia|]. split.
      * left. apply take_take. lia.
      * intros _ _ _. lia.
    + destruct (rstrip_prefix (Py.take 80 text)) as [n [Hn Hs]].
      rewrite length_take in Hn.
      exists n. split; [lia|]. split.
      * right. rewrite Hs, take_take by lia. reflexivity.
      * intros _ _ Heq. exfalso.
        rewrite Hs, take_take in Heq by lia.
        apply (f_equal String.length) in Heq.
        rewrite length_append in Heq. simpl in Heq. lia.
Qed.

Lemma truncate_length (text : string) :
  (String.length (_truncate_for_tts text) <= 83)%nat.
Proof.
  destruct (truncate_shape text) as [n [Hn [[-> | ->] _]]].
  - rewrite length_take. lia.
  - rewrite length_append, length_take. simpl. lia.
Qed.

Lemma truncate_empty_only (text : string) :
  _truncate_for_tts text = "" -> text = "".
Proof.
  destruct (truncate_shape text) as [n [Hn [Hcases Hcut]]].
  intros Hempty.
  destruct (Nat.le_gt_cases (String.length text) 80) as [Hshort | Hlong].
  - rewrite truncate_short in Hempty by exact Hshort. exact Hempty.
  - exfalso. destruct Hcases as [Heq | Heq].
    + assert (Hne : text <> "") by (intros ->; simpl in Hlong; lia).
      specialize (Hcut Hne Hlong Heq).
      rewrite Heq in Hempty. apply (f_equal String.length) in Hempty.
      rewrite length_take in Hempty. simpl in Hempty. lia.
    + rewrite Heq in Hempty. apply (f_equal String.length) in Hempty.
      rewrite length_append in Hempty. simpl in Hempty. lia.
Qed.

Lemma truncate_nonempty (text : string) :
  Py.nonempty text = true -> Py.nonempty (_truncate_for_tts text) = true.
Proof.
  intros H. destruct (_truncate_for_tts text) eqn:Ht; [|reflexivity].
  apply truncate_empty_only in Ht. subst text. discriminate H.
Qed.

(** X1. Whatever the text, [_truncate_for_tts] returns at most 83
    characters: a prefix of the text of at most 80 characters, followed
    or not by "..."; and the result is empty exactly when the text is. *)
Theorem truncate_for_tts_bounded (text : string) :
  (String.length (_truncate_for_tts text) <= 83)%nat
  /\ (exists n : nat,
        (n <= 80)%nat
        /\ (_truncate_for_tts text = Py.take n text
            \/ _truncate_for_tts text = Py.take n text ++ "..."))
  /\ Py.nonempty (_truncate_for_tts text) = Py.nonempty text.
Proof.
  split; [apply truncate_length|]. split.
  - destruct (truncate_shape text) as [n [Hn [Hcases _]]].
    exists n. auto.
  - destruct text as [|c r]; [reflexivity|].
    apply truncate_nonempty. reflexivity.
Qed.

(** ** The shape of the three summaries *)

Lemma choice_in_pool (r : draws) (pool : list string) :
  pool <> [] -> In (choice r pool) pool.
Proof.
  intros Hne. unfold choice. apply nth_In.
  apply Nat.mod_upper_bound. destruct pool; [congruence | simpl; lia].
Qed.

Lemma append_nonempty_r (s t : string) :
  Py.nonempty t = true -> Py.nonempty (s ++ t) = true.
Proof.
  intros Ht. destruct s; [exact Ht | reflexivity].
Qed.

Lemma stop_pool_small (s : string) :
  In s fallback_stop_messages ->
  (String.length s <= 83)%nat /\ Py.nonempty s = true.
Proof.
  intros H. repeat (destruct H as [<- | H]; [split; [simpl; lia | reflexivity]|]).
  destruct H.
Qed.

Lemma subagent_pool_small (s : string) :
  In s fallback_subagent_messages ->
  (String.length s <= 83)%nat /\ Py.nonempty s = true.
Proof.
  intros H. repeat (destruct H as [<- | H]; [split; [simpl; lia | reflexivity]|]).
  destruct H.
Qed.

Lemma notification_pool_small (s : string) :
  In s fallback_notification_messages ->
  (String.length s <= 83)%nat /\ Py.nonempty s = true.
Proof.
  intros H. repeat (destruct H as [<- | H]; [split; [simpl; lia | reflexivity]|]).
  destruct H.
Qed.

Lemma stop_summary_cases (env : environ) (rnd : draws) (a : SessionAnalysis) :
  In (generate_stop_summary env rnd a) fallback_stop_messages
  \/ exists body : string,
       generate_stop_summary env rnd a
       = _truncate_for_tts ("Completed: " ++ body).
Proof.
  assert (Hpool : In (choice rnd fallback_stop_messages) fallback_stop_messages)
    by (apply choice_in_pool; discriminate).
  unfold generate_stop_summary.
  destruct (negb (_is_summary_enabled env)); [left; exact Hpool|].
  destruct (is_nil (key_accomplishments a) && is_nil (file_operations a)
            && is_nil (bash_commands a)); [left; exact Hpool|].
  destruct (_summarize_file_operations (file_operations a)) as [e | fs];
    cbn [bind]; [left; exact Hpool|].
  destruct (_summarize_bash_commands (bash_commands a)) as [e | cs];
    cbn [bind]; [left; exact Hpool|].
  destruct (is_nil (filter Py.nonempty [fs; cs; _summarize_errors (errors a)])).
  - destruct (is_nil (key_accomplishments a)); [left; exact Hpool|].
    right. eexists. reflexivity.
  - right. eexists. reflexivity.
Qed.

(** X2. The stop summary is one of the five fallback messages or the
    text "Completed: ..." truncated for speech; whatever the analysis, the
    environment and the random draws, it is not empty and has at most 83
    characters. *)
Theorem stop_summary_shape (env : environ) (rnd : draws) (a : SessionAnalysis) :
  (In (generate_stop_summary env rnd a) fallback_stop_messages
   \/ exists body : string,
        generate_stop_summary env rnd a
        = _truncate_for_tts ("Completed: " ++ body))
  /\ (String.length (generate_stop_summary env rnd a) <= 83)%nat
  /\ Py.nonempty (generate_stop_summary env rnd a) = true.
Proof.
  split; [apply stop_summary_cases|].
  destruct (stop_summary_cases env rnd a) as [Hin | [body ->]].
  - apply stop_pool_small. exact Hin.
  - split; [apply truncate_length | apply truncate_nonempty; reflexivity].
Qed.

Lemma subagent_summary_cases (env : environ) (rnd : draws)
  (a : SessionAnalysis) :
  In (generate_subagent_summary env rnd a) fallback_subagent_messages
  \/ exists body : string,
       generate_subagent_summary env rnd a
       = _truncate_for_tts ("Subagent " ++ body).
Proof.
  assert (Hpool : In (choice rnd fallback_subagent_messages)
                     fallback_subagent_messages)
    by (apply choice_in_pool; discriminate).
  unfold generate_subagent_summary.
  destruct (negb (_is_summary_enabled env)); [left; exact Hpool|].
  destruct (_summarize_research_activity a) as [e | rs]; [left; exact Hpool|].
  destruct (Py.nonempty rs).
  { right. exists ("completed: " ++ rs). reflexivity. }
  destruct (negb (is_nil (file_operations a))
            && (0 <? read_count (file_operations a))%nat).
  { right.
    exists ("analyzed " ++ Py.str_of_nat (read_count (file_operations a))
            ++ " files").
    reflexivity. }
  destruct (key_accomplishments a) as [|acc rest]; [left; exact Hpool|].
  right. exists ("completed: " ++ acc). reflexivity.
Qed.

(** X3. The subagent summary is one of the three fallback messages or a
    text starting with "Subagent " truncated for speech; it is never empty
    and has at most 83 characters. *)
Theorem subagent_summary_shape (env : environ) (rnd : draws)
  (a : SessionAnalysis) :
  (In (generate_subagent_summary env rnd a) fallback_subagent_messages
   \/ exists body : string,
        generate_subagent_summary env rnd a
        = _truncate_for_tts ("Subagent " ++ body))
  /\ (String.length (generate_subagent_summary env rnd a) <= 83)%nat
  /\ Py.nonempty (generate_subagent_summary env rnd a) = true.
Proof.
  split; [apply subagent_summary_cases|].
  destruct (subagent_summary_cases env rnd a) as [Hin | [body ->]].
  - apply subagent_pool_small. exact Hin.
  - split; [apply truncate_length | apply truncate_nonempty; reflexivity].
Qed.

Lemma notification_summary_cases (env : environ) (rnd : draws)
  (a : SessionAnalysis) :
  (exists msg : string,
     In msg fallback_notification_messages
     /\ (generate_notification_summary env rnd a = msg
         \/ generate_notification_summary env rnd a
            = name_prefix env rnd ++ msg))
  \/ exists body : string,
       generate_notification_summary env rnd a
       = _truncate_for_tts (name_prefix env rnd ++ body ++ ", needs your input").
Proof.
  assert (Hpool : In (choice rnd fallback_notification_messages)
                     fallback_notification_messages)
    by (apply choice_in_pool; discriminate).
  unfold generate_notification_summary.
  destruct (negb (_is_summary_enabled env)); [left; eauto|].
  destruct (Py.nonempty (current_context a)
            && negb (String.eqb (current_context a) "Unknown context")).
  { right. exists ("Working on: " ++ current_context a). reflexivity. }
  destruct (_generate_notification_context a) as [e | rc]; [left; eauto|].
  destruct (Py.nonempty rc); [|left; eauto].
  right. exists rc. reflexivity.
Qed.

(** X4. The notification summary is never empty. It is a fallback
    message, bare or behind the name prefix, or a text ending in
    ", needs your input" behind the name prefix and truncated for speech.
    Only the fallback behind a name prefix can exceed 83 characters:
    without a prefix the summary has at most 83. *)
Theorem notification_summary_shape (env : environ) (rnd : draws)
  (a : SessionAnalysis) :
  Py.nonempty (generate_notification_summary env rnd a) = true
  /\ ((exists msg : string,
         In msg fallback_notification_messages
         /\ (generate_notification_summary env rnd a = msg
             \/ generate_notification_summary env rnd a
                = name_prefix env rnd ++ msg))
      \/ (String.length (generate_notification_summary env rnd a) <= 83)%nat)
  /\ (name_prefix env rnd = "" ->
      (String.length (generate_notification_summary env rnd a) <= 83)%nat).
Proof.
  destruct (notification_summary_cases env rnd a)
    as [[msg [Hin [H | H]]] | [body H]]; rewrite H.
  - destruct (notification_pool_small msg Hin) as [Hlen Hne].
    split; [exact Hne|]. split; [left; eauto | intros _; exact Hlen].
  - destruct (notification_pool_small msg Hin) as [Hlen Hne].
    split; [apply append_nonempty_r; exact Hne|].
    split; [left; exists msg; rewrite <- H; auto|].
    intros ->. exact Hlen.
  - split; [|split; [right|intros _]; apply truncate_length].
    apply truncate_nonempty, append_nonempty_r, append_nonempty_r.
    reflexivity.
Qed.

Lemma notification_summary_shape_witness :
  (String.length
     (generate_notification_summary Examples.default_env Examples.first_draw
        (Examples.analysis_of Examples.request_and_four_files)) <= 83)%nat.
Proof.
  apply (proj2 (proj2 (notification_summary_shape Examples.default_env
                         Examples.first_draw
                         (Examples.analysis_of Examples.request_and_four_files)))).
  reflexivity.
Defined.

(** X5. With the switch CLAUDE_HOOKS_SUMMARY_ENABLED set to anything but
    "true" (in any letter case), each of the three operations returns a
    message of its own fallback pool, whatever the analysis. *)
Theorem summaries_disabled
  (env : environ) (rnd : draws) (a : SessionAnalysis) (value : string) :
  CLAUDE_HOOKS_SUMMARY_ENABLED env = Some value ->
  Py.lower value <> "true" ->
  In (generate_stop_summary env rnd a) fallback_stop_messages
  /\ In (generate_notification_summary env rnd a) fallback_notification_messages
  /\ In (generate_subagent_summary env rnd a) fallback_subagent_messages.
Proof.
  intros Hv Hne.
  assert (Hoff : _is_summary_enabled env = false).
  { unfold _is_summary_enabled. rewrite Hv. cbn [getenv].
    apply String.eqb_neq. exact Hne. }
  unfold generate_stop_summary, generate_notification_summary,
    generate_subagent_summary.
  rewrite Hoff. cbn [negb].
  repeat split; apply choice_in_pool; discriminate.
Qed.

Lemma summaries_disabled_witness :
  In (generate_stop_summary (mk_environ (Some "False") None)
        Examples.first_draw
        (Examples.analysis_of Examples.write_then_edit))
     fallback_stop_messages.
Proof.
  apply (summaries_disabled (mk_environ (Some "False") None)
           Examples.first_draw
           (Examples.analysis_of Examples.write_then_edit) "False").
  - reflexivity.
  - vm_compute. discriminate.
Defined.

(** ** What the clauses of the stop summary depend on *)

Lemma file_clause_factors (ops ops' : list FileOperation) :
  created_ops ops = created_ops ops' ->
  modified_ops ops = modified_ops ops' ->
  _summarize_file_operations ops = _summarize_file_operations ops'.
Proof.
  intros Hc Hm.
  assert (Hnil : forall l : list FileOperation,
            created_ops l = [] -> modified_ops l = [] ->
            _summarize_file_operations l = inr "").
  { intros l H1 H2. unfold _summarize_file_operations.
    destruct (is_nil l); [reflexivity|]. rewrite H1, H2. reflexivity. }
  destruct ops as [|o os], ops' as [|o' os'].
  - reflexivity.
  - symmetry. apply Hnil; [rewrite <- Hc | rewrite <- Hm]; reflexivity.
  - apply Hnil; [rewrite Hc | rewrite Hm]; reflexivity.
  - unfold _summarize_file_operations. cbn [is_nil]. rewrite Hc, Hm.
    reflexivity.
Qed.

(** X6. A file operation that failed, or that only read a file, never
    changes the file-operation clause of the stop summary, wherever it
    stands in the list and even if its path is not a string. *)
Theorem file_clause_ignores_failures_and_reads
  (before after : list FileOperation) (op : FileOperation) :
  fo_success op = false \/ operation op = "read" ->
  _summarize_file_operations (before ++ op :: after)
  = _summarize_file_operations (before ++ after).
Proof.
  intros Hop.
  assert (Hw : (String.eqb (operation op) "write" && fo_success op) = false).
  { destruct Hop as [-> | ->]; [apply andb_false_r | reflexivity]. }
  assert (He : (String.eqb (operation op) "edit" && fo_success op) = false).
  { destruct Hop as [-> | ->]; [apply andb_false_r | reflexivity]. }
  apply file_clause_factors; unfold created_ops, modified_ops;
    rewrite !filter_app; cbn [filter]; [rewrite Hw | rewrite He]; reflexivity.
Qed.

Lemma file_clause_ignores_failures_and_reads_witness :
  _summarize_file_operations
    [mk_FileOperation "read" (PStr "/src/a.py") true PNone;
     mk_FileOperation "write" PNone false (PStr "x");
     mk_FileOperation "edit" (PStr "/src/b.py") true (PStr "y")]
  = _summarize_file_operations
      [mk_FileOperation "read" (PStr "/src/a.py") true PNone;
       mk_FileOperation "edit" (PStr "/src/b.py") true (PStr "y")].
Proof.
  apply (file_clause_ignores_failures_and_reads
           [mk_FileOperation "read" (PStr "/src/a.py") true PNone]
           [mk_FileOperation "edit" (PStr "/src/b.py") true (PStr "y")]
           (mk_FileOperation "write" PNone false (PStr "x"))).
  left. reflexivity.
Defined.

Lemma bash_clause_factors (cmds cmds' : list BashCommand) :
  filter bc_success cmds = filter bc_success cmds' ->
  _summarize_bash_commands cmds = _summarize_bash_commands cmds'.
Proof.
  intros Hs.
  assert (Hnil : forall l : list BashCommand,
            filter bc_success l = [] -> _summarize_bash_commands l = inr "").
  { intros l H. unfold _summarize_bash_commands.
    destruct (is_nil l); [reflexivity|]. rewrite H. reflexivity. }
  destruct cmds as [|c cs], cmds' as [|c' cs'].
  - reflexivity.
  - symmetry. apply Hnil. rewrite <- Hs. reflexivity.
  - apply Hnil. rewrite Hs. reflexivity.
  - unfold _summarize_bash_commands. cbn [is_nil]. rewrite Hs. reflexivity.
Qed.

(** X7. A shell command that failed never changes the bash-command
    clause of the stop summary, wherever it stands in the list and even if
    its command is not a string. *)
Theorem bash_clause_ignores_failures
  (before after : list BashCommand) (cmd : BashCommand) :
  bc_success cmd = false ->
  _summarize_bash_commands (before ++ cmd :: after)
  = _summarize_bash_commands (before ++ after).
Proof.
  intros Hf. apply bash_clause_factors.
  rewrite !filter_app. cbn [filter]. rewrite Hf. reflexivity.
Qed.

Lemma bash_clause_ignores_failures_witness :
  _summarize_bash_commands
    [mk_BashCommand (PStr "pytest -q") true (PStr "") (PStr "") (PStr "");
     mk_BashCommand (PInt 7) false (PStr "") (PStr "") (PStr "")]
  = _summarize_bash_commands
      [mk_BashCommand (PStr "pytest -q") true (PStr "") (PStr "") (PStr "")].
Proof.
  apply (bash_clause_ignores_failures
           [mk_BashCommand (PStr "pytest -q") true (PStr "") (PStr "") (PStr "")]
           []
           (mk_BashCommand (PInt 7) false (PStr "") (PStr "") (PStr ""))).
  reflexivity.
Defined.

(** The bash clause is empty exactly when no command succeeded. *)
Lemma join_nonempty (sep : string) (l : list string) :
  l <> [] -> Forall (fun s => Py.nonempty s = true) l ->
  Py.nonempty (Py.join sep l) = true.
Proof.
  intros Hne Hall. destruct l as [|x [|y r]]; [congruence| |].
  - inversion Hall. assumption.
  - inversion Hall as [|? ? Hx _]. cbn [Py.join String.concat].
    destruct x; [discriminate Hx | reflexivity].
Qed.

(** X8. When every successful command is a string, the bash-command
    clause is returned without an exception, and it is empty exactly when
    no command succeeded. *)
Theorem bash_clause_empty_iff (cmds : list BashCommand) :
  Forall (fun c => is_str (command c) = true) (filter bc_success cmds) ->
  exists clause : string,
    _summarize_bash_commands cmds = inr clause
    /\ (clause = "" <-> filter bc_success cmds = []).
Proof.
  intros Hstr. unfold _summarize_bash_commands.
  destruct cmds as [|c0 cs] eqn:Hc.
  { exists "". split; [reflexivity | tauto]. }
  rewrite <- Hc in *. clear Hc. cbn [is_nil].
  assert (Hn : is_nil (c0 :: cs) = false) by reflexivity.
  destruct (filter bc_success cmds) as [|s ss] eqn:Hs.
  { destruct cmds; exists ""; split; try reflexivity; tauto. }
  assert (Hlow : forall q : string -> bool,
            filterM (fun cmd => l <- py_lower (command cmd) ;; ret (q l))%py
                    (s :: ss)
            = inr (filter (fun cmd => match command cmd with
                                      | PStr t => q (Py.lower t)
                                      | _ => false
                                      end) (s :: ss))).
  { intros q. apply filterM_pure. eapply Forall_impl; [|exact Hstr].
    intros b Hb. cbn beta in Hb.
    destruct (command b); try discriminate Hb. reflexivity. }
  assert (Hgit : filterM (fun cmd => py_startswith (command cmd) "git") (s :: ss)
                 = inr (filter (fun cmd => match command cmd with
                                           | PStr t => Py.startswith t "git"
                                           | _ => false
                                           end) (s :: ss))).
  { apply filterM_pure. eapply Forall_impl; [|exact Hstr].
    intros b Hb. cbn beta in Hb.
    destruct (command b); try discriminate Hb. reflexivity. }
  destruct cmds as [|c1 cs1]; [discriminate Hs|]. cbn [is_nil].
  rewrite (Hlow (Py.str_in "test")),
          (Hlow (Py.any_in ["build"; "compile"; "npm run"; "yarn"; "make"])),
          Hgit.
  cbn [bind ret]. eexists. split; [reflexivity|].
  split; [|discriminate].
  intros Hempty. exfalso.
  revert Hempty.
  match goal with
  | |- Py.join _ ?parts = "" -> _ =>
      assert (Hp : Py.nonempty (Py.join ", " parts) = true)
  end.
  { apply join_nonempty.
    - repeat match goal with
             | |- context [is_nil (filter ?f ?l)] =>
                 destruct (is_nil (filter f l))
             end; cbn; discriminate.
    - repeat match goal with
             | |- context [is_nil (filter ?f ?l)] =>
                 destruct (is_nil (filter f l))
             end; cbn; repeat constructor. }
  intros Hempty. rewrite Hempty in Hp. discriminate Hp.
Qed.

Lemma bash_clause_empty_iff_witness :
  exists clause : string,
    _summarize_bash_commands
      [mk_BashCommand (PStr "ls -la") true (PStr "") (PStr "") (PStr "")]
    = inr clause
    /\ (clause = ""
        <-> filter bc_success
              [mk_BashCommand (PStr "ls -la") true (PStr "") (PStr "") (PStr "")]
            = []).
Proof.
  apply (bash_clause_empty_iff
           [mk_BashCommand (PStr "ls -la") true (PStr "") (PStr "") (PStr "")]).
  repeat constructor.
Defined.

(** * Further properties of the analyzer *)

(** ** File operations and shell commands come from tool events *)

Lemma in_str_set_inr (v : pyval) (names : list string) (b : bool) :
  in_str_set v names = inr b ->
  b = match v with
      | PStr s => existsb (String.eqb s) names
      | _ => false
      end.
Proof.
  destruct v; simpl; intros H; try discriminate; injection H as <-; reflexivity.
Qed.

Lemma operation_of_file_tool (name : pyval) :
  in_str_set name file_operation_tools = inr true ->
  In (operation_of name) ["read"; "write"; "edit"].
Proof.
  intros H. apply in_str_set_inr in H.
  destruct name as [| | | | s | |]; try discriminate H.
  unfold operation_of. cbn [file_operation_tools existsb] in H.
  destruct (String.eqb s "Read"); [simpl; auto|].
  destruct (String.eqb s "Write"); [simpl; auto|].
  destruct (String.eqb s "Edit"); [simpl; auto|].
  destruct (String.eqb s "MultiEdit"); [simpl; auto|].
  discriminate H.
Qed.

Lemma file_tool_not_bash (te : ToolEvent) :
  is_file_tool te = true -> is_bash_tool te = false.
Proof.
  unfold is_file_tool, is_bash_tool.
  destruct (tool_name te) as [| | | | s | |]; try discriminate.
  cbn [py_eq scalar_eq]. intros H.
  destruct (String.eqb_spec s "Bash") as [->|]; [discriminate H | reflexivity].
Qed.

Lemma preview_bound (c v : pyval) :
  preview c = inr v ->
  forall p : string, v = PStr p -> (String.length p <= 103)%nat.
Proof.
  unfold preview. intros H p ->.
  destruct c as [| | | | s | l | d]; try discriminate H;
    cbn [py_len bind ret raise] in H.
  - destruct (Nat.ltb_spec 100 (String.length s)).
    + unfold ret in H.
      assert (Hp : p = Py.take 100 s ++ "...") by congruence.
      rewrite Hp, length_append, length_take.
      change (String.length "...") with 3%nat. lia.
    + unfold ret in H. assert (Hp : p = s) by congruence. rewrite Hp. lia.
  - destruct (100 <? List.length l)%nat; discriminate H.
  - destruct (100 <? List.length d)%nat; discriminate H.
Qed.

Lemma extract_file_operation_derived (te : ToolEvent) (r : option FileOperation) :
  _extract_file_operation te = inr r ->
  match r with
  | None => is_file_tool te = false
  | Some fo =>
      is_file_tool te = true
      /\ derived_file_op te fo
      /\ (operation fo = "read" -> content_preview fo = PNone)
      /\ (forall p, content_preview fo = PStr p -> (String.length p <= 103)%nat)
  end.
Proof.
  unfold _extract_file_operation. intros H.
  destruct (in_str_set (tool_name te) file_operation_tools) as [e | known] eqn:Hk;
    cbn [bind] in H; [discriminate|].
  pose proof (in_str_set_inr _ _ _ Hk) as Hb.
  destruct known; cbn [negb] in H.
  - pose proof (operation_of_file_tool _ Hk) as Hop.
    destruct (py_get (tool_input te) "file_path" (PStr "")) as [e | path] eqn:Hp;
      cbn [bind] in H; [discriminate|].
    assert (Hfile : is_file_tool te = true) by (unfold is_file_tool; auto).
    destruct (String.eqb_spec (operation_of (tool_name te)) "write") as [Hw | Hw].
    + destruct (py_get (tool_input te) "content" (PStr "")) as [e | c];
        cbn [bind] in H; [discriminate|].
      destruct (preview c) as [e | v] eqn:Hv; cbn [bind ret] in H; [discriminate|].
      injection H as <-. cbn. repeat split; auto.
      * rewrite Hw. discriminate.
      * apply (preview_bound c v Hv).
    + destruct (String.eqb_spec (operation_of (tool_name te)) "edit") as [He | He].
      * destruct (py_get (tool_input te) "new_string" (PStr "")) as [e | c];
          cbn [bind] in H; [discriminate|].
        destruct (preview c) as [e | v] eqn:Hv; cbn [bind ret] in H;
          [discriminate|].
        injection H as <-. cbn. repeat split; auto.
        -- rewrite He. discriminate.
        -- apply (preview_bound c v Hv).
      * cbn [bind ret] in H. injection H as <-. cbn. repeat split; auto.
        intros p Hp'. discriminate Hp'.
  - injection H as <-. unfold is_file_tool. auto.
Qed.

(** X9. When [_extract_file_operation] returns a file operation, its kind
    is read, write or edit (the default 'unknown' never shows), its path and
    success flag are those of the tool event, a read has no preview, and a
    preview that is a string has at most 103 characters; it returns nothing
    exactly for a tool name outside the file-operation set. *)
Theorem extract_file_operation_result
  (te : ToolEvent) (r : option FileOperation) :
  _extract_file_operation te = inr r ->
  match r with
  | None => is_file_tool te = false
  | Some fo =>
      is_file_tool te = true
      /\ In (operation fo) ["read"; "write"; "edit"]
      /\ operation fo = operation_of (tool_name te)
      /\ fo_success fo = te_success te
      /\ py_get (tool_input te) "file_path" (PStr "") = inr (file_path fo)
      /\ (operation fo = "read" -> content_preview fo = PNone)
      /\ (forall p, content_preview fo = PStr p -> (String.length p <= 103)%nat)
  end.
Proof.
  intros H. apply extract_file_operation_derived in H.
  destruct r as [fo|]; [|exact H].
  destruct H as [Hf [[H1 [H2 [H3 H4]]] [H5 H6]]]. auto 10.
Qed.

Lemma extract_file_operation_result_witness :
  match
    _extract_file_operation
      (mk_ToolEvent (PStr "MultiEdit")
         (PDict [("file_path", PStr "/src/a.py"); ("new_string", PStr "x")])
         PNone true "" None)
  with
  | inr (Some fo) => operation fo = "edit" /\ fo_success fo = true
  | _ => False
  end.
Proof.
  pose proof (extract_file_operation_result
                (mk_ToolEvent (PStr "MultiEdit")
                   (PDict [("file_path", PStr "/src/a.py");
                           ("new_string", PStr "x")])
                   PNone true "" None)
                (Some (mk_FileOperation "edit" (PStr "/src/a.py") true (PStr "x")))
                eq_refl) as W.
  cbn in W |- *. destruct W as [_ [_ [W1 [W2 _]]]]. split; assumption.
Defined.

Lemma extract_bash_command_derived (te : ToolEvent) (r : option BashCommand) :
  _extract_bash_command te = inr r ->
  match r with
  | None => is_bash_tool te = false
  | Some bc => is_bash_tool te = true /\ derived_bash te bc
  end.
Proof.
  unfold _extract_bash_command, is_bash_tool. intros H.
  destruct (py_eq (tool_name te) (PStr "Bash")); cbn [negb] in H.
  - destruct (py_get (tool_input te) "command" (PStr "")) as [e | c] eqn:Hc;
      cbn [bind] in H; [discriminate|].
    destruct (py_get (tool_input te) "description" (PStr "")) as [e | d] eqn:Hd;
      cbn [bind] in H; [discriminate|].
    destruct (tool_result te); injection H as <-;
      (split; [reflexivity | repeat split; assumption]).
  - injection H as <-. reflexivity.
Qed.

Section Derivation.

Variable py_str : pyval -> string.

Lemma extract_tool_event_fields (d : dict) (events : list pyval) (te : ToolEvent) :
  _extract_tool_event py_str d events = inr te ->
  tool_name te = dict_get d "name" (PStr "")
  /\ tool_input te = dict_get d "input" (PDict [])
  /\ te_timestamp te = "".
Proof.
  unfold _extract_tool_event. intros H.
  destruct (foldM (match_event py_str (dict_get d "id" (PStr ""))) events
              (mk_correlation PNone true None)) as [e | st];
    cbn [bind ret] in H; [discriminate|].
  injection H as <-. repeat split.
Qed.

Lemma derivation_snoc_other (st : containers) (te : ToolEvent) :
  is_file_tool te = false -> is_bash_tool te = false ->
  derivation_invariant st -> derivation_invariant (add_tool_event te st).
Proof.
  intros Hf Hb [I1 I2]. unfold derivation_invariant. cbn.
  rewrite !filter_app. cbn [filter]. rewrite Hf, Hb, !app_nil_r. auto.
Qed.

Lemma derivation_snoc_file (st : containers) (te : ToolEvent)
  (fo : FileOperation) :
  is_file_tool te = true -> derived_file_op te fo ->
  derivation_invariant st ->
  derivation_invariant (add_file_operation fo (add_tool_event te st)).
Proof.
  intros Hf Hd [I1 I2]. unfold derivation_invariant. cbn.
  rewrite !filter_app. cbn [filter].
  rewrite Hf, (file_tool_not_bash te Hf), app_nil_r. split; [|exact I2].
  apply Forall2_app; [exact I1 | constructor; [exact Hd | constructor]].
Qed.

Lemma derivation_snoc_bash (st : containers) (te : ToolEvent)
  (bc : BashCommand) :
  is_file_tool te = false -> is_bash_tool te = true -> derived_bash te bc ->
  derivation_invariant st ->
  derivation_invariant (add_bash_command bc (add_tool_event te st)).
Proof.
  intros Hf Hb Hd [I1 I2]. unfold derivation_invariant. cbn.
  rewrite !filter_app. cbn [filter].
  rewrite Hf, Hb, app_nil_r. split; [exact I1|].
  apply Forall2_app; [exact I2 | constructor; [exact Hd | constructor]].
Qed.

Lemma process_item_derivation (evs : list pyval) (st st' : containers)
  (item : pyval) :
  process_item py_str evs st item = inr st' ->
  derivation_invariant st -> derivation_invariant st'.
Proof.
  intros H Hinv. unfold process_item in H.
  destruct item as [| | | | | l | d];
    try (injection H as <-; exact Hinv).
  destruct (py_eq (dict_get d "type" PNone) (PStr "tool_use")).
  - destruct (_extract_tool_event py_str d evs) as [e | te] eqn:Hte;
      cbn [bind] in H; [discriminate|].
    destruct (in_str_set (tool_name te) file_operation_tools)
      as [e | is_file] eqn:Hset; cbn [bind] in H; [discriminate|].
    pose proof (in_str_set_inr _ _ _ Hset) as Hfile.
    fold (is_file_tool te) in Hfile.
    destruct is_file.
    + destruct (_extract_file_operation te) as [e | r] eqn:Hr;
        cbn [bind] in H; [discriminate|].
      pose proof (extract_file_operation_derived te r Hr) as Hd.
      destruct r as [fo|].
      * injection H as <-. destruct Hd as [_ [Hd _]].
        apply derivation_snoc_file; auto.
      * congruence.
    + destruct (py_eq (tool_name te) (PStr "Bash")) eqn:Hbash.
      * destruct (_extract_bash_command te) as [e | r] eqn:Hr;
          cbn [bind] in H; [discriminate|].
        pose proof (extract_bash_command_derived te r Hr) as Hd.
        destruct r as [bc|].
        -- injection H as <-. destruct Hd as [_ Hd].
           apply derivation_snoc_bash; auto.
        -- unfold is_bash_tool in Hd. congruence.
      * injection H as <-. apply derivation_snoc_other; auto.
  - destruct (py_eq (dict_get d "type" PNone) (PStr "text")).
    + destruct (py_strip (dict_get d "text" (PStr ""))) as [e | text];
        cbn [bind ret] in H; [discriminate|].
      injection H as <-. destruct (Py.nonempty text); exact Hinv.
    + injection H as <-. exact Hinv.
Qed.

Lemma derivation_frame (st st' : containers) :
  st_tool_events st' = st_tool_events st ->
  st_file_operations st' = st_file_operations st ->
  st_bash_commands st' = st_bash_commands st ->
  derivation_invariant st -> derivation_invariant st'.
Proof. unfold derivation_invariant. intros -> -> ->. auto. Qed.

Lemma process_event_derivation (evs : list pyval) (st st' : containers)
  (event : pyval) :
  process_event py_str evs st event = inr st' ->
  derivation_invariant st -> derivation_invariant st'.
Proof.
  intros H Hinv. destruct event as [| | | | | l | d]; try discriminate H.
  unfold process_event in H.
  set (st1 := if truthy (dict_get d "timestamp" (PStr ""))
              then add_timestamp (dict_get d "timestamp" (PStr "")) st
              else st) in H.
  set (st2 := if dict_has "sessionId" d
              then set_session_id (dict_get d "sessionId" PNone) st1
              else st1) in H.
  assert (H2 : derivation_invariant st2).
  { subst st2 st1.
    destruct (dict_has "sessionId" d),
             (truthy (dict_get d "timestamp" (PStr "")));
      (eapply derivation_frame; [| | |exact Hinv]); reflexivity. }
  clearbody st2. clear st1 Hinv.
  break_result H;
    try (injection H as <-;
         repeat match goal with
                | |- context [if ?c then _ else _] => destruct c
                end;
         try exact H2;
         (eapply derivation_frame; [| | |exact H2]); reflexivity).
  revert H H2.
  apply (foldM_invariant (process_item py_str evs) derivation_invariant
           (fun _ => True)).
  - intros s x s' _. apply process_item_derivation.
  - apply Forall_forall. auto.
Qed.

Lemma process_event_derivation_all (evs : list pyval)
  (st : containers) (event : pyval) (st' : containers) :
  True -> process_event py_str evs st event = inr st' ->
  derivation_invariant st -> derivation_invariant st'.
Proof. intros _. apply process_event_derivation. Qed.

End Derivation.

Section DerivationOfAnalysis.

Variable py_str : pyval -> string.
Variable fromisoformat : string -> result Datetime.datetime.

(** X10. In every analysis that [_analyze_events] returns, the file
    operations are, one for one and in order, derived from the tool events
    that name Read, Write, Edit or MultiEdit, and the shell commands from
    the tool events that name Bash: same success flag, path or command
    read from the tool input, kind among read, write and edit. *)
Theorem operations_derive_from_tool_events
  (events : list pyval) (a : SessionAnalysis) :
  _analyze_events py_str fromisoformat events = inr a ->
  Forall2 derived_file_op (filter is_file_tool (tool_events a))
          (file_operations a)
  /\ Forall2 derived_bash (filter is_bash_tool (tool_events a))
             (bash_commands a).
Proof.
  intros H. apply analyze_events_inr in H.
  destruct H as [st [Hloop [_ [_ [_ [Ht [Hf [Hb _]]]]]]]].
  rewrite Ht, Hf, Hb.
  change (derivation_invariant st).
  revert Hloop.
  generalize events at 1. intros evs Hloop.
  apply (foldM_invariant (process_event py_str evs) derivation_invariant
           (fun _ => True) (process_event_derivation_all py_str evs)
           events initial st); auto.
  - apply Forall_forall. auto.
  - split; constructor.
Qed.

End DerivationOfAnalysis.

Lemma operations_derive_from_tool_events_witness :
  Forall2 derived_file_op
    (filter is_file_tool
       (tool_events (Examples.analysis_of Examples.write_then_edit)))
    (file_operations (Examples.analysis_of Examples.write_then_edit)).
Proof.
  assert (H : _analyze_events Examples.show Examples.fromisoformat
                Examples.write_then_edit
              = inr (Examples.analysis_of Examples.write_then_edit))
    by (vm_compute; reflexivity).
  exact (proj1 (operations_derive_from_tool_events _ _ _ _ H)).
Defined.

(** ** What the collected texts look like *)

Section Stripping.

Lemma lstrip_head (s : string) :
  match Py.lstrip s with
  | EmptyString => True
  | String c _ => Py.isspace c = false
  end.
Proof.
  induction s as [|c r IH]; [exact I|].
  cbn [Py.lstrip]. destruct (Py.isspace c) eqn:Hc; [exact IH | exact Hc].
Qed.

Lemma rstrip_idempotent : forall s : string,
  Py.rstrip (Py.rstrip s) = Py.rstrip s.
Proof.
  induction s as [|c r IH]; [reflexivity|].
  cbn [Py.rstrip].
  destruct (Py.rstrip r) as [|b r'] eqn:Hr.
  - destruct (Py.isspace c) eqn:Hc; [reflexivity|].
    cbn [Py.rstrip]. rewrite Hc. reflexivity.
  - change (Py.rstrip (String c (String b r')))
      with (match Py.rstrip (String b r') with
            | EmptyString =>
                if Py.isspace c then EmptyString else String c EmptyString
            | r0 => String c r0
            end).
    rewrite IH. reflexivity.
Qed.

Lemma rstrip_keeps_head (c : ascii) (r : string) :
  Py.isspace c = false ->
  exists r', Py.rstrip (String c r) = String c r'.
Proof.
  intros Hc. cbn [Py.rstrip].
  destruct (Py.rstrip r); [rewrite Hc|]; eauto.
Qed.

(** [strip] returns a string that [strip] leaves alone. *)
Lemma strip_idempotent (s : string) : Py.strip (Py.strip s) = Py.strip s.
Proof.
  unfold Py.strip.
  pose proof (lstrip_head s) as Hh.
  destruct (Py.lstrip s) as [|c r]; [reflexivity|].
  destruct (rstrip_keeps_head c r Hh) as [r' Hr].
  assert (Hl : Py.lstrip (Py.rstrip (String c r)) = Py.rstrip (String c r)).
  { rewrite Hr. cbn [Py.lstrip]. rewrite Hh. reflexivity. }
  rewrite Hl. apply rstrip_idempotent.
Qed.

Lemma startswith_take (p : string) : forall (s : string) (n : nat),
  Py.startswith (Py.take n s) p = true -> Py.startswith s p = true.
Proof.
  induction p as [|a p IH]; intros s n H; [destruct s; reflexivity|].
  destruct n as [|n], s as [|b s]; try discriminate H.
  cbn [Py.take Py.startswith] in H |- *.
  apply andb_prop in H. destruct H as [-> H]. apply (IH _ _ H).
Qed.

Lemma str_in_take (p : string) : forall (s : string) (n : nat),
  Py.str_in p (Py.take n s) = true -> Py.str_in p s = true.
Proof.
  induction s as [|b s IH]; intros n H.
  - destruct n; exact H.
  - destruct n as [|n].
    + cbn [Py.take Py.str_in] in H. rewrite orb_false_r in H.
      destruct p; [reflexivity | discriminate H].
    + cbn [Py.take] in H. cbn [Py.str_in] in H |- *.
      apply orb_prop in H. apply orb_true_iff. destruct H as [H | H].
      * left. apply (startswith_take p (String b s) (S n)). exact H.
      * right. apply (IH n H).
Qed.

Lemma str_in_lstrip (p : string) : forall s : string,
  Py.str_in p (Py.lstrip s) = true -> Py.str_in p s = true.
Proof.
  induction s as [|c r IH]; intros H; [exact H|].
  cbn [Py.lstrip] in H. destruct (Py.isspace c); [|exact H].
  cbn [Py.str_in]. apply orb_true_iff. right. apply IH. exact H.
Qed.

(** A substring of the stripped text is a substring of the text. *)
Lemma str_in_strip (p s : string) :
  Py.str_in p (Py.strip s) = true -> Py.str_in p s = true.
Proof.
  unfold Py.strip. intros H.
  destruct (rstrip_prefix (Py.lstrip s)) as [n [_ Hn]]. rewrite Hn in H.
  apply str_in_lstrip. apply (str_in_take p _ n H).
Qed.

Lemma is_tool_result_strip (s : string) :
  _is_tool_result s = false -> _is_tool_result (Py.strip s) = false.
Proof.
  unfold _is_tool_result, Py.any_in. intros H.
  destruct (existsb (fun k => Py.str_in k (Py.strip s)) tool_result_patterns)
    eqn:E; [|reflexivity].
  apply existsb_exists in E. destruct E as [k [Hk Hin]].
  assert (Ht : existsb (fun k => Py.str_in k s) tool_result_patterns = true).
  { apply existsb_exists. exists k. split; [exact Hk|].
    apply str_in_strip. exact Hin. }
  congruence.
Qed.

End Stripping.

Section Texts.

Variable py_str : pyval -> string.

Lemma texts_frame (st st' : containers) :
  st_user_messages st' = st_user_messages st ->
  st_assistant_responses st' = st_assistant_responses st ->
  st_errors st' = st_errors st ->
  texts_invariant st -> texts_invariant st'.
Proof. unfold texts_invariant. intros -> -> ->. auto. Qed.

Lemma process_item_texts (evs : list pyval) (st st' : containers)
  (item : pyval) :
  process_item py_str evs st item = inr st' ->
  texts_invariant st -> texts_invariant st'.
Proof.
  intros H Hinv. unfold process_item in H.
  break_result H; injection H as <-;
    try exact Hinv;
    try (eapply texts_frame; [| | |exact Hinv]; reflexivity).
  match goal with
  | Hs : py_strip ?v = inr ?t |- _ =>
      destruct v; try discriminate Hs; cbn [py_strip ret] in Hs;
      injection Hs as <-
  end.
  destruct (Py.nonempty (Py.strip _)) eqn:Hne; [|exact Hinv].
  destruct Hinv as [I1 [I2 I3]]. repeat split; cbn; auto.
  apply Forall_snoc; [exact I2|].
  split; [exact Hne | apply strip_idempotent].
Qed.

Lemma process_event_texts (evs : list pyval) (st st' : containers)
  (event : pyval) :
  process_event py_str evs st event = inr st' ->
  texts_invariant st -> texts_invariant st'.
Proof.
  intros H Hinv. destruct event as [| | | | | l | d]; try discriminate H.
  unfold process_event in H.
  set (st1 := if truthy (dict_get d "timestamp" (PStr ""))
              then add_timestamp (dict_get d "timestamp" (PStr "")) st
              else st) in H.
  set (st2 := if dict_has "sessionId" d
              then set_session_id (dict_get d "sessionId" PNone) st1
              else st1) in H.
  assert (H2 : texts_invariant st2).
  { subst st2 st1.
    destruct (dict_has "sessionId" d),
             (truthy (dict_get d "timestamp" (PStr "")));
      (eapply texts_frame; [| | |exact Hinv]); reflexivity. }
  clearbody st2. clear st1 Hinv.
  destruct (py_eq (dict_get d "type" (PStr "")) (PStr "user")
            && dict_has "message" d).
  { destruct (dict_get d "message" PNone) as [| | | | | |message];
      try (injection H as <-; exact H2).
    destruct (py_eq (dict_get message "role" PNone) (PStr "user"));
      [|injection H as <-; exact H2].
    destruct (dict_get message "content" (PStr "")) as [| | | |c| |];
      try (injection H as <-; exact H2).
    destruct (Py.nonempty (Py.strip c) && negb (_is_tool_result c)) eqn:Hc;
      injection H as <-; [|exact H2].
    apply andb_prop in Hc. destruct Hc as [Hne Hm].
    apply negb_true_iff in Hm.
    destruct H2 as [I1 [I2 I3]]. repeat split; cbn; auto.
    apply Forall_snoc; [exact I1|].
    repeat split;
      [exact Hne | apply strip_idempotent | apply is_tool_result_strip; exact Hm]. }
  destruct (py_eq (dict_get d "type" (PStr "")) (PStr "assistant")
            && dict_has "message" d).
  { destruct (dict_get d "message" PNone) as [| | | | | |message];
      try (injection H as <-; exact H2).
    destruct (dict_get message "content" (PList [])) as [| | | | |items|];
      try (injection H as <-; exact H2).
    revert H H2.
    apply (foldM_invariant (process_item py_str evs) texts_invariant
             (fun _ => True)).
    - intros s x s' _. apply process_item_texts.
    - apply Forall_forall. auto. }
  destruct (py_eq (dict_get d "type" (PStr "")) (PStr "system"));
    [|injection H as <-; exact H2].
  destruct (dict_get d "content" (PStr "")) as [| | | |c| |];
    try discriminate H.
  cbn [py_lower bind ret] in H. injection H as <-.
  destruct (Py.str_in "error" (Py.lower c) || Py.str_in "failed" (Py.lower c))
    eqn:Hc; [|exact H2].
  destruct H2 as [I1 [I2 I3]]. repeat split; cbn; auto.
  apply Forall_snoc; [exact I3 | exact Hc].
Qed.

Lemma loop_texts (evs l : list pyval) (st st' : containers) :
  foldM (process_event py_str evs) l st = inr st' ->
  texts_invariant st -> texts_invariant st'.
Proof.
  apply (foldM_invariant (process_event py_str evs) texts_invariant
           (fun _ => True)).
  - intros s x s' _. apply process_event_texts.
  - apply Forall_forall. auto.
Qed.

End Texts.

Section TextsOfAnalysis.

Variable py_str : pyval -> string.
Variable fromisoformat : string -> result Datetime.datetime.

Lemma analysis_texts (events : list pyval) (a : SessionAnalysis) :
  _analyze_events py_str fromisoformat events = inr a ->
  Forall authored (user_messages a)
  /\ Forall trimmed (assistant_responses a)
  /\ Forall alarming (errors a).
Proof.
  intros H. apply analyze_events_inr in H.
  destruct H as [st [Hloop [_ [_ [Hu [_ [_ [_ [He [Hr _]]]]]]]]]].
  rewrite Hu, He, Hr.
  apply (loop_texts py_str events events initial st Hloop).
  repeat split; constructor.
Qed.

(** X11. Every user message of an analysis is non-empty, has no leading
    or trailing whitespace, and contains none of the markers of a relayed
    tool result ("tool_use_id", "tool_result", the malicious-files note,
    "system-reminder"). *)
Theorem user_messages_are_authored
  (events : list pyval) (a : SessionAnalysis) :
  _analyze_events py_str fromisoformat events = inr a ->
  Forall (fun m => Py.nonempty m = true
                   /\ Py.strip m = m
                   /\ Py.any_in tool_result_patterns m = false)
         (user_messages a).
Proof. intros H. apply (analysis_texts events a H). Qed.

(** X12. Every assistant response of an analysis is non-empty and has no
    leading or trailing whitespace; every error string of an analysis
    contains "error" or "failed" once lower-cased. *)
Theorem responses_and_errors_are_filtered
  (events : list pyval) (a : SessionAnalysis) :
  _analyze_events py_str fromisoformat events = inr a ->
  Forall (fun m => Py.nonempty m = true /\ Py.strip m = m)
         (assistant_responses a)
  /\ Forall (fun m => Py.str_in "error" (Py.lower m)
                      || Py.str_in "failed" (Py.lower m) = true)
            (errors a).
Proof. intros H. apply (analysis_texts events a H). Qed.

End TextsOfAnalysis.

Lemma user_messages_are_authored_witness :
  Forall (fun m => Py.nonempty m = true
                   /\ Py.strip m = m
                   /\ Py.any_in tool_result_patterns m = false)
         (user_messages (Examples.analysis_of Examples.request_and_four_files)).
Proof.
  assert (H : _analyze_events Examples.show Examples.fromisoformat
                Examples.request_and_four_files
              = inr (Examples.analysis_of Examples.request_and_four_files))
    by (vm_compute; reflexivity).
  exact (user_messages_are_authored _ _ _ _ H).
Defined.

Lemma responses_and_errors_are_filtered_witness :
  Forall (fun m => Py.nonempty m = true /\ Py.strip m = m)
         (assistant_responses (Examples.analysis_of Examples.remark_and_failure)).
Proof.
  assert (H : _analyze_events Examples.show Examples.fromisoformat
                Examples.remark_and_failure
              = inr (Examples.analysis_of Examples.remark_and_failure))
    by (vm_compute; reflexivity).
  exact (proj1 (responses_and_errors_are_filtered _ _ _ _ H)).
Defined.

(** ** A tool invocation and its answers *)

Section Answers.

Variable py_str : pyval -> string.





End Answers.


(** ** More on the duration *)

Section DurationMore.

Variable fromisoformat : string -> result Datetime.datetime.

Lemma last_cons_snoc {A : Type} (x : A) (l : list A) (y d : A) :
  List.last (x :: l ++ [y]) d = y.
Proof.
  change (x :: l ++ [y])%list with ((x :: l) ++ [y])%list. apply last_last.
Qed.

(** X14. Only the first and the last collected timestamps count: whatever
    stands between them, parsable or not, the duration is that of the two
    ends alone. *)
Theorem duration_ignores_middle (first last : pyval) (middle : list pyval) :
  _calculate_duration fromisoformat (first :: middle ++ [last])
  = _calculate_duration fromisoformat [first; last].
Proof.
  unfold _calculate_duration.
  assert (Hlen : (List.length (first :: middle ++ [last]) <? 2)%nat = false).
  { apply Nat.ltb_ge. cbn [List.length]. rewrite length_app. simpl. lia. }
  rewrite Hlen. change ((List.length [first; last] <? 2)%nat) with false.
  cbv iota. rewrite last_cons_snoc. reflexivity.
Qed.

(** X15. Two ends that parse but cannot be subtracted, one carrying a
    UTC offset and the other not, give the duration 0.0; so do two ends
    that denote the same instant. *)
Theorem duration_zero_cases
  (ts : list pyval) (s0 s1 : string) (d0 d1 : Datetime.datetime) :
  List.hd PNone ts = PStr s0 ->
  List.last ts PNone = PStr s1 ->
  fromisoformat (utc_offset s0) = inr d0 ->
  fromisoformat (utc_offset s1) = inr d1 ->
  ((Datetime.utcoffset d0 = None <-> Datetime.utcoffset d1 <> None) ->
   _calculate_duration fromisoformat ts = F64.zero)
  /\ (Datetime.sub d1 d0 = inr 0%Z ->
      _calculate_duration fromisoformat ts = F64.zero).
Proof.
  intros H0 H1 Hp0 Hp1.
  assert (Hbody : (2 <= List.length ts)%nat ->
            _calculate_duration fromisoformat ts
            = match Datetime.sub d1 d0 with
              | inr delta =>
                  F64.round1 (F64.div (Datetime.total_seconds delta)
                                      (F64.of_int 60))
              | inl _ => F64.zero
              end).
  { intros Hlong. rewrite (duration_unfold fromisoformat ts Hlong), H0, H1.
    cbn [py_replace bind ret]. fold (utc_offset s0). fold (utc_offset s1).
    rewrite Hp0. cbn [bind]. rewrite Hp1. cbn [bind].
    destruct (Datetime.sub d1 d0); reflexivity. }
  assert (Hshort : (List.length ts < 2)%nat ->
            _calculate_duration fromisoformat ts = F64.zero).
  { intros Hs. unfold _calculate_duration.
    destruct (Nat.ltb_spec (List.length ts) 2); [reflexivity | lia]. }
  split.
  - intros Hmixed.
    destruct (Nat.lt_ge_cases (List.length ts) 2) as [Hs | Hl]; [auto|].
    rewrite (Hbody Hl). unfold Datetime.sub.
    destruct (Datetime.utcoffset d0) as [o0|], (Datetime.utcoffset d1) as [o1|];
      try reflexivity; exfalso.
    + destruct Hmixed as [_ Hm]. specialize (Hm ltac:(discriminate)).
      discriminate Hm.
    + destruct Hmixed as [Hm _]. apply (Hm eq_refl). reflexivity.
  - intros Hsame.
    destruct (Nat.lt_ge_cases (List.length ts) 2) as [Hs | Hl]; [auto|].
    rewrite (Hbody Hl), Hsame. vm_compute. reflexivity.
Qed.

End DurationMore.

Lemma duration_zero_cases_witness :
  _calculate_duration Examples.fromisoformat
    [PStr Examples.T0; PStr "2024-01-01T00:05:30"] = F64.zero.
Proof.
  apply (proj1 (duration_zero_cases Examples.fromisoformat
                  [PStr Examples.T0; PStr "2024-01-01T00:05:30"]
                  Examples.T0 "2024-01-01T00:05:30"
                  (Datetime.mk_datetime 2024 1 1 0 0 0 0 (Some 0%Z))
                  (Datetime.mk_datetime 2024 1 1 0 5 30 0 None)
                  eq_refl eq_refl
                  ltac:(vm_compute; reflexivity)
                  ltac:(vm_compute; reflexivity))).
  cbn. split; intros H; [discriminate H | congruence].
Defined.

(** ** Lines that decode badly *)

Section Lines.

Variable py_str : pyval -> string.
Variable json_loads : string -> result pyval.
Variable fromisoformat : string -> result Datetime.datetime.



Lemma lstrip_blank_prefix (ws : string) :
  Py.lstrip ws = "" -> forall s, Py.lstrip (ws ++ s) = Py.lstrip s.
Proof.
  induction ws as [|c r IH]; intros H s; [reflexivity|].
  cbn [Py.lstrip append] in H |- *.
  destruct (Py.isspace c); [apply IH; exact H | discriminate H].
Qed.

Lemma rstrip_blank (ws : string) : Py.lstrip ws = "" -> Py.rstrip ws = "".
Proof.
  induction ws as [|c r IH]; intros H; [reflexivity|].
  cbn [Py.lstrip] in H. cbn [Py.rstrip].
  destruct (Py.isspace c); [|discriminate H].
  rewrite (IH H). reflexivity.
Qed.

Lemma rstrip_blank_suffix (ws : string) :
  Py.lstrip ws = "" -> forall s, Py.rstrip (s ++ ws) = Py.rstrip s.
Proof.
  intros H. induction s as [|c r IH].
  - cbn [append]. rewrite (rstrip_blank ws H). reflexivity.
  - cbn [append Py.rstrip]. rewrite IH. reflexivity.
Qed.

Lemma lstrip_app_blank (ws : string) :
  Py.lstrip ws = "" ->
  forall s, Py.rstrip (Py.lstrip (s ++ ws)) = Py.rstrip (Py.lstrip s).
Proof.
  intros H. induction s as [|c r IH].
  - cbn [append]. rewrite H. reflexivity.
  - cbn [append Py.lstrip]. destruct (Py.isspace c); [exact IH|].
    apply (rstrip_blank_suffix ws H (String c r)).
Qed.

(** Whitespace around a line does not change what [strip] returns. *)
Lemma strip_padding (left right s : string) :
  Py.lstrip left = "" -> Py.lstrip right = "" ->
  Py.strip (left ++ s ++ right) = Py.strip s.
Proof.
  intros Hl Hr. unfold Py.strip.
  rewrite (lstrip_blank_prefix left Hl). apply lstrip_app_blank. exact Hr.
Qed.

(** X17. Whitespace before and after the lines of a file (indentation,
    the newline that ends each line, carriage returns) does not change the
    analysis. *)
Theorem analysis_ignores_padding (left right : string) (lines : list string) :
  Py.lstrip left = "" -> Py.lstrip right = "" ->
  analyze_transcript py_str json_loads fromisoformat
    (Lines (List.map (fun line => left ++ line ++ right) lines))
  = analyze_transcript py_str json_loads fromisoformat (Lines lines).
Proof.
  intros Hl Hr. rewrite !analyze_lines. unfold _parse_transcript_file.
  assert (Hsame : forall events,
            foldM (parse_line json_loads)
              (List.map (fun line => left ++ line ++ right) lines) events
            = foldM (parse_line json_loads) lines events).
  { induction lines as [|line lines IH]; intros events; [reflexivity|].
    cbn [List.map foldM].
    assert (Hline : parse_line json_loads events (left ++ line ++ right)
                    = parse_line json_loads events line).
    { unfold parse_line. rewrite (strip_padding left right line Hl Hr).
      reflexivity. }
    rewrite Hline.
    destruct (parse_line json_loads events line); cbn [bind];
      [reflexivity | apply IH]. }
  rewrite Hsame. reflexivity.
Qed.

(** What a line decodes to is among the events read from the file. *)
Lemma parse_keeps (line : string) (value : pyval) (lines : list string) :
  Py.nonempty (Py.strip line) = true ->
  json_loads (Py.strip line) = inr value ->
  forall (acc events : list pyval),
  foldM (parse_line json_loads) lines acc = inr events ->
  In value acc \/ In line lines -> In value events.
Proof.
  intros Hne Hload.
  induction lines as [|l lines IH]; intros acc events H Hin.
  - injection H as <-. destruct Hin as [Hin | []]. exact Hin.
  - cbn [foldM] in H.
    destruct (parse_line json_loads acc l) as [e | acc1] eqn:Hl;
      cbn [bind] in H; [discriminate H|].
    apply (IH acc1 events H).
    destruct Hin as [Hin | [-> | Hin]].
    + left. unfold parse_line in Hl.
      destruct (Py.nonempty (Py.strip l));
        [|injection Hl as <-; exact Hin].
      destruct (json_loads (Py.strip l)) as [e | v].
      * destruct e; try discriminate Hl. injection Hl as <-. exact Hin.
      * injection Hl as <-. apply in_or_app. left. exact Hin.
    + left. unfold parse_line in Hl. rewrite Hne, Hload in Hl.
      injection Hl as <-. apply in_or_app. right. left. reflexivity.
    + right. exact Hin.
Qed.

Lemma loop_aborts (evs : list pyval) (bad : pyval) :
  is_dict bad = false ->
  forall (l : list pyval) (st : containers),
  In bad l -> exists e, foldM (process_event py_str evs) l st = inl e.
Proof.
  intros Hbad. induction l as [|event l IH]; intros st Hin; [destruct Hin|].
  cbn [foldM].
  destruct (process_event py_str evs st event) as [e | st1] eqn:Hstep;
    [exists e; reflexivity|].
  cbn [bind]. destruct Hin as [-> | Hin]; [|apply IH; exact Hin].
  exfalso. destruct bad; try discriminate Hstep. discriminate Hbad.
Qed.

(** X18. A line that decodes to something other than a mapping (a number,
    a string, a list, null) is not skipped: wherever it stands, the whole
    analysis is replaced by the empty analysis tagged "analysis_error: ...".
    So is the analysis of a source that exists but cannot be read. *)
Theorem non_mapping_line_aborts (lines : list string) (line : string)
  (value : pyval) :
  In line lines ->
  Py.nonempty (Py.strip line) = true ->
  json_loads (Py.strip line) = inr value ->
  is_dict value = false ->
  (exists e : exn,
     analyze_transcript py_str json_loads fromisoformat (Lines lines)
     = inr (_empty_analysis ("analysis_error: " ++ str_exn e)))
  /\ (forall e : exn,
        analyze_transcript py_str json_loads fromisoformat (Unreadable e)
        = inr (_empty_analysis ("analysis_error: " ++ str_exn e))).
Proof.
  intros Hin Hne Hload Hbad. split; [|reflexivity].
  rewrite analyze_lines.
  destruct (_parse_transcript_file json_loads (Lines lines))
    as [e | events] eqn:Hp; cbn [bind]; [exists e; reflexivity|].
  assert (Hev : In value events).
  { apply (parse_keeps line value lines Hne Hload [] events Hp).
    right. exact Hin. }
  unfold _analyze_events.
  destruct (loop_aborts events value Hbad _ initial Hev) as [e ->].
  exists e. reflexivity.
Qed.

End Lines.


Lemma analysis_ignores_padding_witness :
  Examples.analyze Examples.unknown_context_message
    (Lines (List.map (fun line => "  " ++ line ++ String (ascii_of_nat 10) "")
              (List.map Examples.dumps Examples.unknown_context_message)))
  = Examples.analyze Examples.unknown_context_message
      (Lines (List.map Examples.dumps Examples.unknown_context_message)).
Proof.
  apply (analysis_ignores_padding Examples.show
           (Examples.loads Examples.unknown_context_message)
           Examples.fromisoformat "  " (String (ascii_of_nat 10) "")
           (List.map Examples.dumps Examples.unknown_context_message));
    reflexivity.
Defined.

Lemma non_mapping_line_aborts_witness :
  exists e : exn,
    Examples.analyze Examples.number_line
      (Examples.file_of Examples.number_line)
    = inr (_empty_analysis ("analysis_error: " ++ str_exn e)).
Proof.
  apply (proj1 (non_mapping_line_aborts Examples.show
                  (Examples.loads Examples.number_line)
                  Examples.fromisoformat
                  (List.map Examples.dumps Examples.number_line)
                  "42" (PInt 42)
                  ltac:(vm_compute; auto)
                  ltac:(vm_compute; reflexivity)
                  ltac:(vm_compute; reflexivity)
                  eq_refl)).
Defined.

(** ** A session that changed nothing *)

Lemma filterM_inr_filter {A : Type} (p : A -> result bool) (q : A -> bool) :
  (forall x b, p x = inr b -> b = q x) ->
  forall (l r : list A), filterM p l = inr r -> r = filter q l.
Proof.
  intros Hp. induction l as [|x l IH]; intros r H.
  - injection H as <-. reflexivity.
  - cbn [filterM] in H.
    destruct (p x) as [e | b] eqn:Hx; cbn [bind] in H; [discriminate|].
    destruct (filterM p l) as [e | r'] eqn:Hr; cbn [bind ret] in H;
      [discriminate|].
    injection H as <-. cbn [filter].
    rewrite <- (Hp x b Hx), (IH r' eq_refl). reflexivity.
Qed.

Section Idle.

Variable py_str : pyval -> string.
Variable fromisoformat : string -> result Datetime.datetime.

(** X19. For an analysis that [_analyze_events] returns, with summaries
    enabled: when no write or edit succeeded, no shell command succeeded and
    no error was logged, the stop summary is
    "Completed: Conducted code research" if a research tool was used, and a
    fallback message otherwise. *)
Theorem stop_summary_of_idle_session
  (events : list pyval) (a : SessionAnalysis) (env : environ) (rnd : draws) :
  _analyze_events py_str fromisoformat events = inr a ->
  _is_summary_enabled env = true ->
  created_ops (file_operations a) = [] ->
  modified_ops (file_operations a) = [] ->
  filter bc_success (bash_commands a) = [] ->
  errors a = [] ->
  (filter is_research (tool_events a) <> [] ->
   generate_stop_summary env rnd a = "Completed: Conducted code research")
  /\ (filter is_research (tool_events a) = [] ->
      In (generate_stop_summary env rnd a) fallback_stop_messages).
Proof.
  intros H Hen Hc Hm Hb He.
  apply analyze_events_inr in H.
  destruct H as [st [_ H]]. do 8 (destruct H as [_ H]). destruct H as [Hacc _].
  unfold _identify_accomplishments in Hacc. rewrite Hc, Hm, Hb in Hacc.
  cbn [is_nil bind ret] in Hacc.
  destruct (filterM (fun event => in_str_set (tool_name event) research_tools)
                    (tool_events a)) as [e | used] eqn:Hused;
    cbn [bind ret] in Hacc; [discriminate|].
  assert (Hu : used = filter is_research (tool_events a)).
  { apply (filterM_inr_filter
             (fun event => in_str_set (tool_name event) research_tools)
             is_research) with (l := tool_events a); [|exact Hused].
    intros x b Hx. apply in_str_set_inr in Hx. exact Hx. }
  assert (Hfile : _summarize_file_operations (file_operations a) = inr "").
  { unfold _summarize_file_operations.
    destruct (is_nil (file_operations a)); [reflexivity|].
    rewrite Hc, Hm. reflexivity. }
  assert (Hbash : _summarize_bash_commands (bash_commands a) = inr "").
  { unfold _summarize_bash_commands.
    destruct (is_nil (bash_commands a)); [reflexivity|].
    rewrite Hb. reflexivity. }
  assert (Hpool : In (choice rnd fallback_stop_messages) fallback_stop_messages)
    by (apply choice_in_pool; discriminate).
  unfold generate_stop_summary.
  rewrite Hen, Hfile, Hbash, He. cbn [negb bind ret].
  rewrite <- Hu.
  unfold ret in Hacc.
  destruct used as [|u us]; injection Hacc as <-; cbn.
  - split; [congruence|]. intros _.
    destruct (is_nil (file_operations a) && is_nil (bash_commands a));
      exact Hpool.
  - split; [|discriminate]. intros _. reflexivity.
Qed.

End Idle.

Lemma stop_summary_of_idle_session_witness :
  generate_stop_summary Examples.default_env Examples.first_draw
    (Examples.analysis_of Examples.two_searches)
  = "Completed: Conducted code research".
Proof.
  assert (H : _analyze_events Examples.show Examples.fromisoformat
                Examples.two_searches
              = inr (Examples.analysis_of Examples.two_searches))
    by (vm_compute; reflexivity).
  apply (proj1 (stop_summary_of_idle_session _ _ _ _ Examples.default_env
                  Examples.first_draw H eq_refl eq_refl eq_refl eq_refl eq_refl)).
  vm_compute. discriminate.
Defined.

(** * The hook scripts *)

Section HookMessages.

Variable py_str : pyval -> string.
Variable json_loads : string -> result pyval.
Variable fromisoformat : string -> result Datetime.datetime.
Variable fs : string -> source.
Variable fd_open : Z -> bool.
Variable utils_importable : bool.
Variable find_current_transcript : option string.
Variable env : environ.
Variable rnd : draws.

Lemma notification_summary_nonempty (a : SessionAnalysis) :
  Py.nonempty (generate_notification_summary env rnd a) = true.
Proof.
  destruct (notification_summary_cases env rnd a)
    as [[msg [Hin [H | H]]] | [body H]]; rewrite H.
  - apply (notification_pool_small msg Hin).
  - apply append_nonempty_r. apply (notification_pool_small msg Hin).
  - apply truncate_nonempty, append_nonempty_r, append_nonempty_r.
    reflexivity.
Qed.

(** X20. The message announced when a subagent stops is never empty and
    has at most 83 characters, whatever the hook input. It is
    "Subagent Complete" when the input is no mapping, when it has no
    transcript path or a falsy one, when the path is a string that names no
    file or a file that cannot be inspected, when the path is neither a
    string nor an integer, and when the analysis modules cannot be imported;
    for a string path that exists (modules importable) the analyzer returns
    an analysis and the message is the subagent summary of that analysis. *)
Theorem subagent_message_cases (input_data : pyval) :
  Py.nonempty (Hooks.get_intelligent_subagent_message py_str json_loads
        fromisoformat fs fd_open utils_importable env rnd input_data) = true
  /\ (String.length (Hooks.get_intelligent_subagent_message py_str json_loads
        fromisoformat fs fd_open utils_importable env rnd input_data) <= 83)%nat
  /\ (is_dict input_data = false ->
      (Hooks.get_intelligent_subagent_message py_str json_loads
        fromisoformat fs fd_open utils_importable env rnd input_data)
        = "Subagent Complete")
  /\ (forall d path,
        input_data = PDict d ->
        dict_get d "transcript_path" PNone = path ->
        truthy path = false
        \/ (exists p, path = PStr p
                      /\ (fs p = Missing \/ exists msg, fs p = Inaccessible msg))
        \/ (is_str path = false /\ as_int path = None)
        \/ utils_importable = false ->
        (Hooks.get_intelligent_subagent_message py_str json_loads
        fromisoformat fs fd_open utils_importable env rnd input_data)
        = "Subagent Complete")
  /\ (forall d p,
        input_data = PDict d ->
        dict_get d "transcript_path" PNone = PStr p ->
        p <> "" -> fs p <> Missing -> (forall msg, fs p <> Inaccessible msg) ->
        utils_importable = true ->
        exists a : SessionAnalysis,
          analyze_transcript py_str json_loads fromisoformat (fs p) = inr a
          /\ (Hooks.get_intelligent_subagent_message py_str json_loads
                fromisoformat fs fd_open utils_importable env rnd input_data)
             = generate_subagent_summary env rnd a).
Proof.
  assert (Hshape : (Hooks.get_intelligent_subagent_message py_str json_loads
        fromisoformat fs fd_open utils_importable env rnd input_data)
        = "Subagent Complete"
                   \/ exists analysis,
                        (Hooks.get_intelligent_subagent_message py_str json_loads
        fromisoformat fs fd_open utils_importable env rnd input_data)
                        = generate_subagent_summary env rnd analysis).
  { unfold Hooks.get_intelligent_subagent_message.
    destruct (py_get input_data "transcript_path" PNone) as [e | path];
      cbn [bind]; [left; reflexivity|].
    destruct (truthy path); [|left; reflexivity].
    destruct (Hooks.os_path_exists fs fd_open path) as [e | present];
      cbn [bind]; [left; reflexivity|].
    destruct present; [|left; reflexivity].
    destruct (Hooks.import_utils utils_importable) as [e | u];
      cbn [bind]; [left; reflexivity|].
    destruct (Hooks.analyze_path py_str json_loads fromisoformat fs path)
      as [e | analysis]; cbn [bind ret]; [left; reflexivity|].
    right. exists analysis. reflexivity. }
  split; [|split; [|split; [|split]]].
  - destruct Hshape as [-> | [analysis ->]]; [reflexivity|].
    destruct (subagent_summary_cases env rnd analysis) as [Hin | [body ->]].
    + apply (subagent_pool_small _ Hin).
    + apply truncate_nonempty. reflexivity.
  - destruct Hshape as [-> | [analysis ->]]; [simpl; lia|].
    destruct (subagent_summary_cases env rnd analysis) as [Hin | [body ->]].
    + apply (subagent_pool_small _ Hin).
    + apply truncate_length.
  - intros Hd. unfold Hooks.get_intelligent_subagent_message.
    destruct input_data; try reflexivity. discriminate Hd.
  - intros d path -> Hpath Hcase.
    unfold Hooks.get_intelligent_subagent_message.
    cbn [py_get bind ret]. rewrite Hpath.
    destruct (truthy path) eqn:Ht; [|reflexivity].
    destruct Hcase as [Hf | [[p [-> [Hp | [msg Hp]]]] | [[Hs Hi] | Himp]]].
    + congruence.
    + cbn [Hooks.os_path_exists bind ret]. rewrite Hp. reflexivity.
    + cbn [Hooks.os_path_exists bind ret]. rewrite Hp. reflexivity.
    + destruct path; try reflexivity;
        try discriminate Hs; try discriminate Hi; discriminate Ht.
    + destruct (Hooks.os_path_exists fs fd_open path) as [e | present];
        cbn [bind]; [reflexivity|].
      destruct present; [|reflexivity].
      unfold Hooks.import_utils. rewrite Himp. reflexivity.
  - intros d p -> Hpath Hne Hp Hacc Himp.
    unfold Hooks.get_intelligent_subagent_message.
    cbn [py_get bind ret]. rewrite Hpath.
    assert (Ht : truthy (PStr p) = true).
    { cbn [truthy]. destruct (String.eqb_spec p ""); [contradiction|reflexivity]. }
    rewrite Ht. cbn [Hooks.os_path_exists bind ret].
    destruct (analyze_transcript_cases py_str json_loads fromisoformat (fs p))
      as [[msg [Hf _]] | [[Hf _] | Hret]].
    + exfalso. apply (Hacc msg Hf).
    + contradiction.
    + assert (Hex : exists a,
                analyze_transcript py_str json_loads fromisoformat (fs p)
                = inr a)
        by (destruct Hret as [[e H] | [ls [evs [a [_ [_ [_ H]]]]]]]; eauto).
      destruct Hex as [a Ha]. exists a. split; [exact Ha|].
      destruct (fs p) eqn:Hf; [contradiction | exfalso; eapply Hacc; eauto | |];
        unfold Hooks.import_utils; rewrite Himp;
        cbn [bind ret Hooks.analyze_path]; rewrite Hf, Ha; reflexivity.
Qed.


(** X21. The message announced when the agent waits for input is never
    empty. Without a current transcript, with one that names no file or a
    file that cannot be inspected, or without the analysis modules, it is
    the generic message:
    "Your agent needs your input", or the engineer's name followed by
    ", your agent needs your input". *)
Theorem notification_message_cases (input_data : pyval) :
  Py.nonempty (Hooks.get_intelligent_notification_message py_str json_loads
       fromisoformat fs fd_open utils_importable find_current_transcript env
       rnd input_data) = true
  /\ (find_current_transcript = None
      \/ (exists p, find_current_transcript = Some p
                    /\ (fs p = Missing \/ exists msg, fs p = Inaccessible msg))
      \/ utils_importable = false ->
      (Hooks.get_intelligent_notification_message py_str json_loads
       fromisoformat fs fd_open utils_importable find_current_transcript env
       rnd input_data)
      = Hooks.get_generic_notification_message env rnd)
  /\ (Hooks.get_generic_notification_message env rnd
      = "Your agent needs your input"
      \/ Hooks.get_generic_notification_message env rnd
         = Py.strip (getenv (ENGINEER_NAME env) "")
           ++ ", your agent needs your input").
Proof.
  assert (Hgen : Py.nonempty (Hooks.get_generic_notification_message env rnd)
                 = true).
  { unfold Hooks.get_generic_notification_message.
    destruct (Py.nonempty (Py.strip (getenv (ENGINEER_NAME env) ""))
              && below_0_3 rnd); [|reflexivity].
    apply append_nonempty_r. reflexivity. }
  split; [|split].
  - unfold Hooks.get_intelligent_notification_message.
    destruct find_current_transcript as [p|]; [|exact Hgen].
    destruct (Py.nonempty p); [|exact Hgen].
    cbn [Hooks.os_path_exists bind ret].
    destruct (fs p) eqn:Hf; [exact Hgen | exact Hgen | |];
      (destruct (Hooks.import_utils utils_importable) as [err | u];
         cbn [bind ret]; [exact Hgen|]);
      cbn [Hooks.analyze_path bind ret]; rewrite Hf;
      (destruct (analyze_transcript py_str json_loads fromisoformat _)
         as [err | a]; cbn [bind ret];
       [exact Hgen | apply notification_summary_nonempty]).
  - intros Hcase. unfold Hooks.get_intelligent_notification_message.
    destruct find_current_transcript as [p|] eqn:Hfind; [|reflexivity].
    destruct (Py.nonempty p); [|reflexivity].
    cbn [Hooks.os_path_exists bind ret].
    destruct Hcase as [Hnone | [[q [Hq [Hmiss | [msg Hmiss]]]] | Himp]].
    + discriminate Hnone.
    + injection Hq as <-. rewrite Hmiss. reflexivity.
    + injection Hq as <-. rewrite Hmiss. reflexivity.
    + destruct (fs p); [reflexivity | reflexivity | |];
        unfold Hooks.import_utils; rewrite Himp; reflexivity.
  - unfold Hooks.get_generic_notification_message.
    destruct (Py.nonempty (Py.strip (getenv (ENGINEER_NAME env) ""))
              && below_0_3 rnd); auto.
Qed.

End HookMessages.

Lemma subagent_message_cases_witness :
  Hooks.get_intelligent_subagent_message Examples.show
    (Examples.loads Examples.two_searches) Examples.fromisoformat
    (Examples.one_file "/tmp/t.jsonl" (Examples.file_of Examples.two_searches))
    Examples.std_streams true Examples.default_env Examples.first_draw
    (Examples.hook_input "/tmp/t.jsonl")
  = "Subagent completed: analyzed 2 code components"
  /\ Hooks.get_intelligent_subagent_message Examples.show
       (Examples.loads Examples.two_searches) Examples.fromisoformat
       (Examples.one_file "/tmp/t.jsonl" (Examples.file_of Examples.two_searches))
       Examples.std_streams true Examples.default_env Examples.first_draw
       (Examples.hook_input "/tmp/other.jsonl")
     = "Subagent Complete".
Proof.
  split.
  - destruct (proj2 (proj2 (proj2 (proj2
               (subagent_message_cases Examples.show
                  (Examples.loads Examples.two_searches) Examples.fromisoformat
                  (Examples.one_file "/tmp/t.jsonl"
                     (Examples.file_of Examples.two_searches))
                  Examples.std_streams true Examples.default_env
                  Examples.first_draw (Examples.hook_input "/tmp/t.jsonl")))))
               _ "/tmp/t.jsonl" eq_refl eq_refl
               ltac:(discriminate) ltac:(vm_compute; discriminate)
               ltac:(vm_compute; discriminate) eq_refl) as [a [Ha W]].
    rewrite W.
    assert (H : analyze_transcript Examples.show
                  (Examples.loads Examples.two_searches) Examples.fromisoformat
                  (Examples.one_file "/tmp/t.jsonl"
                     (Examples.file_of Examples.two_searches) "/tmp/t.jsonl")
                = inr (Examples.analysis_of Examples.two_searches))
      by (vm_compute; reflexivity).
    rewrite H in Ha. injection Ha as <-. vm_compute. reflexivity.
  - apply (proj1 (proj2 (proj2 (proj2
             (subagent_message_cases Examples.show
                (Examples.loads Examples.two_searches) Examples.fromisoformat
                (Examples.one_file "/tmp/t.jsonl"
                   (Examples.file_of Examples.two_searches))
                Examples.std_streams true Examples.default_env
                Examples.first_draw (Examples.hook_input "/tmp/other.jsonl")))))
             _ (PStr "/tmp/other.jsonl") eq_refl eq_refl).
    right. left. exists "/tmp/other.jsonl". split; [reflexivity|].
    left. reflexivity.
Defined.

Lemma notification_message_cases_witness :
  Hooks.get_intelligent_notification_message Examples.show
    (Examples.loads []) Examples.fromisoformat
    (Examples.one_file "/tmp/t.jsonl" Examples.corrupt_file)
    Examples.std_streams true None Examples.default_env Examples.first_draw
    PNone
  = "Your agent needs your input".
Proof.
  rewrite (proj1 (proj2
             (notification_message_cases Examples.show (Examples.loads [])
                Examples.fromisoformat
                (Examples.one_file "/tmp/t.jsonl" Examples.corrupt_file)
                Examples.std_streams true None Examples.default_env
                Examples.first_draw PNone))
             (or_introl eq_refl)).
  reflexivity.
Defined.

(** ** Which timestamps the duration is computed from *)

Section Timestamps.

Variable py_str : pyval -> string.
Variable fromisoformat : string -> result Datetime.datetime.

Lemma loop_timestamps (evs : list pyval) :
  forall (l : list pyval) (st st' : containers),
  foldM (process_event py_str evs) l st = inr st' ->
  st_timestamps st'
  = (st_timestamps st ++ filter truthy (List.map timestamp_of l))%list.
Proof.
  induction l as [|event l IH]; intros st st' H.
  - injection H as <-. cbn. rewrite app_nil_r. reflexivity.
  - cbn [foldM] in H.
    destruct (process_event py_str evs st event) as [e | st1] eqn:Hstep;
      cbn [bind] in H; [discriminate|].
    rewrite (IH st1 st' H).
    destruct (process_event_effect py_str evs st st1 event Hstep)
      as [d [-> [_ [Hts _]]]].
    rewrite Hts. cbn [List.map filter timestamp_of].
    destruct (truthy (dict_get d "timestamp" (PStr "")));
      [rewrite <- app_assoc|]; reflexivity.
Qed.

(** X22. The duration of an analysis is computed from the timestamps of
    all events, whatever their type, in event order, leaving out the
    events without a timestamp and those whose timestamp is falsy (empty
    string, zero, null). *)
Theorem duration_of_analysis (events : list pyval) (a : SessionAnalysis) :
  _analyze_events py_str fromisoformat events = inr a ->
  duration_minutes a
  = _calculate_duration fromisoformat
      (filter truthy (List.map timestamp_of events)).
Proof.
  intros H. apply analyze_events_inr in H.
  destruct H as [st [Hloop [_ [Hd _]]]].
  rewrite Hd, (loop_timestamps events events initial st Hloop). reflexivity.
Qed.

End Timestamps.

Lemma duration_of_analysis_witness :
  duration_minutes (Examples.analysis_of Examples.two_sessions)
  = _calculate_duration Examples.fromisoformat
      (filter truthy (List.map timestamp_of Examples.two_sessions)).
Proof.
  assert (H : _analyze_events Examples.show Examples.fromisoformat
                Examples.two_sessions
              = inr (Examples.analysis_of Examples.two_sessions))
    by (vm_compute; reflexivity).
  exact (duration_of_analysis _ _ _ _ H).
Defined.

(** ** Files that decode to well-typed events *)

Section WellTypedFiles.

Variable py_str : pyval -> string.
Variable json_loads : string -> result pyval.
Variable fromisoformat : string -> result Datetime.datetime.



End WellTypedFiles.

